(** * Contaminametre AlphaBeta: per-step and per-event data reduction

    A shallow embedding of the user actions the simulation registers with
    the transport toolkit:

    - [OpticalSimulationEventAction] (per-event statistics, reset and
      finalisation), from [OpticalSimulationEventAction.hh/.cc];
    - [OpticalSimulationSteppingAction] (boundary classification, episode
      accounting of the two detector volumes, photon birth information),
      from [OpticalSimulationSteppingAction.hh/.cc];
    - the argument handling of [main], from [OpticalSimulation.cc].

    Conventions of the embedding.

    - A [G4int] is a 32-bit signed [int]; it is carried as a [Z] and every
      arithmetic operation on it is checked: leaving the range of [int]
      is undefined in C++, and the embedding then yields
      [Fault SignedOverflow] instead of inventing a value.
    - A [G4float] is an IEEE-754 binary32 number and a [G4double] a binary64
      number, both represented by [spec_float] with the operations of
      [SpecFloat] at the matching precision (round to nearest, ties to even).
    - A [std::vector] is a [list], [push_back] appends at the end.
    - Member functions take the object they act on as an argument and
      return its new value.  Text written to [G4cout] is not part of the
      state and does not appear; the [int] sums and quotients computed for
      printing do, because they can overflow or divide by zero. *)

From Stdlib Require Import ZArith List String Bool Lia.
From Stdlib Require Import Floats.SpecFloat.
From Stdlib Require Import DecimalString DecimalN.
Import ListNotations.

Local Open Scope string_scope.
Local Open Scope list_scope.
Local Open Scope Z_scope.

(** ** Outcomes of C++ evaluation *)

Inductive fault : Type :=
| SignedOverflow      (* an [int] result outside [INT_MIN, INT_MAX] *)
| DivisionByZero      (* integer division by zero *)
| NullDereference     (* a member called through a null pointer *)
| FloatToIntRange.    (* float-to-int conversion of a value [int] cannot hold *)

Inductive outcome (A : Type) : Type :=
| Ok : A -> outcome A
| Fault : fault -> outcome A.

Arguments Ok {A} _.
Arguments Fault {A} _.

Definition bind {A B : Type} (c : outcome A) (k : A -> outcome B) : outcome B :=
  match c with
  | Ok a => k a
  | Fault f => Fault f
  end.

Notation "x <- c ;; k" := (bind c (fun x => k))
  (at level 61, c at next level, right associativity).

(** ** G4int: checked 32-bit signed arithmetic *)

Module CxxInt.

Definition INT_MAX : Z := 2147483647.
Definition INT_MIN : Z := -2147483648.

Definition in_range (n : Z) : bool := (INT_MIN <=? n) && (n <=? INT_MAX).

Definition checked (n : Z) : outcome Z :=
  if in_range n then Ok n else Fault SignedOverflow.

Definition add (a b : Z) : outcome Z := checked (a + b).
Definition mul (a b : Z) : outcome Z := checked (a * b).

(** [a / b] on [int]: truncation towards zero. *)
Definition div (a b : Z) : outcome Z :=
  if b =? 0 then Fault DivisionByZero else checked (Z.quot a b).

(** [x++] used as a statement. *)
Definition incr (a : Z) : outcome Z := add a 1.

End CxxInt.

(** ** G4float and G4double *)

Module Fp.

Definition float : Type := spec_float.   (* binary32 *)
Definition double : Type := spec_float.  (* binary64 *)

Definition fprec : Z := 24.
Definition femax : Z := 128.
Definition dprec : Z := 53.
Definition demax : Z := 1024.

Definition fzero : float := S754_zero false.
Definition dzero : double := S754_zero false.

Definition fadd (x y : float) : float := SFadd fprec femax x y.
Definition dsub (x y : double) : double := SFsub dprec demax x y.
Definition ddiv (x y : double) : double := SFdiv dprec demax x y.

(** Integer to floating point (exact when the integer fits the mantissa,
    rounded otherwise). *)
Definition float_of_int (n : Z) : float := binary_normalize fprec femax n 0 false.
Definition double_of_int (n : Z) : double := binary_normalize dprec demax n 0 false.

(** Narrowing of a [G4double] argument to a [G4float] parameter. *)
Definition float_of_double (x : double) : float :=
  match x with
  | S754_finite s m e => binary_normalize fprec femax (cond_Zopp s (Zpos m)) e s
  | _ => x
  end.

(** Conversion of a [float] to [int]: the fractional part is discarded;
    undefined when the result does not fit. *)
Definition truncate (x : float) : option Z :=
  match x with
  | S754_zero _ => Some 0
  | S754_finite s m e =>
      Some (cond_Zopp s (match e with
                         | Zneg p => Z.shiftr (Zpos m) (Zpos p)
                         | _ => Z.shiftl (Zpos m) e
                         end))
  | _ => None
  end.

Definition int_of_float (x : float) : outcome Z :=
  match truncate x with
  | Some n => if CxxInt.in_range n then Ok n else Fault FloatToIntRange
  | None => Fault FloatToIntRange
  end.

(** [x == 0], [x > 0] with the literal converted to the type of [x]. *)
Definition eq_zero (x : spec_float) : bool := SFeqb x (S754_zero false).
Definition gt_zero (x : spec_float) : bool := SFltb (S754_zero false) x.

End Fp.

Import Fp.

(** ** Per-event statistics records (OpticalSimulationEventAction.hh) *)

(** Input particle data; every member has the default initialiser [0.0]. *)
Module RunTallyInput.

Record t : Type := {
  x : float; xp : float; y : float; yp : float; z : float; zp : float;
  energy : float
}.

Definition default : t :=
  {| x := fzero; xp := fzero; y := fzero; yp := fzero; z := fzero;
     zp := fzero; energy := fzero |}.

End RunTallyInput.

(** Statistics of the optical part, members in declaration order. *)
Record RunTallyOptical : Type := {
  IncidentE : float;
  DepositTotal : float;
  DepositZnS : float;
  DepositSc : float;
  GeneratedTotal : Z;
  GeneratedZnS : Z;
  ScintillationZnS : Z;
  CerenkovZnS : Z;
  GeneratedSc : Z;
  ScintillationSc : Z;
  CerenkovSc : Z;
  BulkAbsTotal : Z;
  BulkAbsZnS : Z;
  BulkAbsSc : Z;
  Absorbed : Z;
  Escaped : Z;
  Failed : Z;
  Killed : Z;
  Detected : Z;
  ExitLightPositionX : list float;
  ExitLightPositionY : list float;
  ExitLightPositionZ : list float;
  DetectorPositionX : list float;
  DetectorPositionY : list float;
  DetectorPositionZ : list float;
  BirthWavelength : list float;
  BirthWavelengthDetected : list float;
  Time : list float;
  Rayleigh : list Z;
  Total_Reflections : list Z;
  Wrap_Reflections : list Z;
  TotalLength : list float;
  Angle_creation : list float;
  Angle_detection : list float;
  FinalState : list Z
}.

(** [RunTallyOptical{}]: value-initialisation of an aggregate without default
    member initialisers gives zero scalars and empty vectors. *)
Definition RunTallyOptical_zero : RunTallyOptical :=
  {|
     IncidentE := fzero;
     DepositTotal := fzero;
     DepositZnS := fzero;
     DepositSc := fzero;
     GeneratedTotal := 0;
     GeneratedZnS := 0;
     ScintillationZnS := 0;
     CerenkovZnS := 0;
     GeneratedSc := 0;
     ScintillationSc := 0;
     CerenkovSc := 0;
     BulkAbsTotal := 0;
     BulkAbsZnS := 0;
     BulkAbsSc := 0;
     Absorbed := 0;
     Escaped := 0;
     Failed := 0;
     Killed := 0;
     Detected := 0;
     ExitLightPositionX := [];
     ExitLightPositionY := [];
     ExitLightPositionZ := [];
     DetectorPositionX := [];
     DetectorPositionY := [];
     DetectorPositionZ := [];
     BirthWavelength := [];
     BirthWavelengthDetected := [];
     Time := [];
     Rayleigh := [];
     Total_Reflections := [];
     Wrap_Reflections := [];
     TotalLength := [];
     Angle_creation := [];
     Angle_detection := [];
     FinalState := [] |}.

(** The members of [RunTallyOptical], named by type, so that an assignment
    to one member is written once for each member type. *)
Inductive FloatMember : Type :=
| mIncidentE
| mDepositTotal
| mDepositZnS
| mDepositSc.

Inductive IntMember : Type :=
| mGeneratedTotal
| mGeneratedZnS
| mScintillationZnS
| mCerenkovZnS
| mGeneratedSc
| mScintillationSc
| mCerenkovSc
| mBulkAbsTotal
| mBulkAbsZnS
| mBulkAbsSc
| mAbsorbed
| mEscaped
| mFailed
| mKilled
| mDetected.

Inductive FloatVecMember : Type :=
| mExitLightPositionX
| mExitLightPositionY
| mExitLightPositionZ
| mDetectorPositionX
| mDetectorPositionY
| mDetectorPositionZ
| mBirthWavelength
| mBirthWavelengthDetected
| mTime
| mTotalLength
| mAngle_creation
| mAngle_detection.

Inductive IntVecMember : Type :=
| mRayleigh
| mTotal_Reflections
| mWrap_Reflections
| mFinalState.

Definition get_float (m : FloatMember) (r : RunTallyOptical) : float :=
  match m with
  | mIncidentE => IncidentE r
  | mDepositTotal => DepositTotal r
  | mDepositZnS => DepositZnS r
  | mDepositSc => DepositSc r
  end.

Definition get_int (m : IntMember) (r : RunTallyOptical) : Z :=
  match m with
  | mGeneratedTotal => GeneratedTotal r
  | mGeneratedZnS => GeneratedZnS r
  | mScintillationZnS => ScintillationZnS r
  | mCerenkovZnS => CerenkovZnS r
  | mGeneratedSc => GeneratedSc r
  | mScintillationSc => ScintillationSc r
  | mCerenkovSc => CerenkovSc r
  | mBulkAbsTotal => BulkAbsTotal r
  | mBulkAbsZnS => BulkAbsZnS r
  | mBulkAbsSc => BulkAbsSc r
  | mAbsorbed => Absorbed r
  | mEscaped => Escaped r
  | mFailed => Failed r
  | mKilled => Killed r
  | mDetected => Detected r
  end.

Definition get_fvec (m : FloatVecMember) (r : RunTallyOptical) : list float :=
  match m with
  | mExitLightPositionX => ExitLightPositionX r
  | mExitLightPositionY => ExitLightPositionY r
  | mExitLightPositionZ => ExitLightPositionZ r
  | mDetectorPositionX => DetectorPositionX r
  | mDetectorPositionY => DetectorPositionY r
  | mDetectorPositionZ => DetectorPositionZ r
  | mBirthWavelength => BirthWavelength r
  | mBirthWavelengthDetected => BirthWavelengthDetected r
  | mTime => Time r
  | mTotalLength => TotalLength r
  | mAngle_creation => Angle_creation r
  | mAngle_detection => Angle_detection r
  end.

Definition get_ivec (m : IntVecMember) (r : RunTallyOptical) : list Z :=
  match m with
  | mRayleigh => Rayleigh r
  | mTotal_Reflections => Total_Reflections r
  | mWrap_Reflections => Wrap_Reflections r
  | mFinalState => FinalState r
  end.

Definition set_float (m : FloatMember) (v : float) (r : RunTallyOptical) : RunTallyOptical :=
  {|
     IncidentE := match m with mIncidentE => v | _ => IncidentE r end;
     DepositTotal := match m with mDepositTotal => v | _ => DepositTotal r end;
     DepositZnS := match m with mDepositZnS => v | _ => DepositZnS r end;
     DepositSc := match m with mDepositSc => v | _ => DepositSc r end;
     GeneratedTotal := GeneratedTotal r;
     GeneratedZnS := GeneratedZnS r;
     ScintillationZnS := ScintillationZnS r;
     CerenkovZnS := CerenkovZnS r;
     GeneratedSc := GeneratedSc r;
     ScintillationSc := ScintillationSc r;
     CerenkovSc := CerenkovSc r;
     BulkAbsTotal := BulkAbsTotal r;
     BulkAbsZnS := BulkAbsZnS r;
     BulkAbsSc := BulkAbsSc r;
     Absorbed := Absorbed r;
     Escaped := Escaped r;
     Failed := Failed r;
     Killed := Killed r;
     Detected := Detected r;
     ExitLightPositionX := ExitLightPositionX r;
     ExitLightPositionY := ExitLightPositionY r;
     ExitLightPositionZ := ExitLightPositionZ r;
     DetectorPositionX := DetectorPositionX r;
     DetectorPositionY := DetectorPositionY r;
     DetectorPositionZ := DetectorPositionZ r;
     BirthWavelength := BirthWavelength r;
     BirthWavelengthDetected := BirthWavelengthDetected r;
     Time := Time r;
     Rayleigh := Rayleigh r;
     Total_Reflections := Total_Reflections r;
     Wrap_Reflections := Wrap_Reflections r;
     TotalLength := TotalLength r;
     Angle_creation := Angle_creation r;
     Angle_detection := Angle_detection r;
     FinalState := FinalState r |}.

Definition set_int (m : IntMember) (v : Z) (r : RunTallyOptical) : RunTallyOptical :=
  {|
     IncidentE := IncidentE r;
     DepositTotal := DepositTotal r;
     DepositZnS := DepositZnS r;
     DepositSc := DepositSc r;
     GeneratedTotal := match m with mGeneratedTotal => v | _ => GeneratedTotal r end;
     GeneratedZnS := match m with mGeneratedZnS => v | _ => GeneratedZnS r end;
     ScintillationZnS := match m with mScintillationZnS => v | _ => ScintillationZnS r end;
     CerenkovZnS := match m with mCerenkovZnS => v | _ => CerenkovZnS r end;
     GeneratedSc := match m with mGeneratedSc => v | _ => GeneratedSc r end;
     ScintillationSc := match m with mScintillationSc => v | _ => ScintillationSc r end;
     CerenkovSc := match m with mCerenkovSc => v | _ => CerenkovSc r end;
     BulkAbsTotal := match m with mBulkAbsTotal => v | _ => BulkAbsTotal r end;
     BulkAbsZnS := match m with mBulkAbsZnS => v | _ => BulkAbsZnS r end;
     BulkAbsSc := match m with mBulkAbsSc => v | _ => BulkAbsSc r end;
     Absorbed := match m with mAbsorbed => v | _ => Absorbed r end;
     Escaped := match m with mEscaped => v | _ => Escaped r end;
     Failed := match m with mFailed => v | _ => Failed r end;
     Killed := match m with mKilled => v | _ => Killed r end;
     Detected := match m with mDetected => v | _ => Detected r end;
     ExitLightPositionX := ExitLightPositionX r;
     ExitLightPositionY := ExitLightPositionY r;
     ExitLightPositionZ := ExitLightPositionZ r;
     DetectorPositionX := DetectorPositionX r;
     DetectorPositionY := DetectorPositionY r;
     DetectorPositionZ := DetectorPositionZ r;
     BirthWavelength := BirthWavelength r;
     BirthWavelengthDetected := BirthWavelengthDetected r;
     Time := Time r;
     Rayleigh := Rayleigh r;
     Total_Reflections := Total_Reflections r;
     Wrap_Reflections := Wrap_Reflections r;
     TotalLength := TotalLength r;
     Angle_creation := Angle_creation r;
     Angle_detection := Angle_detection r;
     FinalState := FinalState r |}.

Definition set_fvec (m : FloatVecMember) (v : list float) (r : RunTallyOptical) : RunTallyOptical :=
  {|
     IncidentE := IncidentE r;
     DepositTotal := DepositTotal r;
     DepositZnS := DepositZnS r;
     DepositSc := DepositSc r;
     GeneratedTotal := GeneratedTotal r;
     GeneratedZnS := GeneratedZnS r;
     ScintillationZnS := ScintillationZnS r;
     CerenkovZnS := CerenkovZnS r;
     GeneratedSc := GeneratedSc r;
     ScintillationSc := ScintillationSc r;
     CerenkovSc := CerenkovSc r;
     BulkAbsTotal := BulkAbsTotal r;
     BulkAbsZnS := BulkAbsZnS r;
     BulkAbsSc := BulkAbsSc r;
     Absorbed := Absorbed r;
     Escaped := Escaped r;
     Failed := Failed r;
     Killed := Killed r;
     Detected := Detected r;
     ExitLightPositionX := match m with mExitLightPositionX => v | _ => ExitLightPositionX r end;
     ExitLightPositionY := match m with mExitLightPositionY => v | _ => ExitLightPositionY r end;
     ExitLightPositionZ := match m with mExitLightPositionZ => v | _ => ExitLightPositionZ r end;
     DetectorPositionX := match m with mDetectorPositionX => v | _ => DetectorPositionX r end;
     DetectorPositionY := match m with mDetectorPositionY => v | _ => DetectorPositionY r end;
     DetectorPositionZ := match m with mDetectorPositionZ => v | _ => DetectorPositionZ r end;
     BirthWavelength := match m with mBirthWavelength => v | _ => BirthWavelength r end;
     BirthWavelengthDetected := match m with mBirthWavelengthDetected => v | _ => BirthWavelengthDetected r end;
     Time := match m with mTime => v | _ => Time r end;
     Rayleigh := Rayleigh r;
     Total_Reflections := Total_Reflections r;
     Wrap_Reflections := Wrap_Reflections r;
     TotalLength := match m with mTotalLength => v | _ => TotalLength r end;
     Angle_creation := match m with mAngle_creation => v | _ => Angle_creation r end;
     Angle_detection := match m with mAngle_detection => v | _ => Angle_detection r end;
     FinalState := FinalState r |}.

Definition set_ivec (m : IntVecMember) (v : list Z) (r : RunTallyOptical) : RunTallyOptical :=
  {|
     IncidentE := IncidentE r;
     DepositTotal := DepositTotal r;
     DepositZnS := DepositZnS r;
     DepositSc := DepositSc r;
     GeneratedTotal := GeneratedTotal r;
     GeneratedZnS := GeneratedZnS r;
     ScintillationZnS := ScintillationZnS r;
     CerenkovZnS := CerenkovZnS r;
     GeneratedSc := GeneratedSc r;
     ScintillationSc := ScintillationSc r;
     CerenkovSc := CerenkovSc r;
     BulkAbsTotal := BulkAbsTotal r;
     BulkAbsZnS := BulkAbsZnS r;
     BulkAbsSc := BulkAbsSc r;
     Absorbed := Absorbed r;
     Escaped := Escaped r;
     Failed := Failed r;
     Killed := Killed r;
     Detected := Detected r;
     ExitLightPositionX := ExitLightPositionX r;
     ExitLightPositionY := ExitLightPositionY r;
     ExitLightPositionZ := ExitLightPositionZ r;
     DetectorPositionX := DetectorPositionX r;
     DetectorPositionY := DetectorPositionY r;
     DetectorPositionZ := DetectorPositionZ r;
     BirthWavelength := BirthWavelength r;
     BirthWavelengthDetected := BirthWavelengthDetected r;
     Time := Time r;
     Rayleigh := match m with mRayleigh => v | _ => Rayleigh r end;
     Total_Reflections := match m with mTotal_Reflections => v | _ => Total_Reflections r end;
     Wrap_Reflections := match m with mWrap_Reflections => v | _ => Wrap_Reflections r end;
     TotalLength := TotalLength r;
     Angle_creation := Angle_creation r;
     Angle_detection := Angle_detection r;
     FinalState := match m with mFinalState => v | _ => FinalState r end |}.

(** Statistics of one detector volume (ZnS or Scintillator) with its member
    functions; [flag] marks an open energy-deposition episode. *)
Module RunTallySc.

Record t : Type := {
  x_entrance : list float;
  y_entrance : list float;
  z_entrance : list float;
  parentID : list Z;
  particleID : list Z;
  energy : list float;
  deposited_energy : float;
  deposited_energy_event : float;
  total_deposited_energy : list float;
  flag : bool
}.

Definition default : t :=
  {| x_entrance := []; y_entrance := []; z_entrance := [];
     parentID := []; particleID := []; energy := [];
     deposited_energy := fzero; deposited_energy_event := fzero;
     total_deposited_energy := []; flag := false |}.

Definition AddXEntrance (d : float) (r : t) : t :=
  {| x_entrance := x_entrance r ++ [d]; y_entrance := y_entrance r;
     z_entrance := z_entrance r; parentID := parentID r;
     particleID := particleID r; energy := energy r;
     deposited_energy := deposited_energy r;
     deposited_energy_event := deposited_energy_event r;
     total_deposited_energy := total_deposited_energy r; flag := flag r |}.

Definition AddYEntrance (d : float) (r : t) : t :=
  {| x_entrance := x_entrance r; y_entrance := y_entrance r ++ [d];
     z_entrance := z_entrance r; parentID := parentID r;
     particleID := particleID r; energy := energy r;
     deposited_energy := deposited_energy r;
     deposited_energy_event := deposited_energy_event r;
     total_deposited_energy := total_deposited_energy r; flag := flag r |}.

Definition AddZEntrance (d : float) (r : t) : t :=
  {| x_entrance := x_entrance r; y_entrance := y_entrance r;
     z_entrance := z_entrance r ++ [d]; parentID := parentID r;
     particleID := particleID r; energy := energy r;
     deposited_energy := deposited_energy r;
     deposited_energy_event := deposited_energy_event r;
     total_deposited_energy := total_deposited_energy r; flag := flag r |}.

Definition AddParentID (d : Z) (r : t) : t :=
  {| x_entrance := x_entrance r; y_entrance := y_entrance r;
     z_entrance := z_entrance r; parentID := parentID r ++ [d];
     particleID := particleID r; energy := energy r;
     deposited_energy := deposited_energy r;
     deposited_energy_event := deposited_energy_event r;
     total_deposited_energy := total_deposited_energy r; flag := flag r |}.

Definition AddParticleID (d : Z) (r : t) : t :=
  {| x_entrance := x_entrance r; y_entrance := y_entrance r;
     z_entrance := z_entrance r; parentID := parentID r;
     particleID := particleID r ++ [d]; energy := energy r;
     deposited_energy := deposited_energy r;
     deposited_energy_event := deposited_energy_event r;
     total_deposited_energy := total_deposited_energy r; flag := flag r |}.

Definition AddEnergy (d : float) (r : t) : t :=
  {| x_entrance := x_entrance r; y_entrance := y_entrance r;
     z_entrance := z_entrance r; parentID := parentID r;
     particleID := particleID r; energy := energy r ++ [d];
     deposited_energy := deposited_energy r;
     deposited_energy_event := deposited_energy_event r;
     total_deposited_energy := total_deposited_energy r; flag := flag r |}.

Definition AddDepositedEnergyEvent (d : float) (r : t) : t :=
  {| x_entrance := x_entrance r; y_entrance := y_entrance r;
     z_entrance := z_entrance r; parentID := parentID r;
     particleID := particleID r; energy := energy r;
     deposited_energy := deposited_energy r;
     deposited_energy_event := fadd (deposited_energy_event r) d;
     total_deposited_energy := total_deposited_energy r; flag := flag r |}.

Definition set_deposited_energy (v : float) (r : t) : t :=
  {| x_entrance := x_entrance r; y_entrance := y_entrance r;
     z_entrance := z_entrance r; parentID := parentID r;
     particleID := particleID r; energy := energy r;
     deposited_energy := v;
     deposited_energy_event := deposited_energy_event r;
     total_deposited_energy := total_deposited_energy r; flag := flag r |}.

Definition AddDepositedEnergy (d : float) (r : t) : t :=
  set_deposited_energy (fadd (deposited_energy r) d) r.

Definition AddTotalDepositedEnergy (d : float) (r : t) : t :=
  {| x_entrance := x_entrance r; y_entrance := y_entrance r;
     z_entrance := z_entrance r; parentID := parentID r;
     particleID := particleID r; energy := energy r;
     deposited_energy := deposited_energy r;
     deposited_energy_event := deposited_energy_event r;
     total_deposited_energy := total_deposited_energy r ++ [d];
     flag := flag r |}.

Definition set_flag (b : bool) (r : t) : t :=
  {| x_entrance := x_entrance r; y_entrance := y_entrance r;
     z_entrance := z_entrance r; parentID := parentID r;
     particleID := particleID r; energy := energy r;
     deposited_energy := deposited_energy r;
     deposited_energy_event := deposited_energy_event r;
     total_deposited_energy := total_deposited_energy r; flag := b |}.

Definition ActivateFlag (r : t) : t := set_flag true r.
Definition ResetFlag (r : t) : t := set_flag false r.
Definition ReturnFlag (r : t) : bool := flag r.

(** [deposited_energy = 0]: the [int] literal converts to [+0.0f]. *)
Definition ResetDepositedEnergy (r : t) : t := set_deposited_energy fzero r.
Definition GetDepositedEnergy (r : t) : float := deposited_energy r.
Definition GetTotalDepositedEnergyEvent (r : t) : float :=
  deposited_energy_event r.

End RunTallySc.

(** ** OpticalSimulationEventAction

    The statistics members and [Air_Index]; the remaining private members of
    the class are neither read nor written by any member function. *)

Record OpticalSimulationEventAction : Type := {
  StatsInput : RunTallyInput.t;
  StatsZnS : RunTallySc.t;
  StatsScintillator : RunTallySc.t;
  StatsOptical : RunTallyOptical;
  Air_Index : float
}.

Definition with_StatsInput (v : RunTallyInput.t)
    (e : OpticalSimulationEventAction) : OpticalSimulationEventAction :=
  {| StatsInput := v; StatsZnS := StatsZnS e;
     StatsScintillator := StatsScintillator e;
     StatsOptical := StatsOptical e; Air_Index := Air_Index e |}.

Definition with_StatsZnS (v : RunTallySc.t)
    (e : OpticalSimulationEventAction) : OpticalSimulationEventAction :=
  {| StatsInput := StatsInput e; StatsZnS := v;
     StatsScintillator := StatsScintillator e;
     StatsOptical := StatsOptical e; Air_Index := Air_Index e |}.

Definition with_StatsScintillator (v : RunTallySc.t)
    (e : OpticalSimulationEventAction) : OpticalSimulationEventAction :=
  {| StatsInput := StatsInput e; StatsZnS := StatsZnS e;
     StatsScintillator := v;
     StatsOptical := StatsOptical e; Air_Index := Air_Index e |}.

Definition with_StatsOptical (v : RunTallyOptical)
    (e : OpticalSimulationEventAction) : OpticalSimulationEventAction :=
  {| StatsInput := StatsInput e; StatsZnS := StatsZnS e;
     StatsScintillator := StatsScintillator e;
     StatsOptical := v; Air_Index := Air_Index e |}.

(** *** Setters of the input particle data *)

Definition SetXStart (d : float) (e : OpticalSimulationEventAction) :=
  let i := StatsInput e in
  with_StatsInput
    {| RunTallyInput.x := d; RunTallyInput.xp := RunTallyInput.xp i;
       RunTallyInput.y := RunTallyInput.y i; RunTallyInput.yp := RunTallyInput.yp i;
       RunTallyInput.z := RunTallyInput.z i; RunTallyInput.zp := RunTallyInput.zp i;
       RunTallyInput.energy := RunTallyInput.energy i |} e.

Definition SetXpStart (d : float) (e : OpticalSimulationEventAction) :=
  let i := StatsInput e in
  with_StatsInput
    {| RunTallyInput.x := RunTallyInput.x i; RunTallyInput.xp := d;
       RunTallyInput.y := RunTallyInput.y i; RunTallyInput.yp := RunTallyInput.yp i;
       RunTallyInput.z := RunTallyInput.z i; RunTallyInput.zp := RunTallyInput.zp i;
       RunTallyInput.energy := RunTallyInput.energy i |} e.

Definition SetYStart (d : float) (e : OpticalSimulationEventAction) :=
  let i := StatsInput e in
  with_StatsInput
    {| RunTallyInput.x := RunTallyInput.x i; RunTallyInput.xp := RunTallyInput.xp i;
       RunTallyInput.y := d; RunTallyInput.yp := RunTallyInput.yp i;
       RunTallyInput.z := RunTallyInput.z i; RunTallyInput.zp := RunTallyInput.zp i;
       RunTallyInput.energy := RunTallyInput.energy i |} e.

Definition SetYpStart (d : float) (e : OpticalSimulationEventAction) :=
  let i := StatsInput e in
  with_StatsInput
    {| RunTallyInput.x := RunTallyInput.x i; RunTallyInput.xp := RunTallyInput.xp i;
       RunTallyInput.y := RunTallyInput.y i; RunTallyInput.yp := d;
       RunTallyInput.z := RunTallyInput.z i; RunTallyInput.zp := RunTallyInput.zp i;
       RunTallyInput.energy := RunTallyInput.energy i |} e.

Definition SetZStart (d : float) (e : OpticalSimulationEventAction) :=
  let i := StatsInput e in
  with_StatsInput
    {| RunTallyInput.x := RunTallyInput.x i; RunTallyInput.xp := RunTallyInput.xp i;
       RunTallyInput.y := RunTallyInput.y i; RunTallyInput.yp := RunTallyInput.yp i;
       RunTallyInput.z := d; RunTallyInput.zp := RunTallyInput.zp i;
       RunTallyInput.energy := RunTallyInput.energy i |} e.

Definition SetZpStart (d : float) (e : OpticalSimulationEventAction) :=
  let i := StatsInput e in
  with_StatsInput
    {| RunTallyInput.x := RunTallyInput.x i; RunTallyInput.xp := RunTallyInput.xp i;
       RunTallyInput.y := RunTallyInput.y i; RunTallyInput.yp := RunTallyInput.yp i;
       RunTallyInput.z := RunTallyInput.z i; RunTallyInput.zp := d;
       RunTallyInput.energy := RunTallyInput.energy i |} e.

Definition SetEnergyStart (d : float) (e : OpticalSimulationEventAction) :=
  let i := StatsInput e in
  with_StatsInput
    {| RunTallyInput.x := RunTallyInput.x i; RunTallyInput.xp := RunTallyInput.xp i;
       RunTallyInput.y := RunTallyInput.y i; RunTallyInput.yp := RunTallyInput.yp i;
       RunTallyInput.z := RunTallyInput.z i; RunTallyInput.zp := RunTallyInput.zp i;
       RunTallyInput.energy := d |} e.

(** *** Functions for the optical tree *)

(** [StatsOptical.m++] *)
Definition Count (m : IntMember) (e : OpticalSimulationEventAction)
    : outcome OpticalSimulationEventAction :=
  n <- CxxInt.incr (get_int m (StatsOptical e)) ;;
  Ok (with_StatsOptical (set_int m n (StatsOptical e)) e).

Definition CountCerenkovZnS := Count mCerenkovZnS.
Definition CountCerenkovSc := Count mCerenkovSc.
Definition CountScintillationZnS := Count mScintillationZnS.
Definition CountScintillationSc := Count mScintillationSc.
Definition CountKilled := Count mKilled.
Definition CountDetected := Count mDetected.
Definition CountAbsorbed := Count mAbsorbed.
Definition CountBulkAbsSc := Count mBulkAbsSc.
Definition CountBulkAbsZnS := Count mBulkAbsZnS.
Definition CountEscaped := Count mEscaped.
Definition CountFailed := Count mFailed.

(** [StatsOptical.m.push_back(v)] *)
Definition Fill (m : FloatVecMember) (v : float)
    (e : OpticalSimulationEventAction) : OpticalSimulationEventAction :=
  with_StatsOptical
    (set_fvec m (get_fvec m (StatsOptical e) ++ [v]) (StatsOptical e)) e.

Definition FillInt (m : IntVecMember) (v : Z)
    (e : OpticalSimulationEventAction) : OpticalSimulationEventAction :=
  with_StatsOptical
    (set_ivec m (get_ivec m (StatsOptical e) ++ [v]) (StatsOptical e)) e.

Definition FillPhotonExitLightPositionX := Fill mExitLightPositionX.
Definition FillPhotonExitLightPositionY := Fill mExitLightPositionY.
Definition FillPhotonExitLightPositionZ := Fill mExitLightPositionZ.
Definition FillPhotonDetectorPositionX := Fill mDetectorPositionX.
Definition FillPhotonDetectorPositionY := Fill mDetectorPositionY.
Definition FillPhotonDetectorPositionZ := Fill mDetectorPositionZ.
Definition FillPhotonFinalState := FillInt mFinalState.
Definition FillBirthWavelength := Fill mBirthWavelength.
Definition FillBirthWavelengthDetected := Fill mBirthWavelengthDetected.
Definition FillPhotonTime := Fill mTime.
Definition FillRayleigh := FillInt mRayleigh.
Definition FillTotalReflections := FillInt mTotal_Reflections.
Definition FillWrapReflecions := FillInt mWrap_Reflections.
Definition FillPhotonTotalLength := Fill mTotalLength.
Definition FillFiberAngleCreation := Fill mAngle_creation.
Definition FillFiberAngleDetection := Fill mAngle_detection.

Definition SetAirIndex (a : float) (e : OpticalSimulationEventAction) :=
  {| StatsInput := StatsInput e; StatsZnS := StatsZnS e;
     StatsScintillator := StatsScintillator e;
     StatsOptical := StatsOptical e; Air_Index := a |}.

(** *** BeginOfEventAction: every statistics record is reset *)

Definition BeginOfEventAction (e : OpticalSimulationEventAction)
    : OpticalSimulationEventAction :=
  {| StatsInput := RunTallyInput.default;
     StatsZnS := RunTallySc.default;
     StatsScintillator := RunTallySc.default;
     StatsOptical := RunTallyOptical_zero;
     Air_Index := Air_Index e |}.

(** *** EndOfEventAction *)

(** The percentages the summary block computes into local variables and
    prints, and the number of photons it prints as considered. *)
Record Fractions : Type := {
  Absfrac : float;
  BulkfracZnS : float;
  BulkfracSc : float;
  BulkfracTotal : float;
  Escfrac : float;
  Failfrac : float;
  Killedfrac : float
}.

Record Summary : Type := {
  fractions : Fractions;
  considered : Z
}.

(** The records handed to the run action ([UpdateStatisticsInput], [...ZnS],
    [...Scintillator], [...Optical]); the first three are conditional. *)
Record RunUpdates : Type := {
  toInput : option RunTallyInput.t;
  toZnS : option RunTallySc.t;
  toScintillator : option RunTallySc.t;
  toOptical : RunTallyOptical
}.

Definition empty {A : Type} (v : list A) : bool :=
  match v with
  | [] => true
  | _ :: _ => false
  end.

(** The assignments to the derived members of [StatsOptical], in source
    order. *)
Definition DeriveTotals (e : OpticalSimulationEventAction)
    : outcome OpticalSimulationEventAction :=
  let so := StatsOptical e in
  let so := set_float mIncidentE (RunTallyInput.energy (StatsInput e)) so in
  let so := set_float mDepositTotal
              (fadd (RunTallySc.deposited_energy_event (StatsScintillator e))
                    (RunTallySc.deposited_energy_event (StatsZnS e))) so in
  let so := set_float mDepositSc
              (RunTallySc.deposited_energy_event (StatsScintillator e)) so in
  let so := set_float mDepositZnS
              (RunTallySc.deposited_energy_event (StatsZnS e)) so in
  gsc <- CxxInt.add (ScintillationSc so) (CerenkovSc so) ;;
  let so := set_int mGeneratedSc gsc so in
  gzns <- CxxInt.add (ScintillationZnS so) (CerenkovZnS so) ;;
  let so := set_int mGeneratedZnS gzns so in
  gtot <- CxxInt.add (GeneratedSc so) (GeneratedZnS so) ;;
  let so := set_int mGeneratedTotal gtot so in
  btot <- CxxInt.add (BulkAbsSc so) (BulkAbsZnS so) ;;
  let so := set_int mBulkAbsTotal btot so in
  Ok (with_StatsOptical so e).

(** [float f = 100 * count / total;] evaluated on [int], then converted. *)
Definition percent (count total : Z) : outcome float :=
  p <- CxxInt.mul 100 count ;;
  q <- CxxInt.div p total ;;
  Ok (float_of_int q).

Definition ComputeFractions (so : RunTallyOptical) : outcome Fractions :=
  absfrac <- percent (Absorbed so) (GeneratedTotal so) ;;
  bulkZnS <- percent (BulkAbsZnS so) (GeneratedTotal so) ;;
  bulkSc <- percent (BulkAbsSc so) (GeneratedTotal so) ;;
  let bulkTotal := fadd bulkZnS bulkSc in
  escfrac <- percent (Escaped so) (GeneratedTotal so) ;;
  failfrac <- percent (Failed so) (GeneratedTotal so) ;;
  killedfrac <- percent (Killed so) (GeneratedTotal so) ;;
  Ok {| Absfrac := absfrac; BulkfracZnS := bulkZnS; BulkfracSc := bulkSc;
        BulkfracTotal := bulkTotal; Escfrac := escfrac;
        Failfrac := failfrac; Killedfrac := killedfrac |}.

(** [Absorbed + BulkAbsTotal + Escaped + Failed + Detected + Killed], the
    sum printed as the total of photons considered. *)
Definition TotalConsidered (so : RunTallyOptical) : outcome Z :=
  t <- CxxInt.add (Absorbed so) (BulkAbsTotal so) ;;
  t <- CxxInt.add t (Escaped so) ;;
  t <- CxxInt.add t (Failed so) ;;
  t <- CxxInt.add t (Detected so) ;;
  CxxInt.add t (Killed so).

(** The result is the event action afterwards, what the run action received
    and what the summary block printed when it ran. *)
Definition EndOfEventAction (e : OpticalSimulationEventAction)
    : outcome (OpticalSimulationEventAction * RunUpdates * option Summary) :=
  let uInput :=
    if gt_zero (RunTallyInput.energy (StatsInput e))
    then Some (StatsInput e) else None in
  let uZnS :=
    if negb (empty (RunTallySc.energy (StatsZnS e)))
    then Some (StatsZnS e) else None in
  let uSc :=
    if negb (empty (RunTallySc.energy (StatsScintillator e)))
    then Some (StatsScintillator e) else None in
  if ScintillationSc (StatsOptical e) <? 0 then
    e' <- DeriveTotals e ;;
    fr <- ComputeFractions (StatsOptical e') ;;
    tot <- TotalConsidered (StatsOptical e') ;;
    Ok (e',
        {| toInput := uInput; toZnS := uZnS; toScintillator := uSc;
           toOptical := StatsOptical e' |},
        Some {| fractions := fr; considered := tot |})
  else
    Ok (e,
        {| toInput := uInput; toZnS := uZnS; toScintillator := uSc;
           toOptical := StatsOptical e |},
        None).

(** ** The transport toolkit as the stepping action sees it

    The toolkit is outside the repository.  A step, its two points and its
    track are records of the values the stepping action reads through their
    accessors; a pointer the toolkit may leave null is an [option]. *)

Inductive G4StepStatus : Type :=
| fWorldBoundary | fGeomBoundary | fAtRestDoItProc | fAlongStepDoItProc
| fPostStepDoItProc | fUserDefinedLimit | fExclusivelyForcedProc | fUndefined.

Inductive G4TrackStatus : Type :=
| fAlive | fStopButAlive | fStopAndKill | fKillTrackAndSecondaries
| fSuspend | fPostponeToNextEvent.

(** The statuses of the optical boundary process; [LookUpTableStatus]
    stands for the surface-finish statuses that follow [NoRINDEX] in the
    toolkit's enumeration and that the classifier does not name. *)
Inductive G4OpBoundaryProcessStatus : Type :=
| Undefined | Transmission | FresnelRefraction | FresnelReflection
| TotalInternalReflection | LambertianReflection | LobeReflection
| SpikeReflection | BackScattering | Absorption | Detection | NotAtBoundary
| SameMaterial | StepTooSmall | NoRINDEX
| LookUpTableStatus (k : nat).

(** A process of the track's process list; [GetStatus] is what the cast to
    the boundary process reads. *)
Record G4VProcess : Type := {
  GetProcessName : string;
  GetStatus : G4OpBoundaryProcessStatus
}.

Record G4ThreeVector : Type := { vx : double; vy : double; vz : double }.

Record G4StepPoint : Type := {
  GetPosition : G4ThreeVector;
  GetMomentumDirection : G4ThreeVector;
  GetKineticEnergy : double;
  GetGlobalTime : double;
  GetPhysicalVolumeName : string;       (* GetPhysicalVolume()->GetName() *)
  GetStepStatus : G4StepStatus;
  GetProcessDefinedStepName : string    (* GetProcessDefinedStep()->GetProcessName() *)
}.

Record G4Track : Type := {
  GetParticleName : string;             (* GetDefinition()->GetParticleName() *)
  GetPDGEncoding : Z;                   (* GetDefinition()->GetPDGEncoding() *)
  GetProcessList : list G4VProcess;     (* GetDefinition()->GetProcessManager()->GetProcessList() *)
  GetParentID : Z;
  GetTrackID : Z;
  GetCurrentStepNumber : Z;
  GetTotalEnergy : double;
  GetTrackLength : double;
  GetNextVolumeName : string;           (* GetNextVolume()->GetName() *)
  GetCreatorProcessName : option string;(* GetCreatorProcess(), null for a primary *)
  GetTrackStatus : G4TrackStatus
}.

Definition SetTrackStatus (s : G4TrackStatus) (t : G4Track) : G4Track :=
  {| GetParticleName := GetParticleName t;
     GetPDGEncoding := GetPDGEncoding t;
     GetProcessList := GetProcessList t;
     GetParentID := GetParentID t;
     GetTrackID := GetTrackID t;
     GetCurrentStepNumber := GetCurrentStepNumber t;
     GetTotalEnergy := GetTotalEnergy t;
     GetTrackLength := GetTrackLength t;
     GetNextVolumeName := GetNextVolumeName t;
     GetCreatorProcessName := GetCreatorProcessName t;
     GetTrackStatus := s |}.

Record G4Step : Type := {
  GetTrack : G4Track;
  GetPreStepPoint : G4StepPoint;
  GetPostStepPoint : G4StepPoint;
  GetTotalEnergyDeposit : double;
  GetStepLength : double
}.

(** What the stepping action takes from the units header and the maths
    library: the unit constants, the division of a vector by a scalar and
    the arc cosine. *)
Record Toolkit : Type := {
  MeV : double;
  keV : double;
  eV : double;
  ns : double;
  mm : double;
  deg : double;
  acos : double -> double;
  Hep3Vector_div : G4ThreeVector -> double -> G4ThreeVector
}.

(** ** OpticalSimulationSteppingAction *)

Module StepPoint.

Record t : Type := {
  x : double; y : double; z : double;
  px : double; py : double; pz : double
}.

Definition default : t :=
  {| x := dzero; y := dzero; z := dzero;
     px := dzero; py := dzero; pz := dzero |}.

End StepPoint.

(** The data members of the class (the UI messenger apart).  [theTrack] is
    a pointer, null until the first step. *)
Record OpticalSimulationSteppingAction : Type := {
  TrackingStatus : bool;
  TrackingStatusCollimators : bool;
  theTrack : option G4Track;
  particleName : string;
  particleID : Z;
  parentID : Z;
  trackID : Z;
  stepNo : Z;
  endproc : string;
  volumeNamePreStep : string;
  volumeNamePostStep : string;
  angle : double;
  time : double;
  energy : double;
  energy_post : double;
  energyDeposited : double;
  preStep : StepPoint.t;
  postStep : StepPoint.t;
  VerbosityLevel : Z;
  PhotonTrackStatus : bool
}.

(** The default member initialisers. *)
Definition SteppingAction_initial : OpticalSimulationSteppingAction :=
  {| TrackingStatus := true; TrackingStatusCollimators := true;
     theTrack := None;
     particleName := ""; particleID := 0; parentID := 0; trackID := 0;
     stepNo := 0; endproc := ""; volumeNamePreStep := "";
     volumeNamePostStep := "";
     angle := dzero; time := dzero; energy := dzero; energy_post := dzero;
     energyDeposited := dzero;
     preStep := StepPoint.default; postStep := StepPoint.default;
     VerbosityLevel := 0; PhotonTrackStatus := true |}.

Definition set_theTrack (p : option G4Track)
    (sa : OpticalSimulationSteppingAction) : OpticalSimulationSteppingAction :=
  {| TrackingStatus := TrackingStatus sa;
     TrackingStatusCollimators := TrackingStatusCollimators sa;
     theTrack := p;
     particleName := particleName sa; particleID := particleID sa;
     parentID := parentID sa; trackID := trackID sa; stepNo := stepNo sa;
     endproc := endproc sa; volumeNamePreStep := volumeNamePreStep sa;
     volumeNamePostStep := volumeNamePostStep sa;
     angle := angle sa; time := time sa; energy := energy sa;
     energy_post := energy_post sa; energyDeposited := energyDeposited sa;
     preStep := preStep sa; postStep := postStep sa;
     VerbosityLevel := VerbosityLevel sa;
     PhotonTrackStatus := PhotonTrackStatus sa |}.

(** The static map from a detector volume name to the accessor of its
    tally; the accessors return references, hence a reader and a writer. *)
Inductive ScAccessor : Type := GetZnS | GetScintillator.

Definition ScMap : list (string * ScAccessor) :=
  [("ZnS", GetZnS); ("Scintillator", GetScintillator)].

Fixpoint ScMap_find (m : list (string * ScAccessor)) (key : string)
    : option ScAccessor :=
  match m with
  | [] => None
  | (k, a) :: m' => if String.eqb k key then Some a else ScMap_find m' key
  end.

Definition tally_of (a : ScAccessor) (e : OpticalSimulationEventAction)
    : RunTallySc.t :=
  match a with
  | GetZnS => StatsZnS e
  | GetScintillator => StatsScintillator e
  end.

Definition store_tally (a : ScAccessor) (sc : RunTallySc.t)
    (e : OpticalSimulationEventAction) : OpticalSimulationEventAction :=
  match a with
  | GetZnS => with_StatsZnS sc e
  | GetScintillator => with_StatsScintillator sc e
  end.

(** The loop over the process list: the first process named OpBoundary. *)
Fixpoint find_OpBoundary (pv : list G4VProcess) : option G4VProcess :=
  match pv with
  | [] => None
  | p :: pv' =>
      if String.eqb (GetProcessName p) "OpBoundary" then Some p
      else find_OpBoundary pv'
  end.

(** [UpdateSc]: one step of a particle inside a detector volume.  The
    parent identifier arrives as a [G4float] and is stored as an [int]. *)
Definition UpdateSc (tally : RunTallySc.t)
    (x y z energy energyDeposited energy_post parentID : float)
    (particleID : Z) (volumeNamePostStep : string) (trackingStatus : bool)
    (track : option G4Track) : outcome RunTallySc.t :=
  tally <-
    (if negb (RunTallySc.flag tally) then
       let tally := RunTallySc.AddXEntrance x tally in
       let tally := RunTallySc.AddYEntrance y tally in
       let tally := RunTallySc.AddZEntrance z tally in
       parent <- int_of_float parentID ;;
       let tally := RunTallySc.AddParentID parent tally in
       let tally := RunTallySc.AddParticleID particleID tally in
       let tally := RunTallySc.AddEnergy energy tally in
       Ok (RunTallySc.ActivateFlag tally)
     else Ok tally) ;;
  let tally := RunTallySc.AddDepositedEnergy energyDeposited tally in
  let tally := RunTallySc.AddDepositedEnergyEvent energyDeposited tally in
  if String.eqb volumeNamePostStep "Holder" || eq_zero energy_post then
    let tally :=
      RunTallySc.AddTotalDepositedEnergy
        (RunTallySc.GetDepositedEnergy tally) tally in
    let tally := RunTallySc.ResetDepositedEnergy tally in
    Ok (RunTallySc.ResetFlag tally)
  else Ok tally.

Section SteppingAction.

Variable tk : Toolkit.

(** [1240 / (theTrack->GetTotalEnergy() / eV)], evaluated on [double]. *)
Definition wavelength (t : G4Track) : double :=
  ddiv (double_of_int 1240) (ddiv (GetTotalEnergy t) (eV tk)).

Definition SetInputInformations (sa : OpticalSimulationSteppingAction)
    (evtac : OpticalSimulationEventAction) : OpticalSimulationEventAction :=
  let evtac := SetXStart (float_of_double (StepPoint.x (preStep sa))) evtac in
  let evtac := SetXpStart (float_of_double (StepPoint.px (preStep sa))) evtac in
  let evtac := SetYStart (float_of_double (StepPoint.y (preStep sa))) evtac in
  let evtac := SetYpStart (float_of_double (StepPoint.py (preStep sa))) evtac in
  let evtac := SetZStart (float_of_double (StepPoint.z (preStep sa))) evtac in
  let evtac := SetZpStart (float_of_double (StepPoint.pz (preStep sa))) evtac in
  SetEnergyStart (float_of_double (energy sa)) evtac.

Definition CheckBoundaryStatus (sa : OpticalSimulationSteppingAction)
    (aStep : G4Step) (evtac : OpticalSimulationEventAction)
    : outcome OpticalSimulationEventAction :=
  match find_OpBoundary (GetProcessList (GetTrack aStep)) with
  | None => Fault NullDereference
  | Some boundary =>
      let boundaryStatus := GetStatus boundary in
      evtac <-
        (if String.eqb (endproc sa) "OpAbsorption" then
           if String.eqb (GetPhysicalVolumeName (GetPreStepPoint aStep)) "ZnS"
           then CountBulkAbsZnS evtac
           else CountBulkAbsSc evtac
         else Ok evtac) ;;
      match GetStepStatus (GetPostStepPoint aStep) with
      | fGeomBoundary =>
          match boundaryStatus with
          | Detection =>
              evtac <- CountDetected evtac ;;
              let evtac :=
                FillPhotonDetectorPositionX
                  (float_of_double (StepPoint.x (postStep sa))) evtac in
              let evtac :=
                FillPhotonDetectorPositionY
                  (float_of_double (StepPoint.y (postStep sa))) evtac in
              let evtac :=
                FillPhotonDetectorPositionZ
                  (float_of_double (StepPoint.z (postStep sa))) evtac in
              match theTrack sa with
              | None => Fault NullDereference
              | Some t =>
                  let evtac :=
                    FillBirthWavelengthDetected
                      (float_of_double (wavelength t)) evtac in
                  let evtac :=
                    FillPhotonTime
                      (float_of_double
                         (ddiv (GetGlobalTime (GetPostStepPoint aStep))
                               (ns tk))) evtac in
                  Ok (FillPhotonTotalLength
                        (float_of_double (GetTrackLength (GetTrack aStep)))
                        evtac)
              end
          | Absorption =>
              match theTrack sa with
              | None => Fault NullDereference
              | Some t =>
                  if String.eqb (GetNextVolumeName t) "Photocathode"
                  then CountFailed evtac
                  else CountAbsorbed evtac
              end
          | NoRINDEX => CountEscaped evtac
          | _ => Ok evtac
          end
      | _ => Ok evtac
      end
  end.

Definition CountScintillation (aStep : G4Step)
    (evtac : OpticalSimulationEventAction)
    : outcome OpticalSimulationEventAction :=
  evtac <-
    (if String.eqb (GetPhysicalVolumeName (GetPreStepPoint aStep)) "ZnS"
     then CountScintillationZnS evtac else Ok evtac) ;;
  if String.eqb (GetPhysicalVolumeName (GetPreStepPoint aStep)) "Scintillator"
  then CountScintillationSc evtac else Ok evtac.

Definition CountCerenkov (aStep : G4Step)
    (evtac : OpticalSimulationEventAction)
    : outcome OpticalSimulationEventAction :=
  evtac <-
    (if String.eqb (GetPhysicalVolumeName (GetPreStepPoint aStep)) "ZnS"
     then CountCerenkovZnS evtac else Ok evtac) ;;
  if String.eqb (GetPhysicalVolumeName (GetPreStepPoint aStep)) "Scintillator"
  then CountCerenkovSc evtac else Ok evtac.

Definition SetPhotonBirthInformation (sa : OpticalSimulationSteppingAction)
    (aStep : G4Step) (evtac : OpticalSimulationEventAction)
    : outcome OpticalSimulationEventAction :=
  let evtac :=
    FillFiberAngleCreation
      (float_of_double (ddiv (angle sa) (deg tk))) evtac in
  match theTrack sa with
  | None => Fault NullDereference
  | Some t => Ok (FillBirthWavelength (float_of_double (wavelength t)) evtac)
  end.

(** [UserSteppingAction], block by block as the source lays it out. *)

(** "Preparation of variables": the member assignments.  [angle] is
    computed before the positions are refreshed, hence from the positions
    the previous call left in [preStep] and [postStep]. *)
Definition prepare_variables (aStep : G4Step)
    (sa : OpticalSimulationSteppingAction) : OpticalSimulationSteppingAction :=
  let trk := GetTrack aStep in
  let pre := GetPreStepPoint aStep in
  let post := GetPostStepPoint aStep in
  let prePos := Hep3Vector_div tk (GetPosition pre) (mm tk) in
  let postPos := Hep3Vector_div tk (GetPosition post) (mm tk) in
  let preMom := GetMomentumDirection pre in
  let postMom := GetMomentumDirection post in
  {| TrackingStatus := TrackingStatus sa;
     TrackingStatusCollimators := TrackingStatusCollimators sa;
     theTrack := Some trk;
     particleName := GetParticleName trk;
     particleID := GetPDGEncoding trk;
     parentID := GetParentID trk;
     trackID := GetTrackID trk;
     stepNo := GetCurrentStepNumber trk;
     endproc := GetProcessDefinedStepName post;
     volumeNamePreStep := GetPhysicalVolumeName pre;
     volumeNamePostStep := GetPhysicalVolumeName post;
     angle :=
       acos tk (ddiv (dsub (StepPoint.x (postStep sa))
                           (StepPoint.x (preStep sa)))
                     (GetStepLength aStep));
     time := ddiv (GetGlobalTime post) (ns tk);
     energy := ddiv (GetKineticEnergy pre) (MeV tk);
     energy_post := ddiv (GetKineticEnergy post) (MeV tk);
     energyDeposited := ddiv (GetTotalEnergyDeposit aStep) (keV tk);
     preStep :=
       {| StepPoint.x := vx prePos; StepPoint.y := vy prePos;
          StepPoint.z := vz prePos; StepPoint.px := vx preMom;
          StepPoint.py := vy preMom; StepPoint.pz := vz preMom |};
     postStep :=
       {| StepPoint.x := vx postPos; StepPoint.y := vy postPos;
          StepPoint.z := vz postPos; StepPoint.px := vx postMom;
          StepPoint.py := vy postMom; StepPoint.pz := vz postMom |};
     VerbosityLevel := VerbosityLevel sa;
     PhotonTrackStatus := PhotonTrackStatus sa |}.

(** "Initial beam info": the first step of a primary. *)
Definition initial_beam_info (sa : OpticalSimulationSteppingAction)
    (evtac : OpticalSimulationEventAction) : OpticalSimulationEventAction :=
  if (parentID sa =? 0) && (stepNo sa =? 1)
  then SetInputInformations sa evtac else evtac.

(** The detector volumes: every particle but the optical photon whose
    pre-step volume is a key of [ScMap]. *)
Definition detector_volumes (sa : OpticalSimulationSteppingAction)
    (evtac : OpticalSimulationEventAction)
    : outcome OpticalSimulationEventAction :=
  match ScMap_find ScMap (volumeNamePreStep sa) with
  | Some it =>
      if negb (String.eqb (particleName sa) "opticalphoton") then
        sc <- UpdateSc (tally_of it evtac)
                (float_of_double (StepPoint.x (preStep sa)))
                (float_of_double (StepPoint.y (preStep sa)))
                (float_of_double (StepPoint.z (preStep sa)))
                (float_of_double (energy sa))
                (float_of_double (energyDeposited sa))
                (float_of_double (energy_post sa))
                (float_of_int (parentID sa))
                (particleID sa) (volumeNamePostStep sa)
                (TrackingStatus sa) (theTrack sa) ;;
        Ok (store_tally it sc evtac)
      else Ok evtac
  | None => Ok evtac
  end.

(** The birth information of a photon, on the first step of its track. *)
Definition photon_birth (sa : OpticalSimulationSteppingAction)
    (aStep : G4Step) (evtac : OpticalSimulationEventAction)
    : outcome OpticalSimulationEventAction :=
  if stepNo sa =? 1 then
    evtac <- SetPhotonBirthInformation sa aStep evtac ;;
    match GetCreatorProcessName (GetTrack aStep) with
    | None => Fault NullDereference
    | Some creator =>
        evtac <-
          (if String.eqb creator "Scintillation"
           then CountScintillation aStep evtac else Ok evtac) ;;
        if String.eqb creator "Cerenkov"
        then CountCerenkov aStep evtac else Ok evtac
    end
  else Ok evtac.

(** The optical part: the kill switch or the classifier, then the birth
    information. *)
Definition optical_part (sa : OpticalSimulationSteppingAction)
    (aStep : G4Step) (evtac : OpticalSimulationEventAction) (trk : G4Track)
    : outcome (OpticalSimulationEventAction * G4Track) :=
  if String.eqb (particleName sa) "opticalphoton" then
    r <-
      (if negb (PhotonTrackStatus sa) then
         evtac <- CountKilled evtac ;;
         Ok (evtac, SetTrackStatus fStopAndKill trk)
       else
         evtac <- CheckBoundaryStatus sa aStep evtac ;;
         Ok (evtac, trk)) ;;
    evtac <- photon_birth sa aStep (fst r) ;;
    Ok (evtac, snd r)
  else Ok (evtac, trk).

(** The total printed when the verbosity level is above 1:
    [int tot = abs + esc + failed + det + killed;], where [abs] is the
    bulk-absorbed count of the scintillator. *)
Definition verbose_total (sa : OpticalSimulationSteppingAction)
    (evtac : OpticalSimulationEventAction) : outcome Z :=
  if VerbosityLevel sa >? 1 then
    let so := StatsOptical evtac in
    t <- CxxInt.add (BulkAbsSc so) (Escaped so) ;;
    t <- CxxInt.add t (Failed so) ;;
    t <- CxxInt.add t (Detected so) ;;
    CxxInt.add t (Killed so)
  else Ok 0.

(** A particle that reaches the world volume is stopped. *)
Definition kill_in_world (aStep : G4Step) (trk : G4Track) : G4Track :=
  if String.eqb (GetPhysicalVolumeName (GetPostStepPoint aStep)) "World"
  then SetTrackStatus fStopAndKill trk else trk.

(** The result is the stepping action, the event action and the track
    after the step.  [SetTrackStatus] changes only the status of the
    track, which the stepping action never reads back; the member pointer
    designates the track in its final state. *)
Definition UserSteppingAction (aStep : G4Step)
    (sa : OpticalSimulationSteppingAction)
    (evtac : OpticalSimulationEventAction)
    : outcome (OpticalSimulationSteppingAction *
               OpticalSimulationEventAction * G4Track) :=
  let sa := prepare_variables aStep sa in
  let evtac := initial_beam_info sa evtac in
  evtac <- detector_volumes sa evtac ;;
  r <- optical_part sa aStep evtac (GetTrack aStep) ;;
  tot <- verbose_total sa (fst r) ;;
  let trk := kill_in_world aStep (snd r) in
  Ok (set_theTrack (Some trk) sa, fst r, trk).

End SteppingAction.

(** ** The argument handling of [main] (OpticalSimulation.cc)

    [main] reads [argc] and [argv], selects the run manager and hands over
    to the toolkit.  Three things come from outside the repository and are
    parameters: whether the toolkit's fatal exception aborts the process
    or returns to the caller, the conversion [std::stoul] (no result when
    it throws), and the number of hardware threads. *)

(** [SetNumberOfThreads] takes a [G4int]; [main] passes it the [size_t]
    [Ncores], which is narrowed to 32 bits on the way (modulo 2^32, read as
    a two's complement number). *)
Definition G4int_of_size_t (n : N) : Z :=
  (Z.of_N n + 2147483648) mod 4294967296 - 2147483648.

(** The run manager [main] creates; for the multithreaded one, the argument
    that [SetNumberOfThreads] receives. *)
Inductive RunManager : Type :=
| G4RunManager
| G4MTRunManager (threads : Z).

Record Setup : Type := {
  outputFile : string;
  TotalNParticles : N;
  flag_MT : bool;
  Ncores : N;
  runManager : RunManager
}.

Inductive MainOutcome : Type :=
| Returned (code : Z)                       (* [return code;] *)
| FatalAbort (exceptionCode : string)       (* the fatal exception aborted *)
| UncaughtException                         (* [std::stoul] threw *)
| UninitialisedRunManager (exceptionCode : string)
    (* the fatal exception returned and [runManager] was never assigned *)
| Proceeds (s : Setup).                     (* geometry and physics set-up reached *)

Section MainProgram.

Variable fatal_aborts : bool.
Variable stoul : string -> option N.
Variable hardware_concurrency : N.

Definition main_setup (argv : list string) : MainOutcome :=
  let argc := Z.of_nat (List.length argv) in
  if argc <? 2 then
    if fatal_aborts then FatalAbort "main0004" else Returned 1
  else
    let outputFile := nth 1 argv "" in
    if argc =? 2 then
      Proceeds {| outputFile := outputFile; TotalNParticles := 0%N;
                  flag_MT := false; Ncores := hardware_concurrency;
                  runManager := G4RunManager |}
    else if argc >=? 5 then
      match stoul (nth 2 argv "") with
      | None => UncaughtException
      | Some n =>
          let pMT := nth 4 argv "" in
          if String.eqb pMT "ON" then
            if argc =? 6 then
              match stoul (nth 5 argv "") with
              | None => UncaughtException
              | Some k =>
                  Proceeds {| outputFile := outputFile;
                              TotalNParticles := n; flag_MT := true;
                              Ncores := k;
                              runManager :=
                                G4MTRunManager (G4int_of_size_t k) |}
              end
            else
              Proceeds {| outputFile := outputFile; TotalNParticles := n;
                          flag_MT := true; Ncores := hardware_concurrency;
                          runManager :=
                            G4MTRunManager
                              (G4int_of_size_t hardware_concurrency) |}
          else if String.eqb pMT "OFF" then
            Proceeds {| outputFile := outputFile; TotalNParticles := n;
                        flag_MT := false; Ncores := hardware_concurrency;
                        runManager := G4RunManager |}
          else if fatal_aborts then FatalAbort "main0002"
          else UninitialisedRunManager "main0002"
      end
    else if fatal_aborts then FatalAbort "main0003"
    else UninitialisedRunManager "main0003".

(** Once the set-up is reached the toolkit session runs and [main]
    returns 0. *)
Definition main (argv : list string) : MainOutcome :=
  match main_setup argv with
  | Proceeds _ => Returned 0
  | o => o
  end.

End MainProgram.

(** ** The accessors of [RunTallySc]

    [std::vector::at] returns the element at an index below the size and
    throws [std::out_of_range] otherwise; no result stands for the
    exception. *)

Module RunTallyScAccess.

Definition at_ {A : Type} (v : list A) (i : N) : option A :=
  nth_error v (N.to_nat i).

Definition size {A : Type} (v : list A) : N := N.of_nat (List.length v).

Definition XEntranceSize (t : RunTallySc.t) : N := size (RunTallySc.x_entrance t).
Definition YEntranceSize (t : RunTallySc.t) : N := size (RunTallySc.y_entrance t).
Definition ZEntranceSize (t : RunTallySc.t) : N := size (RunTallySc.z_entrance t).
Definition ParentIDSize (t : RunTallySc.t) : N := size (RunTallySc.parentID t).
Definition ParticleIDSize (t : RunTallySc.t) : N := size (RunTallySc.particleID t).
Definition EnergySize (t : RunTallySc.t) : N := size (RunTallySc.energy t).
Definition TotalDepositedEnergySize (t : RunTallySc.t) : N :=
  size (RunTallySc.total_deposited_energy t).

Definition GetXEntrance (i : N) (t : RunTallySc.t) : option float :=
  at_ (RunTallySc.x_entrance t) i.
Definition GetYEntrance (i : N) (t : RunTallySc.t) : option float :=
  at_ (RunTallySc.y_entrance t) i.
Definition GetZEntrance (i : N) (t : RunTallySc.t) : option float :=
  at_ (RunTallySc.z_entrance t) i.
Definition GetParentID (i : N) (t : RunTallySc.t) : option Z :=
  at_ (RunTallySc.parentID t) i.
Definition GetParticleID (i : N) (t : RunTallySc.t) : option Z :=
  at_ (RunTallySc.particleID t) i.
Definition GetEnergy (i : N) (t : RunTallySc.t) : option float :=
  at_ (RunTallySc.energy t) i.
Definition GetTotalDepositedEnergy (i : N) (t : RunTallySc.t) : option float :=
  at_ (RunTallySc.total_deposited_energy t) i.

End RunTallyScAccess.

(** ** The session of [main] (OpticalSimulation.cc)

    Once the kernel is initialised [main] hands commands to the UI manager:
    the visualisation macro and an interactive session, or the macro and
    the run of the batch mode, followed in multithreaded mode by the merge
    of the files of the threads and their removal; the output file is
    moved last.  The result is the sequence of what the UI manager is
    asked, or nothing when a loop has not ended within [fuel] turns. *)

(** [std::to_string] of a [size_t] and of an [int]. *)
Definition to_string (n : N) : string :=
  NilEmpty.string_of_uint (N.to_uint n).

Definition to_string_int (n : Z) : string :=
  NilEmpty.string_of_int (Z.to_int n).

Definition SIZE_MAX : N := 18446744073709551615.

(** [++i] on a [size_t]. *)
Definition size_t_succ (i : N) : N := ((i + 1) mod (SIZE_MAX + 1))%N.

(** What [main] asks of the UI manager. *)
Inductive UIAction : Type :=
| ApplyCommand (command : string)
| SessionStart.

(** [for (size_t i = 1; i <= Ncores; ++i) mergeCommand += ...] *)
Fixpoint merge_loop (fuel : nat) (i Ncores : N) (outputFile mergeCommand : string)
    : option string :=
  match fuel with
  | O => None
  | S fuel' =>
      if (i <=? Ncores)%N then
        merge_loop fuel' (size_t_succ i) Ncores outputFile
          (mergeCommand ++ " " ++ outputFile ++ "_" ++ to_string i ++ ".root")%string
      else Some mergeCommand
  end.

(** [for (size_t i = 0; i <= Ncores; ++i) UI->ApplyCommand(removeCommand)] *)
Fixpoint remove_loop (fuel : nat) (i Ncores : N) (outputFile : string)
    (applied : list UIAction) : option (list UIAction) :=
  match fuel with
  | O => None
  | S fuel' =>
      if (i <=? Ncores)%N then
        let removeCommand :=
          ("/control/shell rm -f " ++ outputFile ++ "_" ++ to_string i ++ ".root")%string in
        remove_loop fuel' (size_t_succ i) Ncores outputFile
          (applied ++ [ApplyCommand removeCommand])
      else Some applied
  end.

Definition session (fuel : nat) (argv : list string) (s : Setup)
    : option (list UIAction) :=
  let argc := Z.of_nat (List.length argv) in
  match
    (if argc =? 2 then
       Some [ApplyCommand "/control/execute vis.mac"; SessionStart]
     else if argc >=? 5 then
       let applied :=
         [ApplyCommand ("/control/execute " ++ nth 3 argv "")%string;
          ApplyCommand ("/run/beamOn " ++ nth 2 argv "")%string] in
       if flag_MT s then
         match merge_loop fuel 1 (Ncores s) (outputFile s)
                 ("/control/shell hadd -k -f " ++ outputFile s ++ ".root")%string with
         | None => None
         | Some mergeCommand =>
             remove_loop fuel 0 (Ncores s) (outputFile s)
               (applied ++ [ApplyCommand mergeCommand])
         end
       else Some applied
     else Some [])
  with
  | None => None
  | Some applied =>
      Some (applied ++
            [ApplyCommand
               ("/control/shell mv " ++ outputFile s ++ ".root ../Resultats")%string])
  end.

(** What the UI manager is asked in a run of [main] that reaches the
    set-up. *)
Definition main_session (fatal_aborts : bool) (stoul : string -> option N)
    (hardware_concurrency : N) (fuel : nat) (argv : list string)
    : option (list UIAction) :=
  match main_setup fatal_aborts stoul hardware_concurrency argv with
  | Proceeds s => session fuel argv s
  | _ => None
  end.

(** ** OpticalSimulationRunAction

    The analysis toolkit is outside the repository.  A tree is the list of
    its branches, each with the address it was bound to (here: the reader
    of the member), and the entries filled so far; filling reads every
    branch through its address. *)

Inductive Leaf : Type :=
| LeafF (v : float)
| LeafI (v : Z)
| LeafVF (v : list float)
| LeafVI (v : list Z).

Record TBranch (T : Type) : Type := {
  branch_name : string;
  branch_type : string;       (* the leaf list or the class name *)
  branch_address : T -> Leaf
}.

Arguments branch_name {T}.
Arguments branch_type {T}.
Arguments branch_address {T}.

Record TTree (T : Type) : Type := {
  tree_name : string;
  tree_title : string;
  tree_branches : list (TBranch T);
  tree_entries : list (list (string * Leaf))
}.

Arguments tree_name {T}.
Arguments tree_title {T}.
Arguments tree_branches {T}.
Arguments tree_entries {T}.

(** [new TTree(name, title)] *)
Definition TTree_new (T : Type) (name title : string) : TTree T :=
  {| tree_name := name; tree_title := title;
     tree_branches := []; tree_entries := [] |}.

(** [tree->Branch(name, address, leaflist)] and
    [tree->Branch(name, classname, address)] *)
Definition Branch {T : Type} (name type : string) (address : T -> Leaf)
    (tree : TTree T) : TTree T :=
  {| tree_name := tree_name tree; tree_title := tree_title tree;
     tree_branches :=
       tree_branches tree
         ++ [{| branch_name := name; branch_type := type;
                branch_address := address |}];
     tree_entries := tree_entries tree |}.

(** [tree->Fill()], the branches reading the record [stats] they are bound
    to. *)
Definition TTree_Fill {T : Type} (stats : T) (tree : TTree T) : TTree T :=
  {| tree_name := tree_name tree; tree_title := tree_title tree;
     tree_branches := tree_branches tree;
     tree_entries :=
       tree_entries tree
         ++ [map (fun b => (branch_name b, branch_address b stats))
                 (tree_branches tree)] |}.

(** [CreateBranches<float>]: one branch per pair, with leaf list
    [name + "/" + "F"]. *)
Definition CreateBranches {T : Type} (tree : TTree T)
    (branches : list (string * (T -> float))) : TTree T :=
  fold_left
    (fun tree b =>
       Branch (fst b) (fst b ++ "/" ++ "F")%string
         (fun stats => LeafF (snd b stats)) tree)
    branches tree.

Definition CreateScBranches (tree : TTree RunTallySc.t) : TTree RunTallySc.t :=
  let tree := Branch "x_entrance" "vector<float>"
                (fun s => LeafVF (RunTallySc.x_entrance s)) tree in
  let tree := Branch "y_entrance" "vector<float>"
                (fun s => LeafVF (RunTallySc.y_entrance s)) tree in
  let tree := Branch "z_entrance" "vector<float>"
                (fun s => LeafVF (RunTallySc.z_entrance s)) tree in
  let tree := Branch "parentID" "vector<int>"
                (fun s => LeafVI (RunTallySc.parentID s)) tree in
  let tree := Branch "particleID" "vector<int>"
                (fun s => LeafVI (RunTallySc.particleID s)) tree in
  let tree := Branch "energy" "vector<float>"
                (fun s => LeafVF (RunTallySc.energy s)) tree in
  let tree := Branch "deposited_energy" "vector<float>"
                (fun s => LeafVF (RunTallySc.total_deposited_energy s)) tree in
  Branch "deposited_energy_event" "deposited_energy_event/F"
    (fun s => LeafF (RunTallySc.deposited_energy_event s)) tree.

Definition CreateOpticalBranches (tree : TTree RunTallyOptical)
    : TTree RunTallyOptical :=
  let tree := Branch "incident_E" "incident_E/F"
                (fun s => LeafF (IncidentE s)) tree in
  let tree := Branch "deposit_ZnS" "deposit_ZnS/F"
                (fun s => LeafF (DepositZnS s)) tree in
  let tree := Branch "deposit_Sc" "deposit_Sc/F"
                (fun s => LeafF (DepositSc s)) tree in
  let tree := Branch "scintillation_ZnS" "scintillation_ZnS/I"
                (fun s => LeafI (ScintillationZnS s)) tree in
  let tree := Branch "scintillation_Sc" "scintillation_Sc/I"
                (fun s => LeafI (ScintillationSc s)) tree in
  let tree := Branch "cerenkov_ZnS" "cerenkov_ZnS/I"
                (fun s => LeafI (CerenkovZnS s)) tree in
  let tree := Branch "cerenkov_Sc" "cerenkov_Sc/I"
                (fun s => LeafI (CerenkovSc s)) tree in
  let tree := Branch "bulk_abs_ZnS" "bulk_abs_ZnS/I"
                (fun s => LeafI (BulkAbsZnS s)) tree in
  let tree := Branch "bulk_abs_Sc" "bulk_abs_Sc/I"
                (fun s => LeafI (BulkAbsSc s)) tree in
  let tree := Branch "absorbed" "absorbed/I"
                (fun s => LeafI (Absorbed s)) tree in
  let tree := Branch "escaped" "escaped/I"
                (fun s => LeafI (Escaped s)) tree in
  let tree := Branch "failed" "failed/I"
                (fun s => LeafI (Failed s)) tree in
  let tree := Branch "killed" "killed/I"
                (fun s => LeafI (Killed s)) tree in
  let tree := Branch "detected" "detected/I"
                (fun s => LeafI (Detected s)) tree in
  let tree := Branch "detector_position_x" "vector<float>"
                (fun s => LeafVF (DetectorPositionX s)) tree in
  let tree := Branch "detector_position_y" "vector<float>"
                (fun s => LeafVF (DetectorPositionY s)) tree in
  let tree := Branch "detector_position_z" "vector<float>"
                (fun s => LeafVF (DetectorPositionZ s)) tree in
  let tree := Branch "birth_wavelength" "vector<float>"
                (fun s => LeafVF (BirthWavelength s)) tree in
  let tree := Branch "birth_wavelength_detected" "vector<float>"
                (fun s => LeafVF (BirthWavelengthDetected s)) tree in
  let tree := Branch "time" "vector<float>"
                (fun s => LeafVF (Time s)) tree in
  let tree := Branch "angle_creation" "vector<float>"
                (fun s => LeafVF (Angle_creation s)) tree in
  Branch "angle_detection" "vector<float>"
    (fun s => LeafVF (Angle_detection s)) tree.

Module RunAction.

Record t : Type := {
  suffixe : string;
  fileName : string;
  StatsInput : RunTallyInput.t;
  StatsZnS : RunTallySc.t;
  StatsScintillator : RunTallySc.t;
  StatsOptical : RunTallyOptical;
  NEventsGenerated : N;
  flag_MT : bool;
  f : option string;          (* the file, by the name it was opened with *)
  Tree_Input : option (TTree RunTallyInput.t);
  Tree_ZnS : option (TTree RunTallySc.t);
  Tree_Scintillator : option (TTree RunTallySc.t);
  Tree_Optical : option (TTree RunTallyOptical);
  start : Z
}.

End RunAction.

(** The constructor; [StatsOptical] and [start] have no initialiser and
    hold whatever the two last arguments are. *)
Definition OpticalSimulationRunAction (suff : string) (N : N) (pMT : bool)
    (indeterminate : RunTallyOptical) (indeterminate_start : Z)
    : RunAction.t :=
  {| RunAction.suffixe := suff; RunAction.fileName := "";
     RunAction.StatsInput := RunTallyInput.default;
     RunAction.StatsZnS := RunTallySc.default;
     RunAction.StatsScintillator := RunTallySc.default;
     RunAction.StatsOptical := indeterminate;
     RunAction.NEventsGenerated := N; RunAction.flag_MT := pMT;
     RunAction.f := None;
     RunAction.Tree_Input := None; RunAction.Tree_ZnS := None;
     RunAction.Tree_Scintillator := None; RunAction.Tree_Optical := None;
     RunAction.start := indeterminate_start |}.

(** [activeThreads++] on the atomic [int]: the value wraps. *)
Definition atomic_int_succ (n : Z) : Z :=
  (n + 1 + 2147483648) mod 4294967296 - 2147483648.

(** [BeginOfRunAction]; [now] and [now'] are the results of the two calls
    of [time(NULL)].  The result is the run action, the thread counter and
    the seed handed to the random engine.  The lines written to the output
    stream and the notification of the visualisation manager are left
    out. *)
Definition BeginOfRunAction (now now' : Z) (activeThreads : Z)
    (ra : RunAction.t) : RunAction.t * Z * Z :=
  let a := activeThreads in
  let s := if RunAction.flag_MT ra
           then ("_" ++ to_string_int activeThreads)%string else "" in
  let fileName := (RunAction.suffixe ra ++ s ++ ".root")%string in
  let Tree_Input := TTree_new RunTallyInput.t "Input" "Input Information" in
  let Tree_ZnS := TTree_new RunTallySc.t "ZnS" "ZnS Information" in
  let Tree_Scintillator :=
    TTree_new RunTallySc.t "Scintillator" "Scintillator Information" in
  let Tree_Optical :=
    TTree_new RunTallyOptical "Optical" "Optical Information" in
  let inputBranches :=
    [("x", RunTallyInput.x); ("xp", RunTallyInput.xp);
     ("y", RunTallyInput.y); ("yp", RunTallyInput.yp);
     ("z", RunTallyInput.z); ("zp", RunTallyInput.zp);
     ("energy", RunTallyInput.energy)] in
  let Tree_Input := CreateBranches Tree_Input inputBranches in
  let Tree_ZnS := CreateScBranches Tree_ZnS in
  let Tree_Scintillator := CreateScBranches Tree_Scintillator in
  let Tree_Optical := CreateOpticalBranches Tree_Optical in
  let seed := now' + a in
  ({| RunAction.suffixe := RunAction.suffixe ra;
      RunAction.fileName := fileName;
      RunAction.StatsInput := RunAction.StatsInput ra;
      RunAction.StatsZnS := RunAction.StatsZnS ra;
      RunAction.StatsScintillator := RunAction.StatsScintillator ra;
      RunAction.StatsOptical := RunAction.StatsOptical ra;
      RunAction.NEventsGenerated := RunAction.NEventsGenerated ra;
      RunAction.flag_MT := RunAction.flag_MT ra;
      RunAction.f := Some fileName;
      RunAction.Tree_Input := Some Tree_Input;
      RunAction.Tree_ZnS := Some Tree_ZnS;
      RunAction.Tree_Scintillator := Some Tree_Scintillator;
      RunAction.Tree_Optical := Some Tree_Optical;
      RunAction.start := now |},
   atomic_int_succ activeThreads, seed).

(** [UpdateStatistics]: the record is assigned, then the tree is filled
    when there is one; otherwise a line goes to the error stream. *)
Definition UpdateStatistics {T : Type} (newStats : T) (tree : option (TTree T))
    : T * option (TTree T) * list string :=
  let stats := newStats in
  match tree with
  | Some tr => (stats, Some (TTree_Fill stats tr), [])
  | None => (stats, None, ["Error: Tree is nullptr"])
  end.

Definition with_Input (stats : RunTallyInput.t)
    (tree : option (TTree RunTallyInput.t)) (ra : RunAction.t) : RunAction.t :=
  {| RunAction.suffixe := RunAction.suffixe ra;
     RunAction.fileName := RunAction.fileName ra;
     RunAction.StatsInput := stats;
     RunAction.StatsZnS := RunAction.StatsZnS ra;
     RunAction.StatsScintillator := RunAction.StatsScintillator ra;
     RunAction.StatsOptical := RunAction.StatsOptical ra;
     RunAction.NEventsGenerated := RunAction.NEventsGenerated ra;
     RunAction.flag_MT := RunAction.flag_MT ra;
     RunAction.f := RunAction.f ra;
     RunAction.Tree_Input := tree;
     RunAction.Tree_ZnS := RunAction.Tree_ZnS ra;
     RunAction.Tree_Scintillator := RunAction.Tree_Scintillator ra;
     RunAction.Tree_Optical := RunAction.Tree_Optical ra;
     RunAction.start := RunAction.start ra |}.

Definition with_ZnS (stats : RunTallySc.t)
    (tree : option (TTree RunTallySc.t)) (ra : RunAction.t) : RunAction.t :=
  {| RunAction.suffixe := RunAction.suffixe ra;
     RunAction.fileName := RunAction.fileName ra;
     RunAction.StatsInput := RunAction.StatsInput ra;
     RunAction.StatsZnS := stats;
     RunAction.StatsScintillator := RunAction.StatsScintillator ra;
     RunAction.StatsOptical := RunAction.StatsOptical ra;
     RunAction.NEventsGenerated := RunAction.NEventsGenerated ra;
     RunAction.flag_MT := RunAction.flag_MT ra;
     RunAction.f := RunAction.f ra;
     RunAction.Tree_Input := RunAction.Tree_Input ra;
     RunAction.Tree_ZnS := tree;
     RunAction.Tree_Scintillator := RunAction.Tree_Scintillator ra;
     RunAction.Tree_Optical := RunAction.Tree_Optical ra;
     RunAction.start := RunAction.start ra |}.

Definition with_Scintillator (stats : RunTallySc.t)
    (tree : option (TTree RunTallySc.t)) (ra : RunAction.t) : RunAction.t :=
  {| RunAction.suffixe := RunAction.suffixe ra;
     RunAction.fileName := RunAction.fileName ra;
     RunAction.StatsInput := RunAction.StatsInput ra;
     RunAction.StatsZnS := RunAction.StatsZnS ra;
     RunAction.StatsScintillator := stats;
     RunAction.StatsOptical := RunAction.StatsOptical ra;
     RunAction.NEventsGenerated := RunAction.NEventsGenerated ra;
     RunAction.flag_MT := RunAction.flag_MT ra;
     RunAction.f := RunAction.f ra;
     RunAction.Tree_Input := RunAction.Tree_Input ra;
     RunAction.Tree_ZnS := RunAction.Tree_ZnS ra;
     RunAction.Tree_Scintillator := tree;
     RunAction.Tree_Optical := RunAction.Tree_Optical ra;
     RunAction.start := RunAction.start ra |}.

Definition with_Optical (stats : RunTallyOptical)
    (tree : option (TTree RunTallyOptical)) (ra : RunAction.t) : RunAction.t :=
  {| RunAction.suffixe := RunAction.suffixe ra;
     RunAction.fileName := RunAction.fileName ra;
     RunAction.StatsInput := RunAction.StatsInput ra;
     RunAction.StatsZnS := RunAction.StatsZnS ra;
     RunAction.StatsScintillator := RunAction.StatsScintillator ra;
     RunAction.StatsOptical := stats;
     RunAction.NEventsGenerated := RunAction.NEventsGenerated ra;
     RunAction.flag_MT := RunAction.flag_MT ra;
     RunAction.f := RunAction.f ra;
     RunAction.Tree_Input := RunAction.Tree_Input ra;
     RunAction.Tree_ZnS := RunAction.Tree_ZnS ra;
     RunAction.Tree_Scintillator := RunAction.Tree_Scintillator ra;
     RunAction.Tree_Optical := tree;
     RunAction.start := RunAction.start ra |}.

(** The wrappers; each returns the run action and the lines written to the
    error stream. *)
Definition UpdateStatisticsInput (a : RunTallyInput.t) (ra : RunAction.t)
    : RunAction.t * list string :=
  let r := UpdateStatistics a (RunAction.Tree_Input ra) in
  (with_Input (fst (fst r)) (snd (fst r)) ra, snd r).

Definition UpdateStatisticsZnS (a : RunTallySc.t) (ra : RunAction.t)
    : RunAction.t * list string :=
  let r := UpdateStatistics a (RunAction.Tree_ZnS ra) in
  (with_ZnS (fst (fst r)) (snd (fst r)) ra, snd r).

Definition UpdateStatisticsScintillator (a : RunTallySc.t) (ra : RunAction.t)
    : RunAction.t * list string :=
  let r := UpdateStatistics a (RunAction.Tree_Scintillator ra) in
  (with_Scintillator (fst (fst r)) (snd (fst r)) ra, snd r).

Definition UpdateStatisticsOptical (a : RunTallyOptical) (ra : RunAction.t)
    : RunAction.t * list string :=
  let r := UpdateStatistics a (RunAction.Tree_Optical ra) in
  (with_Optical (fst (fst r)) (snd (fst r)) ra, snd r).

(** The calls [EndOfEventAction] makes on the run action, in source
    order. *)
Definition UpdateRun (u : RunUpdates) (ra : RunAction.t)
    : RunAction.t * list string :=
  let r1 := match toInput u with
            | Some a => UpdateStatisticsInput a ra
            | None => (ra, [])
            end in
  let r2 := match toZnS u with
            | Some a => UpdateStatisticsZnS a (fst r1)
            | None => (fst r1, [])
            end in
  let r3 := match toScintillator u with
            | Some a => UpdateStatisticsScintillator a (fst r2)
            | None => (fst r2, [])
            end in
  let r4 := UpdateStatisticsOptical (toOptical u) (fst r3) in
  (fst r4, snd r1 ++ snd r2 ++ snd r3 ++ snd r4).

(** ** One event as the toolkit drives it

    The toolkit calls [BeginOfEventAction], then [UserSteppingAction] for
    every step of every track, then [EndOfEventAction], which passes its
    records to the run action; the stepping action keeps its members from
    one call to the next, the event action its air index. *)
Fixpoint run_steps (tk : Toolkit) (steps : list G4Step)
    (sa : OpticalSimulationSteppingAction) (e : OpticalSimulationEventAction)
    : outcome (OpticalSimulationSteppingAction * OpticalSimulationEventAction) :=
  match steps with
  | [] => Ok (sa, e)
  | aStep :: steps' =>
      r <- UserSteppingAction tk aStep sa e ;;
      run_steps tk steps' (fst (fst r)) (snd (fst r))
  end.

Definition run_event (tk : Toolkit) (steps : list G4Step)
    (sa : OpticalSimulationSteppingAction) (e : OpticalSimulationEventAction)
    (ra : RunAction.t)
    : outcome (OpticalSimulationSteppingAction * OpticalSimulationEventAction
               * RunAction.t) :=
  r <- run_steps tk steps sa (BeginOfEventAction e) ;;
  r' <- EndOfEventAction (snd r) ;;
  Ok (fst r, fst (fst r'), fst (UpdateRun (snd (fst r')) ra)).

Fixpoint run_events (tk : Toolkit) (events : list (list G4Step))
    (sa : OpticalSimulationSteppingAction) (e : OpticalSimulationEventAction)
    (ra : RunAction.t)
    : outcome (OpticalSimulationSteppingAction * OpticalSimulationEventAction
               * RunAction.t) :=
  match events with
  | [] => Ok (sa, e, ra)
  | steps :: events' =>
      r <- run_event tk steps sa e ra ;;
      run_events tk events' (fst (fst r)) (snd (fst r)) (snd r)
  end.

(** The value of a branch in an entry. *)
Fixpoint leaf (name : string) (entry : list (string * Leaf)) : option Leaf :=
  match entry with
  | [] => None
  | (n, v) :: entry' => if String.eqb n name then Some v else leaf name entry'
  end.

(** The entries of a tree pointer; none while the pointer is null. *)
Definition entries_of {T : Type} (tree : option (TTree T))
    : list (list (string * Leaf)) :=
  match tree with
  | Some tr => tree_entries tr
  | None => []
  end.

(** The run actions of a run begin one after the other (the mutex
    serialises them); each call is given its two clock readings. *)
Fixpoint BeginOfRunAction_each (calls : list (Z * Z * RunAction.t))
    (activeThreads : Z) : list RunAction.t * Z :=
  match calls with
  | [] => ([], activeThreads)
  | (now, now', ra) :: calls' =>
      let r := BeginOfRunAction now now' activeThreads ra in
      let rs := BeginOfRunAction_each calls' (snd (fst r)) in
      (fst (fst r) :: fst rs, snd rs)
  end.

(** ** Vocabulary of the properties *)

(** The terminal counters of a photon track. *)
Definition terminal_counters : list IntMember :=
  [mDetected; mAbsorbed; mBulkAbsZnS; mBulkAbsSc; mEscaped; mFailed].

(** The counters the boundary switch can reach. *)
Definition boundary_counters : list IntMember :=
  [mDetected; mAbsorbed; mEscaped; mFailed].

(** The members of [ms] whose value went up between two records. *)
Definition incremented (ms : list IntMember) (before after : RunTallyOptical)
    : list IntMember :=
  filter (fun m => get_int m before <? get_int m after) ms.

(** The members assigned by the derivation block of [EndOfEventAction]. *)
Definition derived_are_reset (so : RunTallyOptical) : Prop :=
  IncidentE so = fzero /\ DepositTotal so = fzero /\ DepositZnS so = fzero /\
  DepositSc so = fzero /\ GeneratedSc so = 0 /\ GeneratedZnS so = 0 /\
  GeneratedTotal so = 0 /\ BulkAbsTotal so = 0.

(** The event action with the [int] member [m] of its optical record one
    higher. *)
Definition bumped (m : IntMember) (e : OpticalSimulationEventAction)
    : OpticalSimulationEventAction :=
  with_StatsOptical
    (set_int m (get_int m (StatsOptical e) + 1) (StatsOptical e)) e.

(** Every [int] member holds an [int] and none is at [INT_MAX]: the next
    increment is defined. *)
Definition can_count (so : RunTallyOptical) : Prop :=
  forall m, CxxInt.INT_MIN <= get_int m so < CxxInt.INT_MAX.

(** The effect of the first statement of the classifier, the bulk rule:
    the member it counts in and the event action it leaves. *)
Definition bulk_member (aStep : G4Step) : IntMember :=
  if String.eqb (GetPhysicalVolumeName (GetPreStepPoint aStep)) "ZnS"
  then mBulkAbsZnS else mBulkAbsSc.

Definition after_bulk (sa : OpticalSimulationSteppingAction) (aStep : G4Step)
    (e : OpticalSimulationEventAction) : OpticalSimulationEventAction :=
  if String.eqb (endproc sa) "OpAbsorption"
  then bumped (bulk_member aStep) e else e.

(** What a step must satisfy for [UserSteppingAction] to be defined on it:
    no total is printed (the verbosity level is at most 1); the counters can
    still count; for an optical photon the boundary process
    is in its process list when the classifier is to run, and it has a
    creator process on its first step; for another particle the parent
    identifier survives the round trip through [G4float] when an episode
    opens in a detector volume. *)
Definition step_precondition (aStep : G4Step)
    (sa : OpticalSimulationSteppingAction)
    (evtac : OpticalSimulationEventAction) : Prop :=
  VerbosityLevel sa <= 1 /\
  can_count (StatsOptical evtac) /\
  (GetParticleName (GetTrack aStep) = "opticalphoton" ->
     (PhotonTrackStatus sa = true ->
        find_OpBoundary (GetProcessList (GetTrack aStep)) <> None) /\
     (GetCurrentStepNumber (GetTrack aStep) = 1 ->
        GetCreatorProcessName (GetTrack aStep) <> None)) /\
  (GetParticleName (GetTrack aStep) <> "opticalphoton" ->
     forall it,
       ScMap_find ScMap (GetPhysicalVolumeName (GetPreStepPoint aStep)) = Some it ->
       RunTallySc.flag (tally_of it evtac) = false ->
       exists p, int_of_float (float_of_int (GetParentID (GetTrack aStep))) = Ok p).

(** The four creation counters can still count. *)
Definition creation_can_count (so : RunTallyOptical) : Prop :=
  forall m, In m [mScintillationZnS; mScintillationSc; mCerenkovZnS; mCerenkovSc] ->
    CxxInt.INT_MIN <= get_int m so < CxxInt.INT_MAX.

(** The counting functions of the event action. *)
Inductive Counter : Type :=
| cCerenkovZnS | cCerenkovSc | cScintillationZnS | cScintillationSc
| cKilled | cDetected | cAbsorbed | cBulkAbsSc | cBulkAbsZnS | cEscaped
| cFailed.

Definition CountOf (c : Counter)
    : OpticalSimulationEventAction -> outcome OpticalSimulationEventAction :=
  match c with
  | cCerenkovZnS => CountCerenkovZnS
  | cCerenkovSc => CountCerenkovSc
  | cScintillationZnS => CountScintillationZnS
  | cScintillationSc => CountScintillationSc
  | cKilled => CountKilled
  | cDetected => CountDetected
  | cAbsorbed => CountAbsorbed
  | cBulkAbsSc => CountBulkAbsSc
  | cBulkAbsZnS => CountBulkAbsZnS
  | cEscaped => CountEscaped
  | cFailed => CountFailed
  end.

(** The member each counting function increments. *)
Definition counter_member (c : Counter) : IntMember :=
  match c with
  | cCerenkovZnS => mCerenkovZnS
  | cCerenkovSc => mCerenkovSc
  | cScintillationZnS => mScintillationZnS
  | cScintillationSc => mScintillationSc
  | cKilled => mKilled
  | cDetected => mDetected
  | cAbsorbed => mAbsorbed
  | cBulkAbsSc => mBulkAbsSc
  | cBulkAbsZnS => mBulkAbsZnS
  | cEscaped => mEscaped
  | cFailed => mFailed
  end.

(** The invariant of the optical record within an event: the sentinel of
    the summary block is not negative and the derived members still hold
    their reset values. *)
Definition summary_never_ran (so : RunTallyOptical) : Prop :=
  0 <= ScintillationSc so /\ derived_are_reset so.

(** The public mutators of the event action: what can happen to it between
    [BeginOfEventAction] and [EndOfEventAction]. *)
Inductive EventOp : Type :=
| OpSetXStart (d : float)
| OpSetXpStart (d : float)
| OpSetYStart (d : float)
| OpSetYpStart (d : float)
| OpSetZStart (d : float)
| OpSetZpStart (d : float)
| OpSetEnergyStart (d : float)
| OpCount (c : Counter)
| OpFill (m : FloatVecMember) (v : float)
| OpFillInt (m : IntVecMember) (v : Z)
| OpSetAirIndex (a : float)
| OpUpdateSc (it : ScAccessor)
    (x y z energy energyDeposited energy_post parentID : float)
    (particleID : Z) (volumeNamePostStep : string).

Definition apply_op (op : EventOp) (e : OpticalSimulationEventAction)
    : outcome OpticalSimulationEventAction :=
  match op with
  | OpSetXStart d => Ok (SetXStart d e)
  | OpSetXpStart d => Ok (SetXpStart d e)
  | OpSetYStart d => Ok (SetYStart d e)
  | OpSetYpStart d => Ok (SetYpStart d e)
  | OpSetZStart d => Ok (SetZStart d e)
  | OpSetZpStart d => Ok (SetZpStart d e)
  | OpSetEnergyStart d => Ok (SetEnergyStart d e)
  | OpCount c => CountOf c e
  | OpFill m v => Ok (Fill m v e)
  | OpFillInt m v => Ok (FillInt m v e)
  | OpSetAirIndex a => Ok (SetAirIndex a e)
  | OpUpdateSc it x y z en dep en_post parent pid vol =>
      sc <- UpdateSc (tally_of it e) x y z en dep en_post parent pid vol
              true None ;;
      Ok (store_tally it sc e)
  end.

(** The states of the event action within one event: after the reset, after
    any public mutator and after any step of the stepping action. *)
Inductive reachable (tk : Toolkit) : OpticalSimulationEventAction -> Prop :=
| reach_begin : forall e, reachable tk (BeginOfEventAction e)
| reach_op : forall op e e',
    reachable tk e -> apply_op op e = Ok e' -> reachable tk e'
| reach_step : forall aStep sa e sa' e' t',
    reachable tk e ->
    UserSteppingAction tk aStep sa e = Ok (sa', e', t') ->
    reachable tk e'.

(** The photons created according to the four creation counters. *)
Definition created_total (so : RunTallyOptical) : Z :=
  ScintillationZnS so + CerenkovZnS so + ScintillationSc so + CerenkovSc so.

(** The four creation-counting calls, and a sequence of them. *)
Inductive CreationCount : Type :=
| CreatedScintillationZnS | CreatedScintillationSc
| CreatedCerenkovZnS | CreatedCerenkovSc.



(** One call of [UpdateSc] as the stepping action issues it, and a run of
    such calls on one tally. *)
Record ScStep : Type := {
  sc_x : float; sc_y : float; sc_z : float;
  sc_energy : float;
  sc_energyDeposited : float;
  sc_energy_post : float;
  sc_parentID : float;
  sc_particleID : Z;
  sc_volumeNamePostStep : string
}.

Definition UpdateSc_step (s : ScStep) (tally : RunTallySc.t)
    : outcome RunTallySc.t :=
  UpdateSc tally (sc_x s) (sc_y s) (sc_z s) (sc_energy s)
    (sc_energyDeposited s) (sc_energy_post s) (sc_parentID s)
    (sc_particleID s) (sc_volumeNamePostStep s) true None.

Fixpoint UpdateSc_steps (ss : list ScStep) (tally : RunTallySc.t)
    : outcome RunTallySc.t :=
  match ss with
  | [] => Ok tally
  | s :: ss' => tally' <- UpdateSc_step s tally ;; UpdateSc_steps ss' tally'
  end.

(** The closing condition of an episode. *)
Definition closes (s : ScStep) : bool :=
  String.eqb (sc_volumeNamePostStep s) "Holder" || eq_zero (sc_energy_post s).

(** What one call of [UpdateSc] does to a tally: the entry data are appended
    when no episode was open and kept otherwise; the deposit goes to the
    accumulator of the event and to that of the episode; on the closing
    condition the episode total is appended, its accumulator reset and the
    flag cleared, otherwise the flag is set. *)
Definition entry_kept (t t' : RunTallySc.t) : Prop :=
  RunTallySc.x_entrance t' = RunTallySc.x_entrance t /\
  RunTallySc.y_entrance t' = RunTallySc.y_entrance t /\
  RunTallySc.z_entrance t' = RunTallySc.z_entrance t /\
  RunTallySc.parentID t' = RunTallySc.parentID t /\
  RunTallySc.particleID t' = RunTallySc.particleID t /\
  RunTallySc.energy t' = RunTallySc.energy t.

Definition entry_appended (t t' : RunTallySc.t) (x y z en : float)
    (parent pid : Z) : Prop :=
  RunTallySc.x_entrance t' = RunTallySc.x_entrance t ++ [x] /\
  RunTallySc.y_entrance t' = RunTallySc.y_entrance t ++ [y] /\
  RunTallySc.z_entrance t' = RunTallySc.z_entrance t ++ [z] /\
  RunTallySc.parentID t' = RunTallySc.parentID t ++ [parent] /\
  RunTallySc.particleID t' = RunTallySc.particleID t ++ [pid] /\
  RunTallySc.energy t' = RunTallySc.energy t ++ [en].

Definition episode_closed (t t' : RunTallySc.t) (dep : float) : Prop :=
  RunTallySc.total_deposited_energy t'
    = RunTallySc.total_deposited_energy t
        ++ [fadd (RunTallySc.deposited_energy t) dep] /\
  RunTallySc.deposited_energy t' = fzero /\
  RunTallySc.flag t' = false.

Definition episode_continued (t t' : RunTallySc.t) (dep : float) : Prop :=
  RunTallySc.total_deposited_energy t' = RunTallySc.total_deposited_energy t /\
  RunTallySc.deposited_energy t' = fadd (RunTallySc.deposited_energy t) dep /\
  RunTallySc.flag t' = true.

Definition UpdateSc_post (t t' : RunTallySc.t) (x y z en dep en_post : float)
    (parent pid : Z) (vol : string) : Prop :=
  (if RunTallySc.flag t then entry_kept t t'
   else entry_appended t t' x y z en parent pid) /\
  RunTallySc.deposited_energy_event t'
    = fadd (RunTallySc.deposited_energy_event t) dep /\
  (if String.eqb vol "Holder" || eq_zero en_post
   then episode_closed t t' dep else episode_continued t t' dep).

(** ** Concrete data for the worked cases *)

Module Samples.

Definition d (n : Z) : double := double_of_int n.
Definition f (n : Z) : float := float_of_int n.

(** The closest binary64 number to pi. *)
Definition pi : double := S754_finite false 7074237752028440 (-51).

(** The unit system of the toolkit (millimetre, nanosecond and MeV are 1),
    component-wise division, and an arc cosine tabulated where the worked
    cases need it: [acos 0 = pi/2], [acos 1 = 0]. *)
Definition toolkit : Toolkit :=
  {| MeV := d 1;
     keV := ddiv (d 1) (d 1000);
     eV := ddiv (d 1) (d 1000000);
     ns := d 1;
     mm := d 1;
     deg := ddiv pi (d 180);
     acos := fun x =>
       if eq_zero x then ddiv pi (d 2)
       else if SFeqb x (d 1) then dzero
       else S754_nan;
     Hep3Vector_div := fun v c =>
       {| vx := ddiv (vx v) c; vy := ddiv (vy v) c; vz := ddiv (vz v) c |} |}.

Definition origin : G4ThreeVector := {| vx := dzero; vy := dzero; vz := dzero |}.
Definition along_z : G4ThreeVector := {| vx := dzero; vy := dzero; vz := d 1 |}.

Definition point (volume : string) (status : G4StepStatus)
    (process : string) (kinetic : double) : G4StepPoint :=
  {| GetPosition := origin; GetMomentumDirection := along_z;
     GetKineticEnergy := kinetic; GetGlobalTime := d 2;
     GetPhysicalVolumeName := volume; GetStepStatus := status;
     GetProcessDefinedStepName := process |}.

(** A photon of 3.1 eV with the processes of an optical photon. *)
Definition photon_energy : double := ddiv (d 31) (d 10000000).

Definition photon (stepNumber : Z) (creator : option string)
    (next : string) (boundary : G4OpBoundaryProcessStatus) : G4Track :=
  {| GetParticleName := "opticalphoton"; GetPDGEncoding := -22;
     GetProcessList :=
       [ {| GetProcessName := "Transportation"; GetStatus := Undefined |};
         {| GetProcessName := "OpAbsorption"; GetStatus := Undefined |};
         {| GetProcessName := "OpBoundary"; GetStatus := boundary |} ];
     GetParentID := 1; GetTrackID := 7;
     GetCurrentStepNumber := stepNumber;
     GetTotalEnergy := photon_energy; GetTrackLength := d 12;
     GetNextVolumeName := next;
     GetCreatorProcessName := creator;
     GetTrackStatus := fAlive |}.

Definition photon_step (stepNumber : Z) (creator : option string)
    (pre_volume post_volume : string) (status : G4StepStatus)
    (process : string) (boundary : G4OpBoundaryProcessStatus) : G4Step :=
  {| GetTrack := photon stepNumber creator post_volume boundary;
     GetPreStepPoint := point pre_volume fGeomBoundary "Transportation" photon_energy;
     GetPostStepPoint := point post_volume status process photon_energy;
     GetTotalEnergyDeposit := dzero;
     GetStepLength := d 3 |}.

(** A 5 MeV alpha particle, a primary. *)
Definition alpha : G4Track :=
  {| GetParticleName := "alpha"; GetPDGEncoding := 1000020040;
     GetProcessList := [ {| GetProcessName := "Transportation"; GetStatus := Undefined |} ];
     GetParentID := 0; GetTrackID := 1; GetCurrentStepNumber := 3;
     GetTotalEnergy := d 3732; GetTrackLength := d 1;
     GetNextVolumeName := "World";
     GetCreatorProcessName := None;
     GetTrackStatus := fAlive |}.

Definition alpha_step (pre_volume post_volume : string) : G4Step :=
  {| GetTrack := alpha;
     GetPreStepPoint := point pre_volume fGeomBoundary "Transportation" (d 5);
     GetPostStepPoint := point post_volume fGeomBoundary "Transportation" (d 5);
     GetTotalEnergyDeposit := dzero;
     GetStepLength := d 3 |}.

(** The stepping action as [UserSteppingAction] leaves its members for a
    given step, with the photon-tracking switch as given. *)
Definition stepping (tracking : bool) (aStep : G4Step)
    : OpticalSimulationSteppingAction :=
  {| TrackingStatus := true; TrackingStatusCollimators := true;
     theTrack := Some (GetTrack aStep);
     particleName := GetParticleName (GetTrack aStep);
     particleID := GetPDGEncoding (GetTrack aStep);
     parentID := GetParentID (GetTrack aStep);
     trackID := GetTrackID (GetTrack aStep);
     stepNo := GetCurrentStepNumber (GetTrack aStep);
     endproc := GetProcessDefinedStepName (GetPostStepPoint aStep);
     volumeNamePreStep := GetPhysicalVolumeName (GetPreStepPoint aStep);
     volumeNamePostStep := GetPhysicalVolumeName (GetPostStepPoint aStep);
     angle := dzero; time := d 2;
     energy := GetKineticEnergy (GetPreStepPoint aStep);
     energy_post := GetKineticEnergy (GetPostStepPoint aStep);
     energyDeposited := dzero;
     preStep := StepPoint.default; postStep := StepPoint.default;
     VerbosityLevel := 0; PhotonTrackStatus := tracking |}.

(** An event action fresh from the reset. *)
Definition blank : OpticalSimulationEventAction :=
  {| StatsInput := RunTallyInput.default; StatsZnS := RunTallySc.default;
     StatsScintillator := RunTallySc.default;
     StatsOptical := RunTallyOptical_zero; Air_Index := fzero |}.

Definition fresh : OpticalSimulationEventAction := BeginOfEventAction blank.

(** A step of a charged particle inside a detector volume that deposits
    [dep] and ends in [post_volume] with kinetic energy [en_post]. *)
Definition sc_step (dep : Z) (post_volume : string) (en_post : Z) : ScStep :=
  {| sc_x := f 1; sc_y := f 2; sc_z := f 3; sc_energy := f 5;
     sc_energyDeposited := f dep; sc_energy_post := f en_post;
     sc_parentID := f 0; sc_particleID := 1000020040;
     sc_volumeNamePostStep := post_volume |}.

(** Photon steps for the worked cases of the classifier: a detection at
    the photocathode, an absorption at the photocathode and at the holder,
    and a step that both ends by bulk absorption and reports a detection
    on a geometry boundary. *)
Definition detection_step : G4Step :=
  photon_step 4 (Some "Scintillation") "Scintillator" "Photocathode"
    fGeomBoundary "Transportation" Detection.

Definition failed_step : G4Step :=
  photon_step 4 (Some "Scintillation") "Scintillator" "Photocathode"
    fGeomBoundary "Transportation" Absorption.

Definition absorbed_step : G4Step :=
  photon_step 4 (Some "Scintillation") "Scintillator" "Holder"
    fGeomBoundary "Transportation" Absorption.

Definition bulk_and_detection_step : G4Step :=
  photon_step 4 (Some "Scintillation") "Scintillator" "Photocathode"
    fGeomBoundary "OpAbsorption" Detection.

Definition bulk_step : G4Step :=
  photon_step 4 (Some "Scintillation") "ZnS" "ZnS"
    fPostStepDoItProc "OpAbsorption" NotAtBoundary.

Definition OpBoundary (status : G4OpBoundaryProcessStatus) : G4VProcess :=
  {| GetProcessName := "OpBoundary"; GetStatus := status |}.

(** The first step of a scintillation photon born in the scintillator,
    and of one born in the ZnS layer. *)
Definition born_in_scintillator : G4Step :=
  photon_step 1 (Some "Scintillation") "Scintillator" "Scintillator"
    fGeomBoundary "Transportation" FresnelRefraction.

Definition born_in_ZnS : G4Step :=
  photon_step 1 (Some "Scintillation") "ZnS" "Scintillator"
    fGeomBoundary "Transportation" FresnelRefraction.

(** [std::stoul] on a string of decimal digits. *)
Definition digit (c : Ascii.ascii) : option N :=
  let n := Ascii.N_of_ascii c in
  if ((48 <=? n) && (n <=? 57))%N then Some (n - 48)%N else None.

Fixpoint digits (acc : N) (s : string) : option N :=
  match s with
  | EmptyString => Some acc
  | String c s' =>
      match digit c with
      | Some k => digits (10 * acc + k)%N s'
      | None => None
      end
  end.

Definition stoul (s : string) : option N :=
  match s with
  | EmptyString => None
  | _ => digits 0%N s
  end.

End Samples.

(** ** The effect of one step on the optical record

    Whatever a step of the stepping action does to the optical record is a
    short sequence of three kinds of events: a plain count, a detection
    (count and six appends) and a photon birth (two appends and at most one
    creation count). *)

Inductive StepCounter : Type :=
| sKilled | sBulkAbsZnS | sBulkAbsSc | sFailed | sAbsorbed | sEscaped.

Definition step_counter_member (c : StepCounter) : IntMember :=
  match c with
  | sKilled => mKilled
  | sBulkAbsZnS => mBulkAbsZnS
  | sBulkAbsSc => mBulkAbsSc
  | sFailed => mFailed
  | sAbsorbed => mAbsorbed
  | sEscaped => mEscaped
  end.

Definition creation_member (c : CreationCount) : IntMember :=
  match c with
  | CreatedScintillationZnS => mScintillationZnS
  | CreatedScintillationSc => mScintillationSc
  | CreatedCerenkovZnS => mCerenkovZnS
  | CreatedCerenkovSc => mCerenkovSc
  end.

Inductive OpticalEvent : Type :=
| Counted (c : StepCounter)
| DetectionRecorded (x y z wavelength time length : float)
| BirthRecorded (angle wavelength : float) (created : option CreationCount).

Definition add_one (m : IntMember) (so : RunTallyOptical) : RunTallyOptical :=
  set_int m (get_int m so + 1) so.

Definition append_to (m : FloatVecMember) (v : float) (so : RunTallyOptical)
    : RunTallyOptical :=
  set_fvec m (get_fvec m so ++ [v]) so.

Definition replay_event (ev : OpticalEvent) (so : RunTallyOptical)
    : RunTallyOptical :=
  match ev with
  | Counted c => add_one (step_counter_member c) so
  | DetectionRecorded x y z w t l =>
      append_to mTotalLength l
        (append_to mTime t
           (append_to mBirthWavelengthDetected w
              (append_to mDetectorPositionZ z
                 (append_to mDetectorPositionY y
                    (append_to mDetectorPositionX x (add_one mDetected so))))))
  | BirthRecorded a w created =>
      let so := append_to mBirthWavelength w (append_to mAngle_creation a so) in
      match created with
      | Some c => add_one (creation_member c) so
      | None => so
      end
  end.

Definition replay (evs : list OpticalEvent) (so : RunTallyOptical)
    : RunTallyOptical :=
  fold_left (fun so ev => replay_event ev so) evs so.

(** The states of the event action within one event that the stepping
    action alone produces. *)
Inductive stepped (tk : Toolkit) : OpticalSimulationEventAction -> Prop :=
| stepped_begin : forall e, stepped tk (BeginOfEventAction e)
| stepped_step : forall aStep sa e sa' e' t',
    stepped tk e ->
    UserSteppingAction tk aStep sa e = Ok (sa', e', t') ->
    stepped tk e'.

(** The detection sequences run in step with the Detected counter. *)
Definition detections_aligned (so : RunTallyOptical) : Prop :=
  Detected so = Z.of_nat (List.length (DetectorPositionX so)) /\
  List.length (DetectorPositionY so) = List.length (DetectorPositionX so) /\
  List.length (DetectorPositionZ so) = List.length (DetectorPositionX so) /\
  List.length (BirthWavelengthDetected so) = List.length (DetectorPositionX so) /\
  List.length (Time so) = List.length (DetectorPositionX so) /\
  List.length (TotalLength so) = List.length (DetectorPositionX so).

(** The birth sequences run in step with each other and bound the creation
    counters. *)
Definition births_aligned (so : RunTallyOptical) : Prop :=
  List.length (Angle_creation so) = List.length (BirthWavelength so) /\
  0 <= ScintillationZnS so /\ 0 <= ScintillationSc so /\
  0 <= CerenkovZnS so /\ 0 <= CerenkovSc so /\
  created_total so <= Z.of_nat (List.length (BirthWavelength so)).

(** The members the stepping action never writes. *)
Definition unwritten_members_reset (so : RunTallyOptical) : Prop :=
  ExitLightPositionX so = [] /\ ExitLightPositionY so = [] /\
  ExitLightPositionZ so = [] /\ Angle_detection so = [] /\
  Rayleigh so = [] /\ Total_Reflections so = [] /\
  Wrap_Reflections so = [] /\ FinalState so = [] /\
  derived_are_reset so.

(** A tally of a detector volume is consistent when its six entry sequences
    have one length, every entry but an open last one has its episode total,
    and the episode accumulator is zero while no episode is open. *)
Definition tally_consistent (t : RunTallySc.t) : Prop :=
  List.length (RunTallySc.x_entrance t) = List.length (RunTallySc.energy t) /\
  List.length (RunTallySc.y_entrance t) = List.length (RunTallySc.energy t) /\
  List.length (RunTallySc.z_entrance t) = List.length (RunTallySc.energy t) /\
  List.length (RunTallySc.parentID t) = List.length (RunTallySc.energy t) /\
  List.length (RunTallySc.particleID t) = List.length (RunTallySc.energy t) /\
  List.length (RunTallySc.energy t)
    = (List.length (RunTallySc.total_deposited_energy t)
       + (if RunTallySc.flag t then 1 else 0))%nat /\
  (RunTallySc.flag t = false -> RunTallySc.deposited_energy t = fzero).

(** The arguments [UserSteppingAction] passes to [UpdateSc], read from the
    members it has just assigned. *)
Definition UpdateSc_from (sa : OpticalSimulationSteppingAction)
    (tally : RunTallySc.t) : outcome RunTallySc.t :=
  UpdateSc tally
    (float_of_double (StepPoint.x (preStep sa)))
    (float_of_double (StepPoint.y (preStep sa)))
    (float_of_double (StepPoint.z (preStep sa)))
    (float_of_double (energy sa))
    (float_of_double (energyDeposited sa))
    (float_of_double (energy_post sa))
    (float_of_int (parentID sa))
    (particleID sa) (volumeNamePostStep sa)
    (TrackingStatus sa) (theTrack sa).

(** What the transport engine guarantees of the steps it hands to the
    stepping action: a step reported on a geometry boundary is one that
    Transportation defined. *)
Definition boundary_by_transportation (aStep : G4Step) : Prop :=
  GetStepStatus (GetPostStepPoint aStep) = fGeomBoundary ->
  GetProcessDefinedStepName (GetPostStepPoint aStep) = "Transportation".

(** The events of one step: at most one from the bulk rule, at most one
    from the kill switch or the boundary switch, at most one birth. *)
Definition olist {A : Type} (o : option A) : list A :=
  match o with
  | Some a => [a]
  | None => []
  end.

Definition bulk_shape (bulk : option OpticalEvent) : Prop :=
  forall ev, bulk = Some ev ->
     ev = Counted sBulkAbsZnS \/ ev = Counted sBulkAbsSc.

Definition term_shape (term : option OpticalEvent) : Prop :=
  forall ev, term = Some ev ->
     ev = Counted sKilled \/ ev = Counted sFailed \/ ev = Counted sAbsorbed \/
     ev = Counted sEscaped \/
     exists x y z w t l, ev = DetectionRecorded x y z w t l.

Definition birth_shape (birth : option OpticalEvent) : Prop :=
  forall ev, birth = Some ev -> exists a w c, ev = BirthRecorded a w c.

(** Two event actions that differ in the optical record only, by the
    events [evs]. *)
Definition differs_by (evs : list OpticalEvent)
    (e e' : OpticalSimulationEventAction) : Prop :=
  StatsInput e' = StatsInput e /\ StatsZnS e' = StatsZnS e /\
  StatsScintillator e' = StatsScintillator e /\ Air_Index e' = Air_Index e /\
  StatsOptical e' = replay evs (StatsOptical e).

Definition count_created (created : option CreationCount)
    (e : OpticalSimulationEventAction) : OpticalSimulationEventAction :=
  match created with
  | Some c => bumped (creation_member c) e
  | None => e
  end.

(** The file of thread [i] and the indices [first], [first + 1], ...
    ([count] of them). *)
Definition thread_file (outputFile : string) (i : N) : string :=
  (outputFile ++ "_" ++ to_string i ++ ".root")%string.

Definition indices (first count : nat) : list N := map N.of_nat (seq first count).

Definition merge_inputs (outputFile : string) (first count : nat) : string :=
  String.concat ""
    (map (fun i => (" " ++ thread_file outputFile i)%string) (indices first count)).

Definition remove_commands (outputFile : string) (first count : nat)
    : list UIAction :=
  map (fun i =>
         ApplyCommand ("/control/shell rm -f " ++ thread_file outputFile i)%string)
      (indices first count).

(** The entry the optical tree receives for a record. *)
Definition optical_entry (so : RunTallyOptical) : list (string * Leaf) :=
  map (fun b => (branch_name b, branch_address b so))
      (tree_branches
         (CreateOpticalBranches
            (TTree_new RunTallyOptical "Optical" "Optical Information"))).

(** What every entry of the optical tree satisfies. *)
Definition optical_entry_sound (entry : list (string * Leaf)) : Prop :=
  leaf "incident_E" entry = Some (LeafF fzero) /\
  leaf "deposit_ZnS" entry = Some (LeafF fzero) /\
  leaf "deposit_Sc" entry = Some (LeafF fzero) /\
  leaf "angle_detection" entry = Some (LeafVF []) /\
  exists xs ys zs ws ts births angles,
    leaf "detected" entry = Some (LeafI (Z.of_nat (List.length xs))) /\
    leaf "detector_position_x" entry = Some (LeafVF xs) /\
    leaf "detector_position_y" entry = Some (LeafVF ys) /\
    leaf "detector_position_z" entry = Some (LeafVF zs) /\
    leaf "birth_wavelength_detected" entry = Some (LeafVF ws) /\
    leaf "time" entry = Some (LeafVF ts) /\
    leaf "birth_wavelength" entry = Some (LeafVF births) /\
    leaf "angle_creation" entry = Some (LeafVF angles) /\
    List.length ys = List.length xs /\ List.length zs = List.length xs /\
    List.length ws = List.length xs /\ List.length ts = List.length xs /\
    List.length angles = List.length births.

(** A run action whose optical tree has the branches [BeginOfRunAction]
    gives it. *)
Definition optical_tree_ready (ra : RunAction.t) : Prop :=
  exists tr,
    RunAction.Tree_Optical ra = Some tr /\
    tree_branches tr
      = tree_branches
          (CreateOpticalBranches
             (TTree_new RunTallyOptical "Optical" "Optical Information")).

(** A step of a particle other than the optical photon that starts in
    [volume]. *)
Definition steps_in (volume : string) (aStep : G4Step) : bool :=
  negb (String.eqb (GetParticleName (GetTrack aStep)) "opticalphoton")
  && String.eqb (GetPhysicalVolumeName (GetPreStepPoint aStep)) volume.

Definition sc_trees_ready (ra : RunAction.t) : Prop :=
  RunAction.Tree_ZnS ra <> None /\ RunAction.Tree_Scintillator ra <> None.

(** ** Concrete data for the worked cases of the run *)

Module Cases.

(** Batch mode on three threads. *)
Definition argv : list string :=
  ["OpticalSimulation"; "out"; "100"; "run.mac"; "ON"; "3"].

Definition setup : Setup :=
  {| outputFile := "out"; TotalNParticles := 100%N; flag_MT := true;
     Ncores := 3%N; runManager := G4MTRunManager 3 |}.

Definition run_action : RunAction.t :=
  OpticalSimulationRunAction "out" 100 true RunTallyOptical_zero 0.

(** The master and the three workers. *)
Definition calls : list (Z * Z * RunAction.t) :=
  [(0, 0, run_action); (0, 0, run_action); (1, 1, run_action);
   (1, 2, run_action)].

(** An alpha particle crossing the ZnS layer into the holder. *)
Definition alpha_in_ZnS : G4Step := Samples.alpha_step "ZnS" "Holder".

(** Two events: an alpha in the ZnS layer whose light is born in the
    scintillator and detected, then a lone detected photon. *)
Definition events : list (list G4Step) :=
  [[alpha_in_ZnS; Samples.born_in_scintillator; Samples.detection_step];
   [Samples.detection_step]].

(** A primary optical photon on its first step. *)
Definition primary_photon : G4Step :=
  Samples.photon_step 1 None "Scintillator" "Scintillator"
    fGeomBoundary "Transportation" FresnelRefraction.

End Cases.

(** * Properties *)

(** ** Members of the optical record *)

Lemma get_set_int_same m v r : get_int m (set_int m v r) = v.
Proof. destruct m; reflexivity. Qed.

Lemma get_set_int_other m m' v r :
  m <> m' -> get_int m' (set_int m v r) = get_int m' r.
Proof. intros Hne; destruct m, m'; try reflexivity; congruence. Qed.

Lemma get_set_fvec_same m v r : get_fvec m (set_fvec m v r) = v.
Proof. destruct m; reflexivity. Qed.

Lemma get_set_fvec_other m m' v r :
  m <> m' -> get_fvec m' (set_fvec m v r) = get_fvec m' r.
Proof. intros Hne; destruct m, m'; try reflexivity; congruence. Qed.

Lemma get_int_set_fvec m m' v r : get_int m' (set_fvec m v r) = get_int m' r.
Proof. destruct m, m'; reflexivity. Qed.

Lemma get_int_set_ivec m m' v r : get_int m' (set_ivec m v r) = get_int m' r.
Proof. destruct m, m'; reflexivity. Qed.

Lemma get_int_set_float m m' v r : get_int m' (set_float m v r) = get_int m' r.
Proof. destruct m, m'; reflexivity. Qed.

Lemma get_fvec_set_int m m' v r : get_fvec m' (set_int m v r) = get_fvec m' r.
Proof. destruct m, m'; reflexivity. Qed.

Lemma get_ivec_set_int m m' v r : get_ivec m' (set_int m v r) = get_ivec m' r.
Proof. destruct m, m'; reflexivity. Qed.

Lemma get_float_set_int m m' v r : get_float m' (set_int m v r) = get_float m' r.
Proof. destruct m, m'; reflexivity. Qed.

Lemma get_float_set_fvec m m' v r : get_float m' (set_fvec m v r) = get_float m' r.
Proof. destruct m, m'; reflexivity. Qed.

Lemma get_float_set_ivec m m' v r : get_float m' (set_ivec m v r) = get_float m' r.
Proof. destruct m, m'; reflexivity. Qed.

(** ** Checked arithmetic and the counting functions *)

Lemma in_range_true n :
  CxxInt.INT_MIN <= n <= CxxInt.INT_MAX -> CxxInt.in_range n = true.
Proof.
  intros [Hlo Hhi]. unfold CxxInt.in_range.
  apply andb_true_intro; split; apply Z.leb_le; assumption.
Qed.

Lemma in_range_inv n :
  CxxInt.in_range n = true -> CxxInt.INT_MIN <= n <= CxxInt.INT_MAX.
Proof.
  unfold CxxInt.in_range. intros H.
  apply andb_prop in H as [Hlo Hhi]. split; apply Z.leb_le; assumption.
Qed.

Lemma checked_inv n r : CxxInt.checked n = Ok r -> r = n /\ CxxInt.in_range n = true.
Proof.
  unfold CxxInt.checked. destruct (CxxInt.in_range n); intros H; inversion H; auto.
Qed.

Lemma incr_defined n :
  CxxInt.INT_MIN <= n < CxxInt.INT_MAX -> CxxInt.incr n = Ok (n + 1).
Proof.
  intros H. unfold CxxInt.incr, CxxInt.add, CxxInt.checked.
  rewrite in_range_true; [reflexivity | unfold CxxInt.INT_MIN in *; lia].
Qed.

Lemma incr_inv n r : CxxInt.incr n = Ok r -> r = n + 1 /\ n < CxxInt.INT_MAX.
Proof.
  unfold CxxInt.incr, CxxInt.add. intros H.
  apply checked_inv in H as [-> Hr]. apply in_range_inv in Hr.
  split; [reflexivity | lia].
Qed.

Lemma Count_defined m e :
  CxxInt.INT_MIN <= get_int m (StatsOptical e) < CxxInt.INT_MAX ->
  Count m e = Ok (bumped m e).
Proof.
  intros H. unfold Count. rewrite (incr_defined _ H). reflexivity.
Qed.

Lemma Count_inv m e e' :
  Count m e = Ok e' ->
  e' = bumped m e /\ get_int m (StatsOptical e) < CxxInt.INT_MAX.
Proof.
  unfold Count. intros H.
  destruct (CxxInt.incr (get_int m (StatsOptical e))) as [n|] eqn:Hn;
    simpl in H; [|discriminate].
  apply incr_inv in Hn as [-> Hlt]. inversion H; subst. split; [reflexivity|assumption].
Qed.

Lemma bumped_same m e :
  get_int m (StatsOptical (bumped m e)) = get_int m (StatsOptical e) + 1.
Proof. unfold bumped; simpl. apply get_set_int_same. Qed.

Lemma bumped_other m m' e :
  m <> m' -> get_int m' (StatsOptical (bumped m e)) = get_int m' (StatsOptical e).
Proof. intros H. unfold bumped; simpl. apply get_set_int_other; assumption. Qed.

Lemma bumped_fvec m m' e :
  get_fvec m' (StatsOptical (bumped m e)) = get_fvec m' (StatsOptical e).
Proof. unfold bumped; simpl. apply get_fvec_set_int. Qed.

Lemma bumped_ivec m m' e :
  get_ivec m' (StatsOptical (bumped m e)) = get_ivec m' (StatsOptical e).
Proof. unfold bumped; simpl. apply get_ivec_set_int. Qed.

Lemma bumped_float m m' e :
  get_float m' (StatsOptical (bumped m e)) = get_float m' (StatsOptical e).
Proof. unfold bumped; simpl. apply get_float_set_int. Qed.

Lemma Fill_int m v m' e :
  get_int m' (StatsOptical (Fill m v e)) = get_int m' (StatsOptical e).
Proof. unfold Fill; simpl. apply get_int_set_fvec. Qed.

Lemma Fill_same m v e :
  get_fvec m (StatsOptical (Fill m v e)) = get_fvec m (StatsOptical e) ++ [v].
Proof. unfold Fill; simpl. apply get_set_fvec_same. Qed.

Lemma Fill_other m v m' e :
  m <> m' -> get_fvec m' (StatsOptical (Fill m v e)) = get_fvec m' (StatsOptical e).
Proof. intros H. unfold Fill; simpl. apply get_set_fvec_other; assumption. Qed.

Lemma bind_Ok_inv {A B} (c : outcome A) (k : A -> outcome B) b :
  bind c k = Ok b -> exists a, c = Ok a /\ k a = Ok b.
Proof. destruct c as [a|flt]; simpl; intros H; [eauto | discriminate]. Qed.

(** ** The boundary classifier *)

Lemma ltb_succ n : (n <? n + 1) = true.
Proof. apply Z.ltb_lt. lia. Qed.

Lemma bulk_member_cases aStep :
  bulk_member aStep = mBulkAbsZnS \/ bulk_member aStep = mBulkAbsSc.
Proof.
  unfold bulk_member.
  destruct (String.eqb (GetPhysicalVolumeName (GetPreStepPoint aStep)) "ZnS");
    auto.
Qed.

Lemma after_bulk_other sa aStep e m :
  m <> mBulkAbsZnS -> m <> mBulkAbsSc ->
  get_int m (StatsOptical (after_bulk sa aStep e)) = get_int m (StatsOptical e).
Proof.
  intros H1 H2. unfold after_bulk.
  destruct (String.eqb (endproc sa) "OpAbsorption"); [|reflexivity].
  apply bumped_other.
  destruct (bulk_member_cases aStep) as [-> | ->]; congruence.
Qed.

Lemma after_bulk_fvec sa aStep e m :
  get_fvec m (StatsOptical (after_bulk sa aStep e)) = get_fvec m (StatsOptical e).
Proof.
  unfold after_bulk.
  destruct (String.eqb (endproc sa) "OpAbsorption"); [|reflexivity].
  apply bumped_fvec.
Qed.

(** The classifier up to the switch: the bulk rule has been applied. *)
Lemma bulk_rule_defined sa aStep e :
  can_count (StatsOptical e) ->
  (if String.eqb (endproc sa) "OpAbsorption" then
     if String.eqb (GetPhysicalVolumeName (GetPreStepPoint aStep)) "ZnS"
     then CountBulkAbsZnS e else CountBulkAbsSc e
   else Ok e) = Ok (after_bulk sa aStep e).
Proof.
  intros Hcan. unfold after_bulk, bulk_member, CountBulkAbsZnS, CountBulkAbsSc.
  destruct (String.eqb (endproc sa) "OpAbsorption"); [|reflexivity].
  destruct (String.eqb (GetPhysicalVolumeName (GetPreStepPoint aStep)) "ZnS");
    apply Count_defined, Hcan.
Qed.

Lemma bulk_rule_inv sa aStep e e1 :
  (if String.eqb (endproc sa) "OpAbsorption" then
     if String.eqb (GetPhysicalVolumeName (GetPreStepPoint aStep)) "ZnS"
     then CountBulkAbsZnS e else CountBulkAbsSc e
   else Ok e) = Ok e1 ->
  e1 = after_bulk sa aStep e.
Proof.
  unfold after_bulk, bulk_member, CountBulkAbsZnS, CountBulkAbsSc.
  destruct (String.eqb (endproc sa) "OpAbsorption").
  - destruct (String.eqb (GetPhysicalVolumeName (GetPreStepPoint aStep)) "ZnS");
      intros H; apply Count_inv in H as [-> _]; reflexivity.
  - intros H; inversion H; reflexivity.
Qed.

(** C5.  On a step that ends on a geometry boundary with boundary status
    Detection (and counters that can still count), the classifier returns,
    the Detected counter is one higher, and exactly one element is appended
    to each of the detector position (x, y, z), detected birth wavelength,
    time and total length sequences; the wavelength appended is 1240 divided
    by the total energy of the photon over the electronvolt, narrowed to
    single precision. *)
Theorem detection_is_recorded :
  forall tk sa aStep evtac boundary t,
    find_OpBoundary (GetProcessList (GetTrack aStep)) = Some boundary ->
    GetStatus boundary = Detection ->
    GetStepStatus (GetPostStepPoint aStep) = fGeomBoundary ->
    theTrack sa = Some t ->
    can_count (StatsOptical evtac) ->
    exists evtac',
      CheckBoundaryStatus tk sa aStep evtac = Ok evtac' /\
      let so := StatsOptical evtac in
      let so' := StatsOptical evtac' in
      Detected so' = Detected so + 1 /\
      DetectorPositionX so' =
        DetectorPositionX so ++ [float_of_double (StepPoint.x (postStep sa))] /\
      DetectorPositionY so' =
        DetectorPositionY so ++ [float_of_double (StepPoint.y (postStep sa))] /\
      DetectorPositionZ so' =
        DetectorPositionZ so ++ [float_of_double (StepPoint.z (postStep sa))] /\
      BirthWavelengthDetected so' =
        BirthWavelengthDetected so ++
          [float_of_double
             (ddiv (double_of_int 1240) (ddiv (GetTotalEnergy t) (eV tk)))] /\
      Time so' =
        Time so ++
          [float_of_double
             (ddiv (GetGlobalTime (GetPostStepPoint aStep)) (ns tk))] /\
      TotalLength so' =
        TotalLength so ++ [float_of_double (GetTrackLength (GetTrack aStep))].
Proof.
  intros tk sa aStep evtac boundary t Hfind Hstatus Hgeom Htrack Hcan.
  unfold CheckBoundaryStatus.
  rewrite Hfind, (bulk_rule_defined sa aStep evtac Hcan), Hgeom, Hstatus, Htrack.
  simpl bind. unfold CountDetected.
  assert (Hdet : CxxInt.INT_MIN
                 <= get_int mDetected (StatsOptical (after_bulk sa aStep evtac))
                 < CxxInt.INT_MAX).
  { rewrite after_bulk_other by discriminate. apply Hcan. }
  rewrite (Count_defined _ _ Hdet). simpl bind.
  eexists; split; [reflexivity|].
  pose proof (after_bulk_other sa aStep evtac mDetected) as Hd.
  pose proof (after_bulk_fvec sa aStep evtac) as Hv.
  generalize dependent (after_bulk sa aStep evtac). intros e1 _ Hd Hv.
  specialize (Hd ltac:(discriminate) ltac:(discriminate)).
  pose proof (Hv mDetectorPositionX) as HX.
  pose proof (Hv mDetectorPositionY) as HY.
  pose proof (Hv mDetectorPositionZ) as HZ.
  pose proof (Hv mBirthWavelengthDetected) as HW.
  pose proof (Hv mTime) as HT.
  pose proof (Hv mTotalLength) as HL.
  clear Hv. destruct e1 as [i1 z1 s1 so1 a1]. destruct so1.
  simpl in *. subst. unfold wavelength. repeat split; reflexivity.
Qed.

Lemma detection_is_recorded_witness :
  exists evtac',
    CheckBoundaryStatus Samples.toolkit
      (Samples.stepping true Samples.detection_step) Samples.detection_step
      Samples.fresh = Ok evtac' /\
    Detected (StatsOptical evtac') = 1 /\
    BirthWavelengthDetected (StatsOptical evtac') = [Samples.f 400].
Proof.
  destruct (detection_is_recorded Samples.toolkit
              (Samples.stepping true Samples.detection_step)
              Samples.detection_step Samples.fresh
              (Samples.OpBoundary Detection)
              (GetTrack Samples.detection_step)
              eq_refl eq_refl eq_refl eq_refl)
    as (evtac' & Hrun & Hdet & _ & _ & _ & Hwave & _).
  - intros m. destruct m; simpl; unfold CxxInt.INT_MIN, CxxInt.INT_MAX; lia.
  - exists evtac'. split; [exact Hrun|]. split; [exact Hdet | exact Hwave].
Defined.

(** C4.  On a step that ends on a geometry boundary with boundary status
    Absorption (and counters that can still count), the classifier returns
    and exactly one of Failed and Absorbed is one higher: Failed when the
    next volume of the track is the photocathode, Absorbed otherwise; the
    other of the two is unchanged. *)
Theorem absorption_is_failed_or_surface :
  forall tk sa aStep evtac boundary t,
    find_OpBoundary (GetProcessList (GetTrack aStep)) = Some boundary ->
    GetStatus boundary = Absorption ->
    GetStepStatus (GetPostStepPoint aStep) = fGeomBoundary ->
    theTrack sa = Some t ->
    can_count (StatsOptical evtac) ->
    exists evtac',
      CheckBoundaryStatus tk sa aStep evtac = Ok evtac' /\
      let so := StatsOptical evtac in
      let so' := StatsOptical evtac' in
      (GetNextVolumeName t = "Photocathode" ->
         Failed so' = Failed so + 1 /\ Absorbed so' = Absorbed so) /\
      (GetNextVolumeName t <> "Photocathode" ->
         Absorbed so' = Absorbed so + 1 /\ Failed so' = Failed so).
Proof.
  intros tk sa aStep evtac boundary t Hfind Hstatus Hgeom Htrack Hcan.
  unfold CheckBoundaryStatus.
  rewrite Hfind, (bulk_rule_defined sa aStep evtac Hcan), Hgeom, Hstatus, Htrack.
  simpl bind. unfold CountFailed, CountAbsorbed.
  pose proof (after_bulk_other sa aStep evtac mFailed
                ltac:(discriminate) ltac:(discriminate)) as HF.
  pose proof (after_bulk_other sa aStep evtac mAbsorbed
                ltac:(discriminate) ltac:(discriminate)) as HA.
  simpl in HF, HA.
  destruct (String.eqb_spec (GetNextVolumeName t) "Photocathode") as [Heq|Hne].
  - rewrite Count_defined by (simpl; rewrite HF; apply (Hcan mFailed)).
    eexists; split; [reflexivity|]. cbv zeta. split; [|congruence].
    intros _. split.
    + rewrite <- HF. apply (bumped_same mFailed).
    + rewrite <- HA. apply (bumped_other mFailed mAbsorbed). discriminate.
  - rewrite Count_defined by (simpl; rewrite HA; apply (Hcan mAbsorbed)).
    eexists; split; [reflexivity|]. cbv zeta. split; [congruence|].
    intros _. split.
    + rewrite <- HA. apply (bumped_same mAbsorbed).
    + rewrite <- HF. apply (bumped_other mAbsorbed mFailed). discriminate.
Qed.

Lemma absorption_is_failed_or_surface_witness :
  (exists evtac',
     CheckBoundaryStatus Samples.toolkit
       (Samples.stepping true Samples.failed_step) Samples.failed_step
       Samples.fresh = Ok evtac' /\
     Failed (StatsOptical evtac') = 1 /\ Absorbed (StatsOptical evtac') = 0) /\
  (exists evtac',
     CheckBoundaryStatus Samples.toolkit
       (Samples.stepping true Samples.absorbed_step) Samples.absorbed_step
       Samples.fresh = Ok evtac' /\
     Absorbed (StatsOptical evtac') = 1 /\ Failed (StatsOptical evtac') = 0).
Proof.
  split.
  - destruct (absorption_is_failed_or_surface Samples.toolkit
                (Samples.stepping true Samples.failed_step)
                Samples.failed_step Samples.fresh
                (Samples.OpBoundary Absorption)
                (GetTrack Samples.failed_step)
                eq_refl eq_refl eq_refl eq_refl)
      as (evtac' & Hrun & Hyes & _).
    + intros m. destruct m; simpl; unfold CxxInt.INT_MIN, CxxInt.INT_MAX; lia.
    + exists evtac'. split; [exact Hrun|]. exact (Hyes eq_refl).
  - destruct (absorption_is_failed_or_surface Samples.toolkit
                (Samples.stepping true Samples.absorbed_step)
                Samples.absorbed_step Samples.fresh
                (Samples.OpBoundary Absorption)
                (GetTrack Samples.absorbed_step)
                eq_refl eq_refl eq_refl eq_refl)
      as (evtac' & Hrun & _ & Hno).
    + intros m. destruct m; simpl; unfold CxxInt.INT_MIN, CxxInt.INT_MAX; lia.
    + exists evtac'. split; [exact Hrun|]. apply Hno. discriminate.
Defined.

(** The switch on the boundary status, seen through the [int] members: it
    leaves them as they are, or it counts once in one boundary counter, and
    then the step ended on a geometry boundary. *)
Lemma CheckBoundaryStatus_inv tk sa aStep evtac evtac' :
  CheckBoundaryStatus tk sa aStep evtac = Ok evtac' ->
  let e1 := after_bulk sa aStep evtac in
  (forall m, get_int m (StatsOptical evtac') = get_int m (StatsOptical e1)) \/
  (GetStepStatus (GetPostStepPoint aStep) = fGeomBoundary /\
   exists c, In c boundary_counters /\
     forall m, get_int m (StatsOptical evtac')
               = get_int m (StatsOptical (bumped c e1))).
Proof.
  unfold CheckBoundaryStatus. intros H.
  destruct (find_OpBoundary (GetProcessList (GetTrack aStep))) as [b|];
    [|discriminate].
  apply bind_Ok_inv in H as (e1 & Hbulk & Hswitch).
  apply bulk_rule_inv in Hbulk. subst e1. cbv zeta.
  set (e1 := after_bulk sa aStep evtac) in *.
  destruct (GetStepStatus (GetPostStepPoint aStep));
    try (left; inversion Hswitch; reflexivity).
  destruct (GetStatus b);
    try (left; inversion Hswitch; reflexivity).
  - (* Absorption *)
    destruct (theTrack sa) as [t|]; [|discriminate].
    right. split; [reflexivity|].
    destruct (String.eqb (GetNextVolumeName t) "Photocathode");
      apply Count_inv in Hswitch as [-> _].
    + exists mFailed. split; [simpl; auto | reflexivity].
    + exists mAbsorbed. split; [simpl; auto | reflexivity].
  - (* Detection *)
    apply bind_Ok_inv in Hswitch as (e2 & Hcount & Hfill).
    apply Count_inv in Hcount as [-> _].
    destruct (theTrack sa) as [t|]; [|discriminate].
    inversion Hfill; subst evtac'.
    right. split; [reflexivity|].
    exists mDetected. split; [simpl; auto|].
    intros m. unfold FillPhotonTotalLength, FillPhotonTime,
      FillBirthWavelengthDetected, FillPhotonDetectorPositionZ,
      FillPhotonDetectorPositionY, FillPhotonDetectorPositionX.
    rewrite !Fill_int. reflexivity.
  - (* NoRINDEX *)
    apply Count_inv in Hswitch as [-> _].
    right. split; [reflexivity|].
    exists mEscaped. split; [simpl; auto | reflexivity].
Qed.

(** How [incremented] reads a record that differs from another in one
    counter, or in two. *)
Lemma incremented_ext ms so so1 so2 :
  (forall m, get_int m so1 = get_int m so2) ->
  incremented ms so so1 = incremented ms so so2.
Proof.
  intros H. unfold incremented. apply filter_ext. intros m. rewrite H. reflexivity.
Qed.

Ltac count_cases :=
  unfold incremented, terminal_counters, boundary_counters, bumped;
  simpl;
  rewrite ?ltb_succ, ?Z.ltb_irrefl;
  simpl.

(** One call of the classifier applies two rules one after the other.  The
    bulk rule counts once, in the bulk counter of the pre-step volume,
    exactly when the member [endproc] is OpAbsorption.  The boundary rule
    counts at most once among Detected, Absorbed, Escaped and Failed, and
    only on a geometry boundary.  No counter moves by more than one. *)
Lemma CheckBoundaryStatus_rules :
  forall tk sa aStep evtac evtac',
    CheckBoundaryStatus tk sa aStep evtac = Ok evtac' ->
    let so := StatsOptical evtac in
    let so' := StatsOptical evtac' in
    let bulk_absorbed := String.eqb (endproc sa) "OpAbsorption" in
    let on_boundary := GetStepStatus (GetPostStepPoint aStep) = fGeomBoundary in
    (forall m, get_int m so <= get_int m so' <= get_int m so + 1) /\
    incremented [mBulkAbsZnS; mBulkAbsSc] so so'
      = (if bulk_absorbed then [bulk_member aStep] else []) /\
    (List.length (incremented boundary_counters so so') <= 1)%nat /\
    (~ on_boundary -> incremented boundary_counters so so' = []) /\
    (bulk_absorbed = false \/ ~ on_boundary ->
       (List.length (incremented terminal_counters so so') <= 1)%nat) /\
    (bulk_absorbed = true -> ~ on_boundary ->
       incremented terminal_counters so so' = [bulk_member aStep]).
Proof.
  intros tk sa aStep evtac evtac' Hrun. cbv zeta.
  apply CheckBoundaryStatus_inv in Hrun. cbv zeta in Hrun.
  destruct Hrun as [Hsame | (Hgeom & c & Hc & Hbump)].
  - (* the switch counted nothing *)
    split; [intros m; rewrite Hsame|];
      rewrite ?(incremented_ext _ _ _ _ Hsame);
      unfold after_bulk, bulk_member;
      destruct evtac as [i zn sc so ai]; destruct so;
      destruct (String.eqb (endproc sa) "OpAbsorption");
      destruct (String.eqb (GetPhysicalVolumeName (GetPreStepPoint aStep)) "ZnS");
      try (destruct m; simpl; lia);
      count_cases; repeat split; intros; auto; try lia; try discriminate.
  - (* the switch counted once, in [c] *)
    simpl in Hc.
    split; [intros m; rewrite Hbump|];
      rewrite ?(incremented_ext _ _ _ _ Hbump);
      unfold after_bulk, bulk_member;
      destruct evtac as [i zn sc so ai]; destruct so;
      destruct (String.eqb (endproc sa) "OpAbsorption");
      destruct (String.eqb (GetPhysicalVolumeName (GetPreStepPoint aStep)) "ZnS");
      destruct Hc as [<- | [<- | [<- | [<- | []]]]];
      try (destruct m; simpl; lia);
      count_cases; repeat split; intros; auto; try lia; try discriminate;
      try contradiction;
      match goal with
      | H : _ \/ _ |- _ => destruct H; [discriminate | contradiction]
      end.
Qed.

(** When [UserSteppingAction] calls the classifier, [endproc] holds the
    name of the process that defined the step: the preparation of variables
    has just assigned it. *)
Lemma prepare_variables_endproc :
  forall tk aStep sa,
    endproc (prepare_variables tk aStep sa)
    = GetProcessDefinedStepName (GetPostStepPoint aStep).
Proof. reflexivity. Qed.

(** C1.  For every step the classifier processes (a step of the transport
    engine, for which a geometry boundary means that Transportation defined
    the step, with [endproc] holding the name of the process that defined
    it), one call of the classifier increments at most one terminal counter
    (Detected, Absorbed, BulkAbsZnS, BulkAbsSc, Escaped, Failed), by one;
    and when the step was defined by OpAbsorption, the bulk counter of the
    pre-step volume is the only terminal counter incremented and no other
    terminal counter changes.  The call returns whenever the boundary
    process is in the process list, the track pointer is set and the
    counters can still count. *)
Theorem classifier_counts_one_terminal_counter :
  forall tk sa aStep evtac,
    endproc sa = GetProcessDefinedStepName (GetPostStepPoint aStep) ->
    boundary_by_transportation aStep ->
    (find_OpBoundary (GetProcessList (GetTrack aStep)) <> None ->
     theTrack sa <> None ->
     can_count (StatsOptical evtac) ->
     exists evtac', CheckBoundaryStatus tk sa aStep evtac = Ok evtac') /\
    (forall evtac',
       CheckBoundaryStatus tk sa aStep evtac = Ok evtac' ->
       let so := StatsOptical evtac in
       let so' := StatsOptical evtac' in
       (forall m, get_int m so <= get_int m so' <= get_int m so + 1) /\
       (List.length (incremented terminal_counters so so') <= 1)%nat /\
       (endproc sa = "OpAbsorption" ->
          incremented terminal_counters so so' = [bulk_member aStep] /\
          forall m, In m terminal_counters -> m <> bulk_member aStep ->
                    get_int m so' = get_int m so)).
Proof.
  intros tk sa aStep evtac Hend Hengine. split.
  { intros Hfind Htrack Hcan.
    assert (Hdefined :
      forall b, find_OpBoundary (GetProcessList (GetTrack aStep)) = Some b ->
      exists evtac', CheckBoundaryStatus tk sa aStep evtac = Ok evtac').
    { intros b Hb. unfold CheckBoundaryStatus. rewrite Hb.
      rewrite (bulk_rule_defined sa aStep evtac Hcan). cbn [bind].
      destruct (theTrack sa) as [t|]; [|congruence].
      assert (Hc : forall m, m <> mBulkAbsZnS -> m <> mBulkAbsSc ->
                     CxxInt.INT_MIN
                     <= get_int m (StatsOptical (after_bulk sa aStep evtac))
                     < CxxInt.INT_MAX).
      { intros m M1 M2. rewrite after_bulk_other by assumption. apply Hcan. }
      destruct (GetStepStatus (GetPostStepPoint aStep));
        try (eexists; reflexivity).
      destruct (GetStatus b); try (eexists; reflexivity).
      - destruct (String.eqb (GetNextVolumeName t) "Photocathode");
          unfold CountFailed, CountAbsorbed;
          rewrite Count_defined by (apply Hc; discriminate);
          eexists; reflexivity.
      - unfold CountDetected.
        rewrite Count_defined by (apply Hc; discriminate).
        eexists; reflexivity.
      - unfold CountEscaped.
        rewrite Count_defined by (apply Hc; discriminate).
        eexists; reflexivity. }
    destruct (find_OpBoundary (GetProcessList (GetTrack aStep))) as [b|] eqn:Hb;
      [exact (Hdefined b eq_refl) | congruence]. }
  intros evtac' Hrun. cbv zeta.
  destruct (CheckBoundaryStatus_rules tk sa aStep evtac evtac' Hrun)
    as (Hmono & _ & _ & _ & Hone & Hbulk).
  assert (Hexcl : String.eqb (endproc sa) "OpAbsorption" = true ->
                  GetStepStatus (GetPostStepPoint aStep) <> fGeomBoundary).
  { intros Habs Hgeom. apply String.eqb_eq in Habs.
    rewrite Hend, (Hengine Hgeom) in Habs. discriminate Habs. }
  split; [exact Hmono|]. split.
  - apply Hone.
    destruct (String.eqb (endproc sa) "OpAbsorption") eqn:Habs;
      [right; exact (Hexcl eq_refl) | left; reflexivity].
  - intros Habs. apply String.eqb_eq in Habs.
    pose proof (Hbulk Habs (Hexcl Habs)) as Hinc.
    split; [exact Hinc|].
    intros m Hin Hm.
    assert (Hnot : (get_int m (StatsOptical evtac)
                    <? get_int m (StatsOptical evtac')) = false).
    { destruct (get_int m (StatsOptical evtac)
                <? get_int m (StatsOptical evtac')) eqn:Hlt; [|reflexivity].
      exfalso.
      assert (Hmem : In m (incremented terminal_counters (StatsOptical evtac)
                             (StatsOptical evtac'))).
      { unfold incremented. apply filter_In. split; assumption. }
      rewrite Hinc in Hmem. destruct Hmem as [Heq | []]. congruence. }
    apply Z.ltb_ge in Hnot. pose proof (Hmono m). lia.
Qed.

Lemma classifier_counts_one_terminal_counter_witness :
  (exists evtac',
     CheckBoundaryStatus Samples.toolkit
       (Samples.stepping true Samples.detection_step) Samples.detection_step
       Samples.fresh = Ok evtac' /\
     incremented terminal_counters (StatsOptical Samples.fresh)
       (StatsOptical evtac') = [mDetected] /\
     (List.length (incremented terminal_counters (StatsOptical Samples.fresh)
                     (StatsOptical evtac')) <= 1)%nat) /\
  (exists evtac',
     CheckBoundaryStatus Samples.toolkit
       (Samples.stepping true Samples.bulk_step) Samples.bulk_step
       Samples.fresh = Ok evtac' /\
     incremented terminal_counters (StatsOptical Samples.fresh)
       (StatsOptical evtac') = [mBulkAbsZnS]).
Proof.
  split.
  - assert (Hengine : boundary_by_transportation Samples.detection_step)
      by (intros _; reflexivity).
    destruct (classifier_counts_one_terminal_counter Samples.toolkit
                (Samples.stepping true Samples.detection_step)
                Samples.detection_step Samples.fresh eq_refl Hengine)
      as [_ Hcount].
    eexists.
    match goal with
    | |- ?run /\ _ => assert (Hrun : run) by (vm_compute; reflexivity)
    end.
    split; [exact Hrun|]. split; [reflexivity|].
    exact (proj1 (proj2 (Hcount _ Hrun))).
  - assert (Hengine : boundary_by_transportation Samples.bulk_step)
      by (intros H; discriminate H).
    destruct (classifier_counts_one_terminal_counter Samples.toolkit
                (Samples.stepping true Samples.bulk_step)
                Samples.bulk_step Samples.fresh eq_refl Hengine)
      as [_ Hcount].
    eexists.
    match goal with
    | |- ?run /\ _ => assert (Hrun : run) by (vm_compute; reflexivity)
    end.
    split; [exact Hrun|].
    exact (proj1 (proj2 (proj2 (Hcount _ Hrun)) eq_refl)).
Defined.

(** ** Episode accounting of a detector volume *)

(** One call of [UpdateSc]; the parent identifier is converted to [int]
    only when the call opens an episode. *)
Lemma UpdateSc_effect :
  forall tally x y z en dep en_post parent pid vol ts tr p,
    (RunTallySc.flag tally = false -> int_of_float parent = Ok p) ->
    exists tally',
      UpdateSc tally x y z en dep en_post parent pid vol ts tr = Ok tally' /\
      UpdateSc_post tally tally' x y z en dep en_post p pid vol.
Proof.
  intros tally x y z en dep en_post parent pid vol ts tr p Hparent.
  unfold UpdateSc, UpdateSc_post, entry_kept, entry_appended,
    episode_closed, episode_continued.
  destruct tally as [xs ys zs pars pids ens acc ev tot fl].
  destruct fl; cbn [RunTallySc.flag negb] in *;
    [|rewrite (Hparent eq_refl)];
    cbn [bind];
    destruct (String.eqb vol "Holder" || eq_zero en_post);
    eexists; (split; [reflexivity|]); repeat split; reflexivity.
Qed.

(** The parent identifier reaches [UpdateSc] as a [G4float]: identifiers up
    to 2^24 come back unchanged, larger ones are rounded on the way. *)
Lemma parent_identifier_round_trip :
  int_of_float (float_of_int 16777216) = Ok 16777216 /\
  int_of_float (float_of_int 16777217) = Ok 16777216.
Proof. split; reflexivity. Qed.

(** An episode of three steps, the third of which closes it, followed by a
    re-entry that is closed by its first step. *)
Lemma UpdateSc_episode :
  forall tally s1 s2 s3 s4 p1 p4,
    RunTallySc.flag tally = false ->
    RunTallySc.deposited_energy tally = fzero ->
    int_of_float (sc_parentID s1) = Ok p1 ->
    int_of_float (sc_parentID s4) = Ok p4 ->
    closes s1 = false -> closes s2 = false -> closes s3 = true ->
    closes s4 = true ->
    let total :=
      fadd (fadd (fadd fzero (sc_energyDeposited s1)) (sc_energyDeposited s2))
           (sc_energyDeposited s3) in
    exists tally3 tally4,
      UpdateSc_steps [s1; s2; s3] tally = Ok tally3 /\
      RunTallySc.total_deposited_energy tally3
        = RunTallySc.total_deposited_energy tally ++ [total] /\
      RunTallySc.energy tally3 = RunTallySc.energy tally ++ [sc_energy s1] /\
      RunTallySc.parentID tally3 = RunTallySc.parentID tally ++ [p1] /\
      RunTallySc.flag tally3 = false /\
      RunTallySc.deposited_energy tally3 = fzero /\
      UpdateSc_step s4 tally3 = Ok tally4 /\
      RunTallySc.total_deposited_energy tally4
        = RunTallySc.total_deposited_energy tally
            ++ [total; fadd fzero (sc_energyDeposited s4)] /\
      RunTallySc.energy tally4
        = RunTallySc.energy tally ++ [sc_energy s1; sc_energy s4] /\
      RunTallySc.parentID tally4 = RunTallySc.parentID tally ++ [p1; p4] /\
      RunTallySc.flag tally4 = false.
Proof.
  intros tally s1 s2 s3 s4 p1 p4 Hflag Hacc Hp1 Hp4 Hc1 Hc2 Hc3 Hc4 total.
  unfold closes in *.
  pose proof UpdateSc_effect as Heffect.
  unfold UpdateSc_post, entry_kept, entry_appended, episode_closed,
    episode_continued in Heffect.
  destruct (Heffect tally (sc_x s1) (sc_y s1) (sc_z s1) (sc_energy s1)
              (sc_energyDeposited s1) (sc_energy_post s1) (sc_parentID s1)
              (sc_particleID s1) (sc_volumeNamePostStep s1) true None p1
              (fun _ => Hp1))
    as (t1 & Hrun1 & Hent1 & _ & Hclose1).
  rewrite Hflag in Hent1. rewrite Hc1, Hacc in Hclose1.
  destruct Hent1 as (_ & _ & _ & Hpar1 & _ & Hen1).
  destruct Hclose1 as (Htot1 & Hacc1 & Hflag1).
  destruct (Heffect t1 (sc_x s2) (sc_y s2) (sc_z s2) (sc_energy s2)
              (sc_energyDeposited s2) (sc_energy_post s2) (sc_parentID s2)
              (sc_particleID s2) (sc_volumeNamePostStep s2) true None 0)
    as (t2 & Hrun2 & Hent2 & _ & Hclose2); [congruence|].
  rewrite Hflag1 in Hent2. rewrite Hc2, Hacc1 in Hclose2.
  destruct Hent2 as (_ & _ & _ & Hpar2 & _ & Hen2).
  destruct Hclose2 as (Htot2 & Hacc2 & Hflag2).
  destruct (Heffect t2 (sc_x s3) (sc_y s3) (sc_z s3) (sc_energy s3)
              (sc_energyDeposited s3) (sc_energy_post s3) (sc_parentID s3)
              (sc_particleID s3) (sc_volumeNamePostStep s3) true None 0)
    as (t3 & Hrun3 & Hent3 & _ & Hclose3); [congruence|].
  rewrite Hflag2 in Hent3. rewrite Hc3, Hacc2 in Hclose3.
  destruct Hent3 as (_ & _ & _ & Hpar3 & _ & Hen3).
  destruct Hclose3 as (Htot3 & Hacc3 & Hflag3).
  destruct (Heffect t3 (sc_x s4) (sc_y s4) (sc_z s4) (sc_energy s4)
              (sc_energyDeposited s4) (sc_energy_post s4) (sc_parentID s4)
              (sc_particleID s4) (sc_volumeNamePostStep s4) true None p4
              (fun _ => Hp4))
    as (t4 & Hrun4 & Hent4 & _ & Hclose4).
  rewrite Hflag3 in Hent4. rewrite Hc4, Hacc3 in Hclose4.
  destruct Hent4 as (_ & _ & _ & Hpar4 & _ & Hen4).
  destruct Hclose4 as (Htot4 & Hacc4 & Hflag4).
  exists t3, t4.
  assert (Hsteps : UpdateSc_steps [s1; s2; s3] tally = Ok t3).
  { unfold UpdateSc_steps, UpdateSc_step.
    rewrite Hrun1. cbn [bind]. rewrite Hrun2. cbn [bind].
    rewrite Hrun3. reflexivity. }
  assert (Htotal3 : RunTallySc.total_deposited_energy t3
                    = RunTallySc.total_deposited_energy tally ++ [total])
    by (rewrite Htot3, Htot2, Htot1; reflexivity).
  assert (Hen : RunTallySc.energy t3 = RunTallySc.energy tally ++ [sc_energy s1])
    by congruence.
  assert (Hpar : RunTallySc.parentID t3 = RunTallySc.parentID tally ++ [p1])
    by congruence.
  repeat split; try assumption.
  - rewrite Htot4, Htotal3, <- app_assoc. reflexivity.
  - rewrite Hen4, Hen, <- app_assoc. reflexivity.
  - rewrite Hpar4, Hpar, <- app_assoc. reflexivity.
Qed.

(** Every way to deposit five units in three steps of whole units gives the
    binary32 sum five. *)
Lemma five_in_three_steps :
  forall a b c : Z,
    0 <= a -> 0 <= b -> 0 <= c -> a + b + c = 5 ->
    fadd (fadd (fadd fzero (float_of_int a)) (float_of_int b)) (float_of_int c)
      = float_of_int 5.
Proof.
  intros a b c Ha Hb Hc Hsum.
  assert (Hac : a = 0 \/ a = 1 \/ a = 2 \/ a = 3 \/ a = 4 \/ a = 5) by lia.
  assert (Hbc : b = 0 \/ b = 1 \/ b = 2 \/ b = 3 \/ b = 4 \/ b = 5) by lia.
  assert (Hcc : c = 5 - a - b) by lia. subst c.
  destruct Hac as [-> | [-> | [-> | [-> | [-> | ->]]]]];
    destruct Hbc as [-> | [-> | [-> | [-> | [-> | ->]]]]];
    try lia; vm_compute; reflexivity.
Qed.

(** C2.  (1) Every call of [UpdateSc] returns (the parent identifier being
    convertible when an episode opens): on the first step of an episode the
    entry position, parent and particle identifiers and entry energy are
    appended and the flag set; every step adds the deposit to the episode
    and event accumulators; exactly when the post-step volume is the holder
    or the post-step kinetic energy is zero the episode accumulator is
    appended once to the episode totals, reset to zero, and the flag
    cleared.  (2) Three steps of a new episode, the third closing it, append
    exactly one total, the binary32 sum of the three deposits, and a later
    step opens a second episode whose total does not contain the first.
    (3) When the three deposits are whole units that add up to five and the
    third step exits to the holder, the total appended is five. *)
Theorem episode_accounting :
  (forall tally x y z en dep en_post parent pid vol ts tr p,
     (RunTallySc.flag tally = false -> int_of_float parent = Ok p) ->
     exists tally',
       UpdateSc tally x y z en dep en_post parent pid vol ts tr = Ok tally' /\
       UpdateSc_post tally tally' x y z en dep en_post p pid vol) /\
  (forall tally s1 s2 s3 s4 p1 p4,
     RunTallySc.flag tally = false ->
     RunTallySc.deposited_energy tally = fzero ->
     int_of_float (sc_parentID s1) = Ok p1 ->
     int_of_float (sc_parentID s4) = Ok p4 ->
     closes s1 = false -> closes s2 = false -> closes s3 = true ->
     closes s4 = true ->
     let total :=
       fadd (fadd (fadd fzero (sc_energyDeposited s1)) (sc_energyDeposited s2))
            (sc_energyDeposited s3) in
     exists tally3 tally4,
       UpdateSc_steps [s1; s2; s3] tally = Ok tally3 /\
       RunTallySc.total_deposited_energy tally3
         = RunTallySc.total_deposited_energy tally ++ [total] /\
       RunTallySc.energy tally3 = RunTallySc.energy tally ++ [sc_energy s1] /\
       RunTallySc.parentID tally3 = RunTallySc.parentID tally ++ [p1] /\
       RunTallySc.flag tally3 = false /\
       RunTallySc.deposited_energy tally3 = fzero /\
       UpdateSc_step s4 tally3 = Ok tally4 /\
       RunTallySc.total_deposited_energy tally4
         = RunTallySc.total_deposited_energy tally
             ++ [total; fadd fzero (sc_energyDeposited s4)] /\
       RunTallySc.energy tally4
         = RunTallySc.energy tally ++ [sc_energy s1; sc_energy s4] /\
       RunTallySc.parentID tally4 = RunTallySc.parentID tally ++ [p1; p4] /\
       RunTallySc.flag tally4 = false) /\
  (forall tally s1 s2 s3 p1 a b c,
     RunTallySc.flag tally = false ->
     RunTallySc.deposited_energy tally = fzero ->
     int_of_float (sc_parentID s1) = Ok p1 ->
     closes s1 = false -> closes s2 = false ->
     sc_volumeNamePostStep s3 = "Holder" ->
     0 <= a -> 0 <= b -> 0 <= c -> a + b + c = 5 ->
     sc_energyDeposited s1 = float_of_int a ->
     sc_energyDeposited s2 = float_of_int b ->
     sc_energyDeposited s3 = float_of_int c ->
     exists tally3,
       UpdateSc_steps [s1; s2; s3] tally = Ok tally3 /\
       RunTallySc.total_deposited_energy tally3
         = RunTallySc.total_deposited_energy tally ++ [float_of_int 5] /\
       RunTallySc.flag tally3 = false).
Proof.
  split; [exact UpdateSc_effect|]. split; [exact UpdateSc_episode|].
  intros tally s1 s2 s3 p1 a b c Hflag Hacc Hp1 Hc1 Hc2 Hvol
    Ha Hb Hc Hsum Hd1 Hd2 Hd3.
  assert (Hc3 : closes s3 = true) by (unfold closes; rewrite Hvol; reflexivity).
  destruct (UpdateSc_episode tally s1 s2 s3 (Samples.sc_step 0 "Holder" 0)
              p1 0 Hflag Hacc Hp1 eq_refl Hc1 Hc2 Hc3 eq_refl)
    as (t3 & _ & Hrun & Htot & _ & _ & Hfl & _).
  exists t3. split; [exact Hrun|]. split; [|exact Hfl].
  rewrite Htot, Hd1, Hd2, Hd3, (five_in_three_steps a b c Ha Hb Hc Hsum).
  reflexivity.
Qed.

Lemma episode_accounting_witness :
  exists tally3 tally4,
    UpdateSc_steps
      [Samples.sc_step 1 "ZnS" 4; Samples.sc_step 2 "ZnS" 2;
       Samples.sc_step 2 "Holder" 1] RunTallySc.default = Ok tally3 /\
    RunTallySc.total_deposited_energy tally3 = [Samples.f 5] /\
    RunTallySc.flag tally3 = false /\
    UpdateSc_step (Samples.sc_step 3 "Holder" 0) tally3 = Ok tally4 /\
    RunTallySc.total_deposited_energy tally4 = [Samples.f 5; Samples.f 3] /\
    RunTallySc.energy tally4 = [Samples.f 5; Samples.f 5].
Proof.
  destruct (proj1 (proj2 episode_accounting) RunTallySc.default
              (Samples.sc_step 1 "ZnS" 4) (Samples.sc_step 2 "ZnS" 2)
              (Samples.sc_step 2 "Holder" 1) (Samples.sc_step 3 "Holder" 0)
              0 0 eq_refl eq_refl eq_refl eq_refl eq_refl eq_refl eq_refl
              eq_refl)
    as (t3 & t4 & Hrun & Htot & _ & _ & Hfl & _ & Hrun4 & Htot4 & Hen4 & _).
  exists t3, t4.
  split; [exact Hrun|]. split; [exact Htot|]. split; [exact Hfl|].
  split; [exact Hrun4|]. split; [exact Htot4 | exact Hen4].
Defined.

(** ** What the event action and the stepping action preserve

    A property of the optical record that survives an increment of a
    counter by its counting function and an append to a sequence survives
    every public mutator of the event action and every step of the stepping
    action. *)

Lemma CountOf_Count c : CountOf c = Count (counter_member c).
Proof. destruct c; reflexivity. Qed.

Section Preservation.

Variable P : RunTallyOptical -> Prop.
Hypothesis P_count : forall so c,
  P so -> P (set_int (counter_member c) (get_int (counter_member c) so + 1) so).
Hypothesis P_fill : forall so m v, P so -> P (set_fvec m v so).
Hypothesis P_fill_int : forall so m v, P so -> P (set_ivec m v so).

Lemma CountOf_preserves c e e' :
  CountOf c e = Ok e' -> P (StatsOptical e) -> P (StatsOptical e').
Proof.
  rewrite CountOf_Count. intros H HP.
  apply Count_inv in H as [-> _]. unfold bumped; simpl. apply P_count, HP.
Qed.

Lemma Fill_preserves m v e : P (StatsOptical e) -> P (StatsOptical (Fill m v e)).
Proof. intros HP. unfold Fill; simpl. apply P_fill, HP. Qed.

Lemma FillInt_preserves m v e :
  P (StatsOptical e) -> P (StatsOptical (FillInt m v e)).
Proof. intros HP. unfold FillInt; simpl. apply P_fill_int, HP. Qed.

Lemma store_tally_optical it sc e :
  StatsOptical (store_tally it sc e) = StatsOptical e.
Proof. destruct it; reflexivity. Qed.

Lemma apply_op_preserves op e e' :
  apply_op op e = Ok e' -> P (StatsOptical e) -> P (StatsOptical e').
Proof.
  destruct op; simpl; intros H HP;
    try (inversion H; subst; simpl; exact HP).
  - eapply CountOf_preserves; eassumption.
  - inversion H; subst. apply Fill_preserves, HP.
  - inversion H; subst. apply FillInt_preserves, HP.
  - apply bind_Ok_inv in H as (sc & _ & Hst). inversion Hst; subst.
    rewrite store_tally_optical. exact HP.
Qed.

Lemma bulk_rule_preserves sa aStep e :
  P (StatsOptical e) -> P (StatsOptical (after_bulk sa aStep e)).
Proof.
  intros HP. unfold after_bulk, bulk_member.
  destruct (String.eqb (endproc sa) "OpAbsorption"); [|exact HP].
  destruct (String.eqb (GetPhysicalVolumeName (GetPreStepPoint aStep)) "ZnS");
    unfold bumped; simpl.
  - apply (P_count _ cBulkAbsZnS), HP.
  - apply (P_count _ cBulkAbsSc), HP.
Qed.

Lemma CheckBoundaryStatus_preserves tk sa aStep e e' :
  CheckBoundaryStatus tk sa aStep e = Ok e' ->
  P (StatsOptical e) -> P (StatsOptical e').
Proof.
  unfold CheckBoundaryStatus. intros H HP.
  destruct (find_OpBoundary (GetProcessList (GetTrack aStep))) as [b|];
    [|discriminate].
  apply bind_Ok_inv in H as (e1 & Hbulk & Hswitch).
  apply bulk_rule_inv in Hbulk. subst e1.
  apply (bulk_rule_preserves sa aStep) in HP.
  set (e1 := after_bulk sa aStep e) in *.
  destruct (GetStepStatus (GetPostStepPoint aStep));
    try (inversion Hswitch; subst; exact HP).
  destruct (GetStatus b);
    try (inversion Hswitch; subst; exact HP).
  - destruct (theTrack sa) as [t|]; [|discriminate].
    destruct (String.eqb (GetNextVolumeName t) "Photocathode").
    + exact (CountOf_preserves cFailed _ _ Hswitch HP).
    + exact (CountOf_preserves cAbsorbed _ _ Hswitch HP).
  - apply bind_Ok_inv in Hswitch as (e2 & Hcount & Hfill).
    apply (CountOf_preserves cDetected _ _ Hcount) in HP.
    destruct (theTrack sa) as [t|]; [|discriminate].
    inversion Hfill; subst e'.
    repeat apply Fill_preserves. exact HP.
  - exact (CountOf_preserves cEscaped _ _ Hswitch HP).
Qed.

Lemma CountScintillation_preserves aStep e e' :
  CountScintillation aStep e = Ok e' ->
  P (StatsOptical e) -> P (StatsOptical e').
Proof.
  unfold CountScintillation. intros H HP.
  apply bind_Ok_inv in H as (e1 & H1 & H2).
  assert (HP1 : P (StatsOptical e1)).
  { destruct (String.eqb (GetPhysicalVolumeName (GetPreStepPoint aStep)) "ZnS").
    - exact (CountOf_preserves cScintillationZnS _ _ H1 HP).
    - inversion H1; subst; exact HP. }
  destruct (String.eqb (GetPhysicalVolumeName (GetPreStepPoint aStep))
              "Scintillator").
  - exact (CountOf_preserves cScintillationSc _ _ H2 HP1).
  - inversion H2; subst; exact HP1.
Qed.

Lemma CountCerenkov_preserves aStep e e' :
  CountCerenkov aStep e = Ok e' ->
  P (StatsOptical e) -> P (StatsOptical e').
Proof.
  unfold CountCerenkov. intros H HP.
  apply bind_Ok_inv in H as (e1 & H1 & H2).
  assert (HP1 : P (StatsOptical e1)).
  { destruct (String.eqb (GetPhysicalVolumeName (GetPreStepPoint aStep)) "ZnS").
    - exact (CountOf_preserves cCerenkovZnS _ _ H1 HP).
    - inversion H1; subst; exact HP. }
  destruct (String.eqb (GetPhysicalVolumeName (GetPreStepPoint aStep))
              "Scintillator").
  - exact (CountOf_preserves cCerenkovSc _ _ H2 HP1).
  - inversion H2; subst; exact HP1.
Qed.

Lemma SetPhotonBirthInformation_preserves tk sa aStep e e' :
  SetPhotonBirthInformation tk sa aStep e = Ok e' ->
  P (StatsOptical e) -> P (StatsOptical e').
Proof.
  unfold SetPhotonBirthInformation. intros H HP.
  destruct (theTrack sa) as [t|]; [|discriminate].
  inversion H; subst. repeat apply Fill_preserves. exact HP.
Qed.

Lemma photon_birth_preserves tk sa aStep e e' :
  photon_birth tk sa aStep e = Ok e' ->
  P (StatsOptical e) -> P (StatsOptical e').
Proof.
  unfold photon_birth. intros H HP.
  destruct (stepNo sa =? 1); [|inversion H; subst; exact HP].
  apply bind_Ok_inv in H as (e1 & H1 & H).
  apply (SetPhotonBirthInformation_preserves _ _ _ _ _ H1) in HP.
  destruct (GetCreatorProcessName (GetTrack aStep)) as [creator|];
    [|discriminate].
  apply bind_Ok_inv in H as (e2 & H2 & H3).
  assert (HP2 : P (StatsOptical e2)).
  { destruct (String.eqb creator "Scintillation").
    - exact (CountScintillation_preserves _ _ _ H2 HP).
    - inversion H2; subst; exact HP. }
  destruct (String.eqb creator "Cerenkov").
  - exact (CountCerenkov_preserves _ _ _ H3 HP2).
  - inversion H3; subst; exact HP2.
Qed.

Lemma detector_volumes_optical sa e e' :
  detector_volumes sa e = Ok e' -> StatsOptical e' = StatsOptical e.
Proof.
  unfold detector_volumes. intros H.
  destruct (ScMap_find ScMap (volumeNamePreStep sa)) as [it|];
    [|inversion H; reflexivity].
  destruct (negb (String.eqb (particleName sa) "opticalphoton"));
    [|inversion H; reflexivity].
  apply bind_Ok_inv in H as (sc & _ & Hst). inversion Hst; subst.
  apply store_tally_optical.
Qed.

Lemma optical_part_preserves tk sa aStep e trk e' trk' :
  optical_part tk sa aStep e trk = Ok (e', trk') ->
  P (StatsOptical e) -> P (StatsOptical e').
Proof.
  unfold optical_part. intros H HP.
  destruct (String.eqb (particleName sa) "opticalphoton");
    [|inversion H; subst; exact HP].
  apply bind_Ok_inv in H as (r & Hr & H).
  apply bind_Ok_inv in H as (e2 & Hbirth & H). inversion H; subst e' trk'.
  apply (photon_birth_preserves _ _ _ _ _ Hbirth).
  destruct (negb (PhotonTrackStatus sa));
    apply bind_Ok_inv in Hr as (e1 & H1 & Hr); inversion Hr; subst r; simpl.
  - exact (CountOf_preserves cKilled _ _ H1 HP).
  - exact (CheckBoundaryStatus_preserves _ _ _ _ _ H1 HP).
Qed.

Lemma UserSteppingAction_preserves tk aStep sa e sa' e' t' :
  UserSteppingAction tk aStep sa e = Ok (sa', e', t') ->
  P (StatsOptical e) -> P (StatsOptical e').
Proof.
  unfold UserSteppingAction. intros H HP.
  apply bind_Ok_inv in H as (e1 & Hdet & H).
  apply bind_Ok_inv in H as ([e2 t2] & Hopt & H).
  apply bind_Ok_inv in H as (tot & _ & H).
  inversion H; subst sa' e' t'. simpl.
  apply (optical_part_preserves _ _ _ _ _ _ _ Hopt).
  rewrite (detector_volumes_optical _ _ _ Hdet).
  unfold initial_beam_info.
  destruct ((parentID (prepare_variables tk aStep sa) =? 0)
            && (stepNo (prepare_variables tk aStep sa) =? 1)); exact HP.
Qed.

End Preservation.

(** ** The reset, the sentinel and the summary block *)

Lemma summary_never_ran_count so c :
  summary_never_ran so ->
  summary_never_ran
    (set_int (counter_member c) (get_int (counter_member c) so + 1) so).
Proof.
  unfold summary_never_ran, derived_are_reset.
  intros H. destruct so; destruct c; simpl in *; intuition lia.
Qed.

Lemma summary_never_ran_fill so m v :
  summary_never_ran so -> summary_never_ran (set_fvec m v so).
Proof.
  unfold summary_never_ran, derived_are_reset.
  intros H. destruct so; destruct m; simpl in *; exact H.
Qed.

Lemma summary_never_ran_fill_int so m v :
  summary_never_ran so -> summary_never_ran (set_ivec m v so).
Proof.
  unfold summary_never_ran, derived_are_reset.
  intros H. destruct so; destruct m; simpl in *; exact H.
Qed.

Lemma summary_never_ran_reachable tk e :
  reachable tk e -> summary_never_ran (StatsOptical e).
Proof.
  induction 1 as [e | op e e' _ IH Hop | aStep sa e sa' e' t' _ IH Hstep].
  - unfold summary_never_ran, derived_are_reset. simpl.
    repeat split; reflexivity || discriminate.
  - exact (apply_op_preserves summary_never_ran summary_never_ran_count
             summary_never_ran_fill summary_never_ran_fill_int _ _ _ Hop IH).
  - exact (UserSteppingAction_preserves summary_never_ran
             summary_never_ran_count summary_never_ran_fill
             _ _ _ _ _ _ _ Hstep IH).
Qed.

Lemma EndOfEventAction_skips e :
  0 <= ScintillationSc (StatsOptical e) ->
  exists updates,
    EndOfEventAction e = Ok (e, updates, None) /\
    toOptical updates = StatsOptical e.
Proof.
  intros Hs. unfold EndOfEventAction.
  replace (ScintillationSc (StatsOptical e) <? 0) with false
    by (symmetry; apply Z.ltb_ge; exact Hs).
  eexists. split; reflexivity.
Qed.

(** C6.  The reset followed at once by the finalisation returns: the
    summary block, and with it every division by the generated total, is
    skipped (no percentages are computed), and the record handed to the run
    action has generated total 0.  The block itself would have divided by
    zero on that record. *)
Theorem reset_then_finalise :
  forall e,
    exists updates,
      EndOfEventAction (BeginOfEventAction e)
        = Ok (BeginOfEventAction e, updates, None) /\
      toOptical updates = RunTallyOptical_zero /\
      GeneratedTotal (toOptical updates) = 0 /\
      ComputeFractions (toOptical updates) = Fault DivisionByZero.
Proof.
  intros e. eexists. split; [reflexivity|]. repeat split.
Qed.

(** C7.  In every state of the event action reachable from the reset by
    its public mutators and by steps of the stepping action, ScintillationSc
    is not negative; the finalisation therefore returns without running the
    summary block, leaves the event action as it is, and hands the run
    action an optical record whose derived members (IncidentE, DepositTotal,
    DepositZnS, DepositSc, GeneratedSc, GeneratedZnS, GeneratedTotal,
    BulkAbsTotal) hold their reset value zero. *)
Theorem summary_block_never_runs :
  forall tk e,
    reachable tk e ->
    0 <= ScintillationSc (StatsOptical e) /\
    exists updates,
      EndOfEventAction e = Ok (e, updates, None) /\
      toOptical updates = StatsOptical e /\
      derived_are_reset (toOptical updates).
Proof.
  intros tk e Hreach.
  destruct (summary_never_ran_reachable tk e Hreach) as [Hs Hd].
  split; [exact Hs|].
  destruct (EndOfEventAction_skips e Hs) as (updates & Hrun & Hopt).
  exists updates. split; [exact Hrun|]. split; [exact Hopt|].
  rewrite Hopt. exact Hd.
Qed.

Lemma summary_block_never_runs_witness :
  exists sa' e' t',
    UserSteppingAction Samples.toolkit Samples.born_in_scintillator
      SteppingAction_initial Samples.fresh = Ok (sa', e', t') /\
    ScintillationSc (StatsOptical e') = 1 /\
    exists updates,
      EndOfEventAction e' = Ok (e', updates, None) /\
      GeneratedTotal (toOptical updates) = 0.
Proof.
  eexists. eexists. eexists.
  split; [vm_compute; reflexivity|].
  split; [reflexivity|].
  destruct (summary_block_never_runs Samples.toolkit _
              (reach_step Samples.toolkit Samples.born_in_scintillator
                 SteppingAction_initial Samples.fresh _ _ _
                 (reach_begin Samples.toolkit Samples.blank) eq_refl))
    as (_ & updates & Hrun & _ & Hd).
  exists updates. split; [exact Hrun|].
  exact (proj1 (proj2 (proj2 (proj2 (proj2 (proj2 (proj2 Hd))))))).
Defined.

(** ** The generated total *)






(** ** One step of the stepping action *)

Ltac invert_run :=
  repeat match goal with
  | H : bind _ _ = Ok _ |- _ =>
      let a := fresh "e" in
      let Ha := fresh "Hrun" in
      apply bind_Ok_inv in H as (a & Ha & H)
  | H : Count _ _ = Ok _ |- _ => apply Count_inv in H as [-> _]
  | H : Ok _ = Ok _ |- _ => inversion H; subst; clear H
  | H : Fault _ = Ok _ |- _ => discriminate H
  end.

Lemma photon_birth_effect tk sa aStep e e' :
  photon_birth tk sa aStep e = Ok e' ->
  let so := StatsOptical e in
  let so' := StatsOptical e' in
  StatsInput e' = StatsInput e /\ StatsZnS e' = StatsZnS e /\
  StatsScintillator e' = StatsScintillator e /\
  (forall m, get_ivec m so' = get_ivec m so) /\
  (forall m, get_float m so' = get_float m so) /\
  (forall m, m <> mAngle_creation -> m <> mBirthWavelength ->
             get_fvec m so' = get_fvec m so) /\
  (forall m, m <> mScintillationZnS -> m <> mScintillationSc ->
             m <> mCerenkovZnS -> m <> mCerenkovSc ->
             get_int m so' = get_int m so) /\
  (stepNo sa <> 1 -> e' = e) /\
  (stepNo sa = 1 ->
     exists t creator,
       theTrack sa = Some t /\
       GetCreatorProcessName (GetTrack aStep) = Some creator /\
       Angle_creation so'
         = Angle_creation so ++ [float_of_double (ddiv (angle sa) (deg tk))] /\
       BirthWavelength so'
         = BirthWavelength so ++ [float_of_double (wavelength tk t)] /\
       let in_ZnS := String.eqb (GetPhysicalVolumeName (GetPreStepPoint aStep)) "ZnS" in
       let in_Sc := String.eqb (GetPhysicalVolumeName (GetPreStepPoint aStep)) "Scintillator" in
       let scint := String.eqb creator "Scintillation" in
       let ceren := String.eqb creator "Cerenkov" in
       ScintillationZnS so' = ScintillationZnS so + (if scint && in_ZnS then 1 else 0) /\
       ScintillationSc so' = ScintillationSc so + (if scint && in_Sc then 1 else 0) /\
       CerenkovZnS so' = CerenkovZnS so + (if ceren && in_ZnS then 1 else 0) /\
       CerenkovSc so' = CerenkovSc so + (if ceren && in_Sc then 1 else 0)).
Proof.
  unfold photon_birth. intros H. cbv zeta.
  destruct (Z.eqb_spec (stepNo sa) 1) as [Hone|Hnot].
  2:{ inversion H; subst. repeat split; auto; try contradiction. }
  unfold SetPhotonBirthInformation, CountScintillation, CountCerenkov,
    CountScintillationZnS, CountScintillationSc, CountCerenkovZnS,
    CountCerenkovSc, FillBirthWavelength, FillFiberAngleCreation in H.
  destruct (theTrack sa) as [t|]; [|discriminate].
  cbn [bind] in H.
  destruct (GetCreatorProcessName (GetTrack aStep)) as [creator|]; [|discriminate].
  destruct (String.eqb creator "Scintillation") eqn:Escint;
    destruct (String.eqb creator "Cerenkov") eqn:Eceren;
    destruct (String.eqb (GetPhysicalVolumeName (GetPreStepPoint aStep)) "ZnS");
    destruct (String.eqb (GetPhysicalVolumeName (GetPreStepPoint aStep)) "Scintillator");
    invert_run;
    destruct e as [i zn sc so ai]; destruct so;
    (repeat split; try reflexivity; try contradiction;
     try (intros m; destruct m; intros; try reflexivity; congruence);
     try (intros _; exists t, creator; rewrite Escint, Eceren; simpl;
          repeat split; lia)).
Qed.

Lemma initial_beam_info_frame sa e :
  StatsOptical (initial_beam_info sa e) = StatsOptical e /\
  StatsZnS (initial_beam_info sa e) = StatsZnS e /\
  StatsScintillator (initial_beam_info sa e) = StatsScintillator e.
Proof.
  unfold initial_beam_info.
  destruct ((parentID sa =? 0) && (stepNo sa =? 1)); repeat split; reflexivity.
Qed.

Lemma kill_in_world_killed aStep t :
  GetTrackStatus (kill_in_world aStep (SetTrackStatus fStopAndKill t))
    = fStopAndKill.
Proof.
  unfold kill_in_world.
  destruct (String.eqb (GetPhysicalVolumeName (GetPostStepPoint aStep)) "World");
    reflexivity.
Qed.

(** A photon step with the tracking switch off, reduced to its parts. *)
Lemma killed_step_inv tk aStep sa evtac sa' evtac' t' :
  GetParticleName (GetTrack aStep) = "opticalphoton" ->
  PhotonTrackStatus sa = false ->
  UserSteppingAction tk aStep sa evtac = Ok (sa', evtac', t') ->
  let sa1 := prepare_variables tk aStep sa in
  let e1 := initial_beam_info sa1 evtac in
  photon_birth tk sa1 aStep (bumped mKilled e1) = Ok evtac' /\
  t' = kill_in_world aStep (SetTrackStatus fStopAndKill (GetTrack aStep)) /\
  sa' = set_theTrack (Some t') sa1.
Proof.
  intros Hphoton Hoff H. cbv zeta.
  unfold UserSteppingAction in H.
  set (sa1 := prepare_variables tk aStep sa) in *.
  assert (Hname : particleName sa1 = "opticalphoton") by exact Hphoton.
  assert (Hsw : PhotonTrackStatus sa1 = false) by exact Hoff.
  set (e1 := initial_beam_info sa1 evtac) in *.
  assert (Hdet : detector_volumes sa1 e1 = Ok e1).
  { unfold detector_volumes. rewrite Hname.
    destruct (ScMap_find ScMap (volumeNamePreStep sa1)); reflexivity. }
  rewrite Hdet in H. cbn [bind] in H.
  unfold optical_part in H. rewrite Hname, Hsw in H.
  cbn [String.eqb Ascii.eqb Bool.eqb negb] in H.
  unfold CountKilled in H.
  invert_run. cbn [fst snd] in *.
  repeat split; assumption || reflexivity.
Qed.

Lemma photon_birth_defined tk sa aStep e :
  theTrack sa <> None ->
  (stepNo sa = 1 -> GetCreatorProcessName (GetTrack aStep) <> None) ->
  creation_can_count (StatsOptical e) ->
  exists e', photon_birth tk sa aStep e = Ok e'.
Proof.
  intros Htrack Hcreator Hcan. unfold photon_birth.
  destruct (Z.eqb_spec (stepNo sa) 1) as [Hone|Hnot]; [|eexists; reflexivity].
  unfold SetPhotonBirthInformation.
  destruct (theTrack sa) as [t|]; [|congruence]. cbn [bind].
  destruct (GetCreatorProcessName (GetTrack aStep)) as [creator|];
    [|exfalso; exact (Hcreator Hone eq_refl)].
  unfold CountScintillation, CountCerenkov, CountScintillationZnS,
    CountScintillationSc, CountCerenkovZnS, CountCerenkovSc,
    FillBirthWavelength, FillFiberAngleCreation.
  pose proof (Hcan mScintillationZnS ltac:(simpl; auto)) as H1.
  pose proof (Hcan mScintillationSc ltac:(simpl; auto)) as H2.
  pose proof (Hcan mCerenkovZnS ltac:(simpl; auto)) as H3.
  pose proof (Hcan mCerenkovSc ltac:(simpl; auto)) as H4.
  destruct (String.eqb creator "Scintillation");
    destruct (String.eqb creator "Cerenkov");
    destruct (String.eqb (GetPhysicalVolumeName (GetPreStepPoint aStep)) "ZnS");
    destruct (String.eqb (GetPhysicalVolumeName (GetPreStepPoint aStep)) "Scintillator");
    repeat (first
      [ rewrite Count_defined
          by (rewrite ?bumped_other by discriminate; rewrite ?Fill_int; assumption)
      | progress cbn [bind] ]);
    eexists; reflexivity.
Qed.

Lemma CheckBoundaryStatus_defined tk sa aStep e :
  find_OpBoundary (GetProcessList (GetTrack aStep)) <> None ->
  theTrack sa <> None ->
  can_count (StatsOptical e) ->
  exists e', CheckBoundaryStatus tk sa aStep e = Ok e'.
Proof.
  intros Hfind Htrack Hcan. unfold CheckBoundaryStatus.
  destruct (find_OpBoundary (GetProcessList (GetTrack aStep))) as [b|];
    [|congruence].
  rewrite (bulk_rule_defined sa aStep e Hcan). cbn [bind].
  destruct (theTrack sa) as [t|]; [|congruence].
  assert (Hc : forall m, m <> mBulkAbsZnS -> m <> mBulkAbsSc ->
                 CxxInt.INT_MIN
                 <= get_int m (StatsOptical (after_bulk sa aStep e))
                 < CxxInt.INT_MAX).
  { intros m M1 M2. rewrite after_bulk_other by assumption. apply Hcan. }
  destruct (GetStepStatus (GetPostStepPoint aStep)); try (eexists; reflexivity).
  destruct (GetStatus b); try (eexists; reflexivity).
  - destruct (String.eqb (GetNextVolumeName t) "Photocathode");
      unfold CountFailed, CountAbsorbed;
      rewrite Count_defined by (apply Hc; discriminate); eexists; reflexivity.
  - unfold CountDetected.
    rewrite Count_defined by (apply Hc; discriminate). eexists; reflexivity.
  - unfold CountEscaped.
    rewrite Count_defined by (apply Hc; discriminate). eexists; reflexivity.
Qed.

Lemma CheckBoundaryStatus_creation tk sa aStep e e' :
  CheckBoundaryStatus tk sa aStep e = Ok e' ->
  creation_can_count (StatsOptical e) -> creation_can_count (StatsOptical e').
Proof.
  intros Hrun Hcan m Hm.
  assert (Hsame : get_int m (StatsOptical e') = get_int m (StatsOptical e)).
  { apply CheckBoundaryStatus_inv in Hrun. cbv zeta in Hrun.
    simpl in Hm.
    destruct Hrun as [Hs | (_ & c & Hc & Hb)].
    - rewrite Hs. apply after_bulk_other; intuition (subst; discriminate).
    - rewrite Hb. simpl in Hc.
      rewrite bumped_other by (intuition (subst; discriminate)).
      apply after_bulk_other; intuition (subst; discriminate). }
  rewrite Hsame. apply Hcan, Hm.
Qed.

Lemma UserSteppingAction_defined tk aStep sa evtac :
  step_precondition aStep sa evtac ->
  exists sa' evtac' t', UserSteppingAction tk aStep sa evtac = Ok (sa', evtac', t').
Proof.
  intros (Hquiet & Hcan & Hphoton & Hcharged).
  unfold UserSteppingAction.
  set (sa1 := prepare_variables tk aStep sa).
  assert (Hverbose : forall e, verbose_total sa1 e = Ok 0).
  { intros e. unfold verbose_total.
    change (VerbosityLevel sa1) with (VerbosityLevel sa).
    replace (VerbosityLevel sa >? 1) with false; [reflexivity|].
    symmetry. rewrite Z.gtb_ltb. apply Z.ltb_ge. exact Hquiet. }
  destruct (initial_beam_info_frame sa1 evtac) as (Hso & Hzn & Hsc).
  set (e1 := initial_beam_info sa1 evtac) in *.
  destruct (String.eqb_spec (GetParticleName (GetTrack aStep)) "opticalphoton")
    as [Hp | Hnp].
  - (* an optical photon *)
    destruct (Hphoton Hp) as [Hb Hcr].
    assert (Hdet : detector_volumes sa1 e1 = Ok e1).
    { unfold detector_volumes.
      change (particleName sa1) with (GetParticleName (GetTrack aStep)).
      rewrite Hp. destruct (ScMap_find ScMap (volumeNamePreStep sa1)); reflexivity. }
    rewrite Hdet. cbn [bind]. unfold optical_part.
    change (particleName sa1) with (GetParticleName (GetTrack aStep)).
    rewrite Hp. cbn [String.eqb Ascii.eqb Bool.eqb].
    change (PhotonTrackStatus sa1) with (PhotonTrackStatus sa).
    assert (Hcan1 : can_count (StatsOptical e1)) by (rewrite Hso; exact Hcan).
    assert (Hcc : creation_can_count (StatsOptical e1))
      by (intros m _; apply Hcan1).
    destruct (PhotonTrackStatus sa); cbn [negb].
    + destruct (CheckBoundaryStatus_defined tk sa1 aStep e1 (Hb eq_refl)
                  ltac:(discriminate) Hcan1) as (e2 & Hrun2).
      rewrite Hrun2. cbn [bind fst snd].
      destruct (photon_birth_defined tk sa1 aStep e2 ltac:(discriminate) Hcr
                  (CheckBoundaryStatus_creation _ _ _ _ _ Hrun2 Hcc))
        as (e3 & Hrun3).
      rewrite Hrun3. cbn [bind fst snd]. rewrite Hverbose. cbn [bind].
      do 3 eexists. reflexivity.
    + unfold CountKilled. rewrite Count_defined by apply Hcan1.
      cbn [bind fst snd].
      destruct (photon_birth_defined tk sa1 aStep (bumped mKilled e1)
                  ltac:(discriminate) Hcr) as (e3 & Hrun3).
      { intros m Hm. simpl in Hm.
        rewrite bumped_other by (intuition (subst; discriminate)).
        apply Hcan1. }
      rewrite Hrun3. cbn [bind fst snd]. rewrite Hverbose. cbn [bind].
      do 3 eexists. reflexivity.
  - (* any other particle *)
    assert (Hopt : forall e, optical_part tk sa1 aStep e (GetTrack aStep)
                             = Ok (e, GetTrack aStep)).
    { intros e. unfold optical_part.
      change (particleName sa1) with (GetParticleName (GetTrack aStep)).
      destruct (String.eqb_spec (GetParticleName (GetTrack aStep)) "opticalphoton");
        [contradiction | reflexivity]. }
    unfold detector_volumes.
    change (particleName sa1) with (GetParticleName (GetTrack aStep)).
    change (volumeNamePreStep sa1)
      with (GetPhysicalVolumeName (GetPreStepPoint aStep)).
    destruct (String.eqb_spec (GetParticleName (GetTrack aStep)) "opticalphoton");
      [contradiction|]. cbn [negb].
    destruct (ScMap_find ScMap (GetPhysicalVolumeName (GetPreStepPoint aStep)))
      as [it|] eqn:Hit.
    + assert (Hflag : RunTallySc.flag (tally_of it e1) = false ->
                      exists p, int_of_float (float_of_int (GetParentID (GetTrack aStep))) = Ok p).
      { intros Hf. apply (Hcharged Hnp it eq_refl).
        destruct it; simpl in *; congruence. }
      destruct (RunTallySc.flag (tally_of it e1)) eqn:Hfl.
      * destruct (UpdateSc_effect (tally_of it e1)
                    (float_of_double (StepPoint.x (preStep sa1)))
                    (float_of_double (StepPoint.y (preStep sa1)))
                    (float_of_double (StepPoint.z (preStep sa1)))
                    (float_of_double (energy sa1))
                    (float_of_double (energyDeposited sa1))
                    (float_of_double (energy_post sa1))
                    (float_of_int (parentID sa1)) (particleID sa1)
                    (volumeNamePostStep sa1) (TrackingStatus sa1)
                    (theTrack sa1) 0) as (sc & Hrun & _); [congruence|].
        rewrite Hrun. cbn [bind]. rewrite Hopt. cbn [bind fst snd].
        rewrite Hverbose. cbn [bind]. do 3 eexists. reflexivity.
      * destruct (Hflag eq_refl) as (p & Hp).
        destruct (UpdateSc_effect (tally_of it e1)
                    (float_of_double (StepPoint.x (preStep sa1)))
                    (float_of_double (StepPoint.y (preStep sa1)))
                    (float_of_double (StepPoint.z (preStep sa1)))
                    (float_of_double (energy sa1))
                    (float_of_double (energyDeposited sa1))
                    (float_of_double (energy_post sa1))
                    (float_of_int (parentID sa1)) (particleID sa1)
                    (volumeNamePostStep sa1) (TrackingStatus sa1)
                    (theTrack sa1) p (fun _ => Hp)) as (sc & Hrun & _).
        rewrite Hrun. cbn [bind]. rewrite Hopt. cbn [bind fst snd].
        rewrite Hverbose. cbn [bind]. do 3 eexists. reflexivity.
    + cbn [bind]. rewrite Hopt. cbn [bind fst snd]. rewrite Hverbose.
      cbn [bind]. do 3 eexists. reflexivity.
Qed.

Lemma UserSteppingAction_world tk aStep sa evtac sa' evtac' t' :
  GetPhysicalVolumeName (GetPostStepPoint aStep) = "World" ->
  UserSteppingAction tk aStep sa evtac = Ok (sa', evtac', t') ->
  GetTrackStatus t' = fStopAndKill /\ theTrack sa' = Some t'.
Proof.
  intros Hworld H. unfold UserSteppingAction in H.
  invert_run. unfold kill_in_world. rewrite Hworld. split; reflexivity.
Qed.

(** C8 (amended).  A step of an optical photon taken while the photon
    tracking switch is off is defined under the step precondition, and
    whenever it returns: the track is set to stop-and-kill; Killed is one
    higher; the classifier does not run, so no terminal counter changes;
    no sequence changes except Angle_creation and BirthWavelength; the tallies
    of the two detector volumes are unchanged.  On a step that is not the
    first of its track nothing else changes in the optical record.  On the
    first step of the track the birth information is still recorded: the
    creation angle and the birth wavelength are appended and the creation
    counter selected by the creator process and the pre-step volume is
    incremented. *)
Theorem killed_photon_step :
  forall tk aStep sa evtac,
    GetParticleName (GetTrack aStep) = "opticalphoton" ->
    PhotonTrackStatus sa = false ->
    (step_precondition aStep sa evtac ->
     exists sa' evtac' t',
       UserSteppingAction tk aStep sa evtac = Ok (sa', evtac', t')) /\
    forall sa' evtac' t',
    UserSteppingAction tk aStep sa evtac = Ok (sa', evtac', t') ->
    let so := StatsOptical evtac in
    let so' := StatsOptical evtac' in
    let first_step := GetCurrentStepNumber (GetTrack aStep) = 1 in
    GetTrackStatus t' = fStopAndKill /\
    Killed so' = Killed so + 1 /\
    (forall m, In m terminal_counters -> get_int m so' = get_int m so) /\
    (forall m, m <> mAngle_creation -> m <> mBirthWavelength ->
               get_fvec m so' = get_fvec m so) /\
    (forall m, get_ivec m so' = get_ivec m so) /\
    (forall m, get_float m so' = get_float m so) /\
    StatsZnS evtac' = StatsZnS evtac /\
    StatsScintillator evtac' = StatsScintillator evtac /\
    (~ first_step -> so' = set_int mKilled (Killed so + 1) so) /\
    (first_step ->
       exists creator,
         GetCreatorProcessName (GetTrack aStep) = Some creator /\
         Angle_creation so'
           = Angle_creation so ++ [float_of_double (ddiv (angle sa') (deg tk))] /\
         BirthWavelength so'
           = BirthWavelength so ++
               [float_of_double
                  (ddiv (double_of_int 1240)
                        (ddiv (GetTotalEnergy (GetTrack aStep)) (eV tk)))] /\
         let in_ZnS :=
           String.eqb (GetPhysicalVolumeName (GetPreStepPoint aStep)) "ZnS" in
         let in_Sc :=
           String.eqb (GetPhysicalVolumeName (GetPreStepPoint aStep))
             "Scintillator" in
         let scint := String.eqb creator "Scintillation" in
         let ceren := String.eqb creator "Cerenkov" in
         ScintillationZnS so'
           = ScintillationZnS so + (if scint && in_ZnS then 1 else 0) /\
         ScintillationSc so'
           = ScintillationSc so + (if scint && in_Sc then 1 else 0) /\
         CerenkovZnS so' = CerenkovZnS so + (if ceren && in_ZnS then 1 else 0) /\
         CerenkovSc so' = CerenkovSc so + (if ceren && in_Sc then 1 else 0) /\
         forall m, m <> mKilled -> m <> mScintillationZnS ->
                   m <> mScintillationSc -> m <> mCerenkovZnS ->
                   m <> mCerenkovSc -> get_int m so' = get_int m so).
Proof.
  intros tk aStep sa evtac Hphoton Hoff.
  split; [apply UserSteppingAction_defined|].
  intros sa' evtac' t' Hrun. cbv zeta.
  apply killed_step_inv in Hrun; [|assumption|assumption]. cbv zeta in Hrun.
  destruct Hrun as (Hbirth & -> & ->).
  set (sa1 := prepare_variables tk aStep sa) in *.
  destruct (initial_beam_info_frame sa1 evtac) as (Hso & Hzn & Hsc).
  set (e1 := initial_beam_info sa1 evtac) in *.
  apply photon_birth_effect in Hbirth. cbv zeta in Hbirth.
  destruct Hbirth as (_ & Bzn & Bsc & Bivec & Bfloat & Bfvec & Bint & Bnot & Bone).
  assert (Hk : forall m, m <> mKilled ->
                 get_int m (StatsOptical (bumped mKilled e1))
                 = get_int m (StatsOptical evtac)).
  { intros m Hm. rewrite bumped_other by congruence. rewrite Hso. reflexivity. }
  assert (Hkk : get_int mKilled (StatsOptical (bumped mKilled e1))
                = Killed (StatsOptical evtac) + 1).
  { rewrite bumped_same, Hso. reflexivity. }
  split; [apply kill_in_world_killed|].
  split.
  { change (get_int mKilled (StatsOptical evtac') = Killed (StatsOptical evtac) + 1).
    rewrite Bint by discriminate. exact Hkk. }
  split.
  { intros m Hm. simpl in Hm.
    rewrite Bint by (intuition (subst; discriminate)).
    apply Hk. intuition (subst; discriminate). }
  split.
  { intros m H1 H2. rewrite Bfvec by assumption.
    rewrite bumped_fvec, Hso. reflexivity. }
  split.
  { intros m. rewrite Bivec, bumped_ivec, Hso. reflexivity. }
  split.
  { intros m. rewrite Bfloat, bumped_float, Hso. reflexivity. }
  split; [rewrite Bzn; exact Hzn|].
  split; [rewrite Bsc; exact Hsc|].
  split.
  { intros Hnot. rewrite (Bnot Hnot). unfold bumped. simpl. rewrite Hso.
    reflexivity. }
  intros Hfirst. destruct (Bone Hfirst) as (t & creator & Ht & Hc & Ha & Hw & Hcounts).
  exists creator. split; [exact Hc|].
  assert (Hfv : forall m, get_fvec m (StatsOptical (bumped mKilled e1))
                          = get_fvec m (StatsOptical evtac)).
  { intros m. rewrite bumped_fvec, Hso. reflexivity. }
  split.
  { rewrite Ha. change (Angle_creation (StatsOptical (bumped mKilled e1)))
      with (get_fvec mAngle_creation (StatsOptical (bumped mKilled e1))).
    rewrite Hfv. reflexivity. }
  split.
  { rewrite Hw. change (BirthWavelength (StatsOptical (bumped mKilled e1)))
      with (get_fvec mBirthWavelength (StatsOptical (bumped mKilled e1))).
    rewrite Hfv. inversion Ht; subst t. reflexivity. }
  cbv zeta in Hcounts. destruct Hcounts as (C1 & C2 & C3 & C4).
  cbv zeta.
  pose proof (Hk mScintillationZnS ltac:(discriminate)) as K1.
  pose proof (Hk mScintillationSc ltac:(discriminate)) as K2.
  pose proof (Hk mCerenkovZnS ltac:(discriminate)) as K3.
  pose proof (Hk mCerenkovSc ltac:(discriminate)) as K4.
  change (ScintillationZnS (StatsOptical (bumped mKilled e1))
          = ScintillationZnS (StatsOptical evtac)) in K1.
  change (ScintillationSc (StatsOptical (bumped mKilled e1))
          = ScintillationSc (StatsOptical evtac)) in K2.
  change (CerenkovZnS (StatsOptical (bumped mKilled e1))
          = CerenkovZnS (StatsOptical evtac)) in K3.
  change (CerenkovSc (StatsOptical (bumped mKilled e1))
          = CerenkovSc (StatsOptical evtac)) in K4.
  split; [rewrite C1, K1; reflexivity|].
  split; [rewrite C2, K2; reflexivity|].
  split; [rewrite C3, K3; reflexivity|].
  split; [rewrite C4, K4; reflexivity|].
  intros m M0 M1 M2 M3 M4. rewrite Bint by assumption. apply Hk. assumption.
Qed.

Lemma killed_photon_step_witness :
  exists sa' e' t',
    UserSteppingAction Samples.toolkit Samples.detection_step
      (Samples.stepping false Samples.detection_step) Samples.fresh
      = Ok (sa', e', t') /\
    GetTrackStatus t' = fStopAndKill /\
    StatsOptical e' = set_int mKilled 1 RunTallyOptical_zero.
Proof.
  destruct (killed_photon_step Samples.toolkit Samples.detection_step
              (Samples.stepping false Samples.detection_step)
              Samples.fresh eq_refl eq_refl) as [Hdefined Hpost].
  destruct Hdefined as (sa' & e' & t' & Hrun).
  - split; [|split; [|split]].
    + simpl. lia.
    + intros m. destruct m; simpl; unfold CxxInt.INT_MIN, CxxInt.INT_MAX; lia.
    + intros _. split; [discriminate|]. simpl. discriminate.
    + simpl. congruence.
  - exists sa', e', t'. split; [exact Hrun|].
    destruct (Hpost sa' e' t' Hrun)
      as (Hkill & _ & _ & _ & _ & _ & _ & _ & Hrest & _).
    split; [exact Hkill|]. apply Hrest. simpl. discriminate.
Defined.

(** C8, the claim as stated, fails: on the first step of a scintillation
    photon born in the ZnS layer, taken with the tracking switch off, the
    step counts in Killed and also in ScintillationZnS, and appends to
    Angle_creation and to BirthWavelength. *)
Lemma killed_first_step_records_birth :
  PhotonTrackStatus (Samples.stepping false Samples.born_in_ZnS) = false /\
  exists sa' e' t',
    UserSteppingAction Samples.toolkit Samples.born_in_ZnS
      (Samples.stepping false Samples.born_in_ZnS) Samples.fresh
      = Ok (sa', e', t') /\
    Killed (StatsOptical e') = Killed (StatsOptical Samples.fresh) + 1 /\
    ScintillationZnS (StatsOptical e')
      = ScintillationZnS (StatsOptical Samples.fresh) + 1 /\
    Angle_creation (StatsOptical Samples.fresh) = [] /\
    List.length (Angle_creation (StatsOptical e')) = 1%nat /\
    BirthWavelength (StatsOptical Samples.fresh) = [] /\
    BirthWavelength (StatsOptical e') = [Samples.f 400].
Proof.
  split; [reflexivity|].
  eexists. eexists. eexists. split; [vm_compute; reflexivity|].
  repeat split; reflexivity.
Qed.

(** C9.  A step whose post-step volume is named World is defined under the
    step precondition, and whenever it returns the track is set to
    stop-and-kill, whatever the particle and the rest of the state; the
    member pointer designates that track. *)
Theorem world_stops_track :
  forall tk aStep sa evtac,
    GetPhysicalVolumeName (GetPostStepPoint aStep) = "World" ->
    (step_precondition aStep sa evtac ->
     exists sa' evtac' t',
       UserSteppingAction tk aStep sa evtac = Ok (sa', evtac', t')) /\
    forall sa' evtac' t',
      UserSteppingAction tk aStep sa evtac = Ok (sa', evtac', t') ->
      GetTrackStatus t' = fStopAndKill /\ theTrack sa' = Some t'.
Proof.
  intros tk aStep sa evtac Hworld.
  split; [apply UserSteppingAction_defined|].
  intros sa' evtac' t'. apply UserSteppingAction_world. exact Hworld.
Qed.

Lemma world_stops_track_witness :
  exists sa' e' t',
    UserSteppingAction Samples.toolkit (Samples.alpha_step "Holder" "World")
      SteppingAction_initial Samples.fresh = Ok (sa', e', t') /\
    GetTrackStatus t' = fStopAndKill /\ theTrack sa' = Some t'.
Proof.
  destruct (world_stops_track Samples.toolkit
              (Samples.alpha_step "Holder" "World")
              SteppingAction_initial Samples.fresh eq_refl)
    as [Hdefined Hpost].
  destruct Hdefined as (sa' & e' & t' & Hrun).
  - split; [|split; [|split]].
    + simpl. lia.
    + intros m. destruct m; simpl; unfold CxxInt.INT_MIN, CxxInt.INT_MAX; lia.
    + simpl. discriminate.
    + intros _ it Hit. simpl in Hit. discriminate.
  - exists sa', e', t'. split; [exact Hrun|]. exact (Hpost sa' e' t' Hrun).
Defined.

(** ** The argument handling of [main] *)

(** C10 (amended).  [main] goes on to the set-up with two arguments
    (program and output file) and with five or more when the event count
    converts and the flag is ON or OFF; the thread count is read only when
    there are exactly six, and further arguments are not rejected.  A
    missing output file raises the fatal exception main0004, and [main]
    returns 1 only if that exception returns; three or four arguments raise
    main0003; a flag that is neither ON nor OFF raises main0002 once the
    event count has converted.  When the fatal exception aborts, all three
    abort the process; when it returns, the last two leave the run manager
    unassigned.  With the flag ON the run manager is handed the thread
    count narrowed to [G4int]. *)
Theorem main_argument_handling :
  forall fatal_aborts stoul hardware_concurrency argv,
    let argc := Z.of_nat (List.length argv) in
    let setup := main_setup fatal_aborts stoul hardware_concurrency argv in
    let fatal code :=
      if fatal_aborts then FatalAbort code else UninitialisedRunManager code in
    (argc < 2 ->
       setup = if fatal_aborts then FatalAbort "main0004" else Returned 1) /\
    (argc = 3 \/ argc = 4 -> setup = fatal "main0003") /\
    (argc = 2 ->
       setup = Proceeds {| outputFile := nth 1 argv "";
                           TotalNParticles := 0%N; flag_MT := false;
                           Ncores := hardware_concurrency;
                           runManager := G4RunManager |}) /\
    (5 <= argc ->
       match stoul (nth 2 argv "") with
       | None => setup = UncaughtException
       | Some n =>
           (nth 4 argv "" <> "ON" -> nth 4 argv "" <> "OFF" ->
              setup = fatal "main0002") /\
           (nth 4 argv "" = "OFF" ->
              setup = Proceeds {| outputFile := nth 1 argv "";
                                  TotalNParticles := n; flag_MT := false;
                                  Ncores := hardware_concurrency;
                                  runManager := G4RunManager |}) /\
           (nth 4 argv "" = "ON" -> argc <> 6 ->
              setup = Proceeds {| outputFile := nth 1 argv "";
                                  TotalNParticles := n; flag_MT := true;
                                  Ncores := hardware_concurrency;
                                  runManager :=
                                    G4MTRunManager
                                      (G4int_of_size_t hardware_concurrency) |}) /\
           (nth 4 argv "" = "ON" -> argc = 6 ->
              match stoul (nth 5 argv "") with
              | None => setup = UncaughtException
              | Some k =>
                  setup = Proceeds {| outputFile := nth 1 argv "";
                                      TotalNParticles := n; flag_MT := true;
                                      Ncores := k;
                                      runManager :=
                                        G4MTRunManager (G4int_of_size_t k) |}
              end)
       end).
Proof.
  intros fatal_aborts stoul hw argv. cbv zeta. unfold main_setup.
  set (argc := Z.of_nat (List.length argv)). rewrite Z.geb_leb.
  split; [|split; [|split]].
  - intros H. replace (argc <? 2) with true by (symmetry; apply Z.ltb_lt; lia).
    reflexivity.
  - intros H.
    replace (argc <? 2) with false by (symmetry; apply Z.ltb_ge; lia).
    replace (argc =? 2) with false by (symmetry; apply Z.eqb_neq; lia).
    replace (5 <=? argc) with false by (symmetry; apply Z.leb_gt; lia).
    reflexivity.
  - intros H.
    replace (argc <? 2) with false by (symmetry; apply Z.ltb_ge; lia).
    replace (argc =? 2) with true by (symmetry; apply Z.eqb_eq; lia).
    reflexivity.
  - intros H.
    replace (argc <? 2) with false by (symmetry; apply Z.ltb_ge; lia).
    replace (argc =? 2) with false by (symmetry; apply Z.eqb_neq; lia).
    replace (5 <=? argc) with true by (symmetry; apply Z.leb_le; lia).
    destruct (stoul (nth 2 argv "")) as [n|]; [|reflexivity].
    destruct (String.eqb_spec (nth 4 argv "") "ON") as [Hon|Hon];
      destruct (String.eqb_spec (nth 4 argv "") "OFF") as [Hoff|Hoff];
      try (rewrite Hon in Hoff; discriminate);
      (split; [|split; [|split]]); intros; try contradiction;
      try congruence; try reflexivity.
    + replace (argc =? 6) with false by (symmetry; apply Z.eqb_neq; lia).
      reflexivity.
    + replace (argc =? 6) with true by (symmetry; apply Z.eqb_eq; lia).
      destruct (stoul (nth 5 argv "")); reflexivity.
Qed.

Lemma main_argument_handling_witness :
  main_setup true Samples.stoul 8 ["OpticalSimulation"] = FatalAbort "main0004" /\
  main_setup true Samples.stoul 8 ["OpticalSimulation"; "out"; "100"]
    = FatalAbort "main0003" /\
  main_setup true Samples.stoul 8
    ["OpticalSimulation"; "out"; "100"; "run.mac"; "MAYBE"]
    = FatalAbort "main0002" /\
  main_setup true Samples.stoul 8
    ["OpticalSimulation"; "out"; "100"; "run.mac"; "ON"; "4"]
    = Proceeds {| outputFile := "out"; TotalNParticles := 100%N;
                  flag_MT := true; Ncores := 4%N;
                  runManager := G4MTRunManager 4 |} /\
  main_setup true Samples.stoul 8
    ["OpticalSimulation"; "out"; "100"; "run.mac"; "ON"; "4294967297"]
    = Proceeds {| outputFile := "out"; TotalNParticles := 100%N;
                  flag_MT := true; Ncores := 4294967297%N;
                  runManager := G4MTRunManager 1 |}.
Proof.
  split; [|split; [|split; [|split]]].
  - apply (proj1 (main_argument_handling true Samples.stoul 8
                    ["OpticalSimulation"])).
    simpl. lia.
  - apply (proj1 (proj2 (main_argument_handling true Samples.stoul 8
                           ["OpticalSimulation"; "out"; "100"]))).
    simpl. lia.
  - pose proof (main_argument_handling true Samples.stoul 8
                  ["OpticalSimulation"; "out"; "100"; "run.mac"; "MAYBE"]) as H.
    cbv zeta in H. destruct H as (_ & _ & _ & H).
    assert (Hargc : 5 <= Z.of_nat (List.length
                      ["OpticalSimulation"; "out"; "100"; "run.mac"; "MAYBE"]))
      by (simpl; lia).
    specialize (H Hargc). simpl in H. destruct H as (H & _).
    apply H; discriminate.
  - pose proof (main_argument_handling true Samples.stoul 8
                  ["OpticalSimulation"; "out"; "100"; "run.mac"; "ON"; "4"]) as H.
    cbv zeta in H. destruct H as (_ & _ & _ & H).
    assert (Hargc : 5 <= Z.of_nat (List.length
                      ["OpticalSimulation"; "out"; "100"; "run.mac"; "ON"; "4"]))
      by (simpl; lia).
    specialize (H Hargc). simpl in H. destruct H as (_ & _ & _ & H).
    exact (H eq_refl eq_refl).
  - pose proof (main_argument_handling true Samples.stoul 8
                  ["OpticalSimulation"; "out"; "100"; "run.mac"; "ON";
                   "4294967297"]) as H.
    cbv zeta in H. destruct H as (_ & _ & _ & H).
    assert (Hargc : 5 <= Z.of_nat (List.length
                      ["OpticalSimulation"; "out"; "100"; "run.mac"; "ON";
                       "4294967297"]))
      by (simpl; lia).
    specialize (H Hargc). simpl in H. destruct H as (_ & _ & _ & H).
    exact (H eq_refl eq_refl).
Defined.

(** C10, the claim as stated, fails whichever way the fatal exception of
    the toolkit behaves.  If it aborts, the invocation without an output
    file aborts instead of exiting with code 1.  If it returns, three
    arguments do not abort the process.  And seven arguments, a count the
    usage line does not admit, go on to the set-up in both cases. *)
Lemma main_exit_code_and_abort_disagree :
  main_setup true Samples.stoul 8 ["OpticalSimulation"] = FatalAbort "main0004" /\
  main true Samples.stoul 8 ["OpticalSimulation"] <> Returned 1 /\
  main_setup false Samples.stoul 8 ["OpticalSimulation"; "out"; "100"]
    = UninitialisedRunManager "main0003" /\
  main_setup true Samples.stoul 8
    ["OpticalSimulation"; "out"; "100"; "run.mac"; "OFF"; "4"; "extra"]
    = Proceeds {| outputFile := "out"; TotalNParticles := 100%N;
                  flag_MT := false; Ncores := 8%N;
                  runManager := G4RunManager |} /\
  main_setup false Samples.stoul 8
    ["OpticalSimulation"; "out"; "100"; "run.mac"; "OFF"; "4"; "extra"]
    = Proceeds {| outputFile := "out"; TotalNParticles := 100%N;
                  flag_MT := false; Ncores := 8%N;
                  runManager := G4RunManager |}.
Proof.
  repeat split; try reflexivity. discriminate.
Qed.

(** * Further properties of the code *)

(** ** The events of a step *)
Lemma replay_app evs1 evs2 so :
  replay (evs1 ++ evs2) so = replay evs2 (replay evs1 so).
Proof. unfold replay. apply fold_left_app. Qed.

Lemma bumped_replay m e :
  StatsOptical (bumped m e) = add_one m (StatsOptical e).
Proof. reflexivity. Qed.

Lemma Fill_replay m v e :
  StatsOptical (Fill m v e) = append_to m v (StatsOptical e).
Proof. reflexivity. Qed.

Lemma differs_by_nil e : differs_by [] e e.
Proof. repeat split. Qed.

Lemma differs_by_app evs1 evs2 e1 e2 e3 :
  differs_by evs1 e1 e2 -> differs_by evs2 e2 e3 ->
  differs_by (evs1 ++ evs2) e1 e3.
Proof.
  intros (A1 & A2 & A3 & A4 & A5) (B1 & B2 & B3 & B4 & B5).
  unfold differs_by. rewrite replay_app, <- A5.
  repeat split; congruence.
Qed.

Lemma differs_by_bumped c e :
  differs_by [Counted c] e (bumped (step_counter_member c) e).
Proof. repeat split. Qed.

Lemma differs_by_detection x y z w t l e :
  differs_by [DetectionRecorded x y z w t l] e
    (FillPhotonTotalLength l
       (FillPhotonTime t
          (FillBirthWavelengthDetected w
             (FillPhotonDetectorPositionZ z
                (FillPhotonDetectorPositionY y
                   (FillPhotonDetectorPositionX x (bumped mDetected e))))))).
Proof.
  unfold differs_by, FillPhotonTotalLength, FillPhotonTime,
    FillBirthWavelengthDetected, FillPhotonDetectorPositionZ,
    FillPhotonDetectorPositionY, FillPhotonDetectorPositionX.
  do 4 (split; [reflexivity|]).
  rewrite !Fill_replay, bumped_replay. reflexivity.
Qed.

Lemma bulk_rule_trace sa aStep e e1 :
  (if String.eqb (endproc sa) "OpAbsorption" then
     if String.eqb (GetPhysicalVolumeName (GetPreStepPoint aStep)) "ZnS"
     then CountBulkAbsZnS e else CountBulkAbsSc e
   else Ok e) = Ok e1 ->
  exists bulk, bulk_shape bulk /\ differs_by (olist bulk) e e1.
Proof.
  unfold CountBulkAbsZnS, CountBulkAbsSc. intros Hbulk.
  destruct (String.eqb (endproc sa) "OpAbsorption").
  - destruct (String.eqb (GetPhysicalVolumeName (GetPreStepPoint aStep)) "ZnS");
      apply Count_inv in Hbulk as [-> _].
    + exists (Some (Counted sBulkAbsZnS)).
      split; [intros ev Hev; inversion Hev; auto | apply differs_by_bumped].
    + exists (Some (Counted sBulkAbsSc)).
      split; [intros ev Hev; inversion Hev; auto | apply differs_by_bumped].
  - inversion Hbulk; subst. exists None.
    split; [intros ev Hev; discriminate | apply differs_by_nil].
Qed.

Lemma CheckBoundaryStatus_trace tk sa aStep e e' :
  CheckBoundaryStatus tk sa aStep e = Ok e' ->
  exists bulk term,
    bulk_shape bulk /\ term_shape term /\
    term <> Some (Counted sKilled) /\
    differs_by (olist bulk ++ olist term) e e'.
Proof.
  unfold CheckBoundaryStatus. intros H.
  destruct (find_OpBoundary (GetProcessList (GetTrack aStep))) as [b|];
    [|discriminate].
  apply bind_Ok_inv in H as (e1 & Hbulk & Hswitch).
  apply bulk_rule_trace in Hbulk as (bulk & Hshape & Hdiff).
  exists bulk.
  assert (Hnone : e' = e1 -> exists term, bulk_shape bulk /\ term_shape term /\
    term <> Some (Counted sKilled) /\
    differs_by (olist bulk ++ olist term) e e').
  { intros ->. exists None. split; [assumption|].
    split; [intros ev Hev; discriminate|]. split; [discriminate|].
    simpl. rewrite app_nil_r. assumption. }
  assert (Hone : forall c, c <> sKilled ->
    (c = sFailed \/ c = sAbsorbed \/ c = sEscaped) ->
    e' = bumped (step_counter_member c) e1 ->
    exists term, bulk_shape bulk /\ term_shape term /\
    term <> Some (Counted sKilled) /\
    differs_by (olist bulk ++ olist term) e e').
  { intros c Hk Hc ->. exists (Some (Counted c)). split; [assumption|].
    split; [|split; [congruence|]].
    - intros ev Hev; inversion Hev; subst.
      destruct Hc as [-> | [-> | ->]]; auto.
    - eapply differs_by_app; [eassumption | apply differs_by_bumped]. }
  destruct (GetStepStatus (GetPostStepPoint aStep));
    try (apply Hnone; inversion Hswitch; reflexivity).
  destruct (GetStatus b);
    try (apply Hnone; inversion Hswitch; reflexivity).
  - destruct (theTrack sa) as [t|]; [|discriminate].
    unfold CountFailed, CountAbsorbed in Hswitch.
    destruct (String.eqb (GetNextVolumeName t) "Photocathode");
      apply Count_inv in Hswitch as [-> _].
    + apply (Hone sFailed); [discriminate | auto | reflexivity].
    + apply (Hone sAbsorbed); [discriminate | auto | reflexivity].
  - apply bind_Ok_inv in Hswitch as (e2 & Hcount & Hfill).
    apply Count_inv in Hcount as [-> _].
    destruct (theTrack sa) as [t|]; [|discriminate].
    inversion Hfill; subst e'. clear Hfill.
    exists (Some (DetectionRecorded
              (float_of_double (StepPoint.x (postStep sa)))
              (float_of_double (StepPoint.y (postStep sa)))
              (float_of_double (StepPoint.z (postStep sa)))
              (float_of_double (wavelength tk t))
              (float_of_double
                 (ddiv (GetGlobalTime (GetPostStepPoint aStep)) (ns tk)))
              (float_of_double (GetTrackLength (GetTrack aStep))))).
    split; [assumption|]. split; [|split; [discriminate|]].
    + intros ev Hev; inversion Hev. do 4 right.
      do 6 eexists. reflexivity.
    + eapply differs_by_app; [eassumption|]. apply differs_by_detection.
  - apply Count_inv in Hswitch as [-> _].
    apply (Hone sEscaped); [discriminate | auto | reflexivity].
Qed.

Lemma differs_by_birth a w created e :
  differs_by [BirthRecorded a w created] e
    (count_created created
       (FillBirthWavelength w (FillFiberAngleCreation a e))).
Proof.
  unfold differs_by, FillBirthWavelength, FillFiberAngleCreation.
  destruct created as [c|]; cbn [count_created];
    do 4 (split; [reflexivity|]);
    rewrite ?bumped_replay, !Fill_replay; reflexivity.
Qed.

Lemma photon_birth_trace tk sa aStep e e' :
  photon_birth tk sa aStep e = Ok e' ->
  exists birth, birth_shape birth /\ differs_by (olist birth) e e'.
Proof.
  unfold photon_birth. intros H.
  destruct (stepNo sa =? 1).
  2:{ inversion H; subst. exists None.
      split; [intros ev Hev; discriminate | apply differs_by_nil]. }
  unfold SetPhotonBirthInformation in H.
  destruct (theTrack sa) as [t|]; [|discriminate].
  cbn [bind] in H.
  destruct (GetCreatorProcessName (GetTrack aStep)) as [creator|];
    [|discriminate].
  set (a := float_of_double (ddiv (angle sa) (deg tk))) in *.
  set (w := float_of_double (wavelength tk t)) in *.
  assert (Hgoal : forall created,
    e' = count_created created
           (FillBirthWavelength w (FillFiberAngleCreation a e)) ->
    exists birth, birth_shape birth /\ differs_by (olist birth) e e').
  { intros created ->. exists (Some (BirthRecorded a w created)).
    split; [|apply differs_by_birth].
    intros ev Hev; inversion Hev. eauto. }
  unfold CountScintillation, CountCerenkov, CountScintillationZnS,
    CountScintillationSc, CountCerenkovZnS, CountCerenkovSc in H.
  assert (Hvol : forall c1 c2,
    (e1 <- (if String.eqb (GetPhysicalVolumeName (GetPreStepPoint aStep)) "ZnS"
            then Count (creation_member c1)
                   (FillBirthWavelength w (FillFiberAngleCreation a e))
            else Ok (FillBirthWavelength w (FillFiberAngleCreation a e))) ;;
     if String.eqb (GetPhysicalVolumeName (GetPreStepPoint aStep)) "Scintillator"
     then Count (creation_member c2) e1 else Ok e1) = Ok e' ->
    exists birth, birth_shape birth /\ differs_by (olist birth) e e').
  { intros c1 c2 Hrun.
    destruct (String.eqb_spec
                (GetPhysicalVolumeName (GetPreStepPoint aStep)) "ZnS")
      as [Hv | Hz].
    - rewrite Hv in Hrun. cbn [String.eqb Ascii.eqb Bool.eqb] in Hrun.
      invert_run. apply (Hgoal (Some c1)); reflexivity.
    - destruct (String.eqb (GetPhysicalVolumeName (GetPreStepPoint aStep))
                  "Scintillator"); invert_run.
      + apply (Hgoal (Some c2)); reflexivity.
      + apply (Hgoal None); reflexivity. }
  destruct (String.eqb_spec creator "Scintillation") as [-> | Hs].
  - cbn [String.eqb Ascii.eqb Bool.eqb] in H.
    apply bind_Ok_inv in H as (e1 & Hrun & H).
    inversion H; subst e1.
    exact (Hvol CreatedScintillationZnS CreatedScintillationSc Hrun).
  - cbn [bind] in H.
    destruct (String.eqb creator "Cerenkov").
    + exact (Hvol CreatedCerenkovZnS CreatedCerenkovSc H).
    + inversion H; subst e'. apply (Hgoal None); reflexivity.
Qed.

Lemma optical_part_trace tk sa aStep e trk e' trk' :
  optical_part tk sa aStep e trk = Ok (e', trk') ->
  exists bulk term birth,
    bulk_shape bulk /\ term_shape term /\ birth_shape birth /\
    (particleName sa <> "opticalphoton" ->
       bulk = None /\ term = None /\ birth = None) /\
    (PhotonTrackStatus sa = true -> term <> Some (Counted sKilled)) /\
    differs_by (olist bulk ++ olist term ++ olist birth) e e'.
Proof.
  unfold optical_part. intros H.
  destruct (String.eqb_spec (particleName sa) "opticalphoton") as [Hp|Hp].
  2:{ inversion H; subst. exists None, None, None.
      repeat (split; [intros ev Hev; discriminate|]).
      split; [auto|]. split; [discriminate|]. apply differs_by_nil. }
  apply bind_Ok_inv in H as ([e1 t1] & Hterm & H).
  apply bind_Ok_inv in H as (e2 & Hbirth & H).
  inversion H; subst e' trk'. clear H. cbn [fst snd] in *.
  apply photon_birth_trace in Hbirth as (birth & Hbs & Hbd).
  destruct (PhotonTrackStatus sa); cbn [negb] in Hterm.
  - apply bind_Ok_inv in Hterm as (e3 & Hcbs & H).
    inversion H; subst e3 t1. clear H.
    apply CheckBoundaryStatus_trace in Hcbs
      as (bulk & term & Hbulk & Hts & Hnk & Hd).
    exists bulk, term, birth.
    repeat (split; [assumption|]).
    split; [intros Hn; contradiction|]. split; [auto|].
    rewrite app_assoc. eapply differs_by_app; eassumption.
  - unfold CountKilled in Hterm.
    apply bind_Ok_inv in Hterm as (e3 & Hk & H).
    inversion H; subst e3 t1. clear H.
    apply Count_inv in Hk as [-> _].
    exists None, (Some (Counted sKilled)), birth.
    split; [intros ev Hev; discriminate|].
    split; [intros ev Hev; inversion Hev; auto|].
    split; [assumption|].
    split; [intros Hn; contradiction|]. split; [discriminate|].
    cbn [olist app].
    apply (differs_by_app [Counted sKilled] (olist birth) _ _ _
             (differs_by_bumped sKilled e) Hbd).
Qed.

Lemma UserSteppingAction_trace tk aStep sa e sa' e' t' :
  UserSteppingAction tk aStep sa e = Ok (sa', e', t') ->
  exists bulk term birth,
    bulk_shape bulk /\ term_shape term /\ birth_shape birth /\
    (GetParticleName (GetTrack aStep) <> "opticalphoton" ->
       bulk = None /\ term = None /\ birth = None) /\
    StatsOptical e'
      = replay (olist bulk ++ olist term ++ olist birth) (StatsOptical e).
Proof.
  unfold UserSteppingAction. intros H.
  apply bind_Ok_inv in H as (e1 & Hdet & H).
  apply bind_Ok_inv in H as ([e2 t2] & Hopt & H).
  apply bind_Ok_inv in H as (tot & _ & H).
  inversion H; subst sa' e' t'. clear H. cbn [fst snd].
  apply optical_part_trace in Hopt
    as (bulk & term & birth & Hb & Ht & Hbi & Hnp & _ & Hd).
  exists bulk, term, birth. do 3 (split; [assumption|]).
  split; [exact Hnp|].
  destruct Hd as (_ & _ & _ & _ & ->).
  rewrite (detector_volumes_optical _ _ _ Hdet).
  destruct (initial_beam_info_frame (prepare_variables tk aStep sa) e)
    as (-> & _). reflexivity.
Qed.

Lemma replay_preserves (P : RunTallyOptical -> Prop) :
  (forall ev so, P so -> P (replay_event ev so)) ->
  forall evs so, P so -> P (replay evs so).
Proof.
  intros Hev evs. induction evs as [|ev evs IH]; intros so Hso; [exact Hso|].
  apply IH, Hev, Hso.
Qed.

Lemma stepped_invariant tk (P : RunTallyOptical -> Prop) :
  P RunTallyOptical_zero ->
  (forall ev so, P so -> P (replay_event ev so)) ->
  forall e, stepped tk e -> P (StatsOptical e).
Proof.
  intros Hzero Hev e Hs. induction Hs as [e | aStep sa e sa' e' t' _ IH Hrun].
  - exact Hzero.
  - apply UserSteppingAction_trace in Hrun
      as (bulk & term & birth & _ & _ & _ & _ & ->).
    apply replay_preserves; assumption.
Qed.

Lemma length_snoc {A} (l : list A) (a : A) :
  List.length (l ++ [a]) = S (List.length l).
Proof. rewrite length_app. simpl. lia. Qed.

Lemma detections_aligned_event ev so :
  detections_aligned so -> detections_aligned (replay_event ev so).
Proof.
  unfold detections_aligned. destruct so. destruct ev as [c | x y z w t l | a w c].
  - destruct c; exact (fun H => H).
  - cbn. rewrite !length_snoc. intros (H1 & H2 & H3 & H4 & H5 & H6).
    repeat split; lia.
  - destruct c as [c|]; [destruct c|]; exact (fun H => H).
Qed.

Lemma births_aligned_event ev so :
  births_aligned so -> births_aligned (replay_event ev so).
Proof.
  unfold births_aligned, created_total. destruct so.
  destruct ev as [c | x y z w t l | a w c].
  - destruct c; exact (fun H => H).
  - exact (fun H => H).
  - destruct c as [c|]; [destruct c|]; cbn; rewrite !length_snoc;
      intros (H1 & H2 & H3 & H4 & H5 & H6); repeat split; lia.
Qed.

Lemma unwritten_members_event ev so :
  unwritten_members_reset so -> unwritten_members_reset (replay_event ev so).
Proof.
  unfold unwritten_members_reset, derived_are_reset. destruct so.
  destruct ev as [c | x y z w t l | a w c].
  - destruct c; exact (fun H => H).
  - exact (fun H => H).
  - destruct c as [c|]; [destruct c|]; exact (fun H => H).
Qed.

Lemma UserSteppingAction_inv tk aStep sa e sa' e' t' :
  UserSteppingAction tk aStep sa e = Ok (sa', e', t') ->
  let sa1 := prepare_variables tk aStep sa in
  exists e1 bulk term birth,
    detector_volumes sa1 (initial_beam_info sa1 e) = Ok e1 /\
    bulk_shape bulk /\ term_shape term /\ birth_shape birth /\
    (GetParticleName (GetTrack aStep) <> "opticalphoton" ->
       bulk = None /\ term = None /\ birth = None) /\
    differs_by (olist bulk ++ olist term ++ olist birth) e1 e'.
Proof.
  unfold UserSteppingAction. intros H. cbv zeta.
  apply bind_Ok_inv in H as (e1 & Hdet & H).
  apply bind_Ok_inv in H as ([e2 t2] & Hopt & H).
  apply bind_Ok_inv in H as (tot & _ & H).
  inversion H; subst sa' e' t'. clear H. cbn [fst snd].
  apply optical_part_trace in Hopt
    as (bulk & term & birth & Hb & Ht & Hbi & Hnp & _ & Hd).
  exists e1, bulk, term, birth. split; [exact Hdet|].
  do 3 (split; [assumption|]). split; [exact Hnp | exact Hd].
Qed.

Lemma detector_volumes_frame sa e e' :
  detector_volumes sa e = Ok e' ->
  StatsInput e' = StatsInput e /\ Air_Index e' = Air_Index e /\
  StatsOptical e' = StatsOptical e /\
  (particleName sa = "opticalphoton" -> e' = e) /\
  (volumeNamePreStep sa <> "ZnS" -> StatsZnS e' = StatsZnS e) /\
  (volumeNamePreStep sa <> "Scintillator" ->
     StatsScintillator e' = StatsScintillator e) /\
  ((exists it, ScMap_find ScMap (volumeNamePreStep sa) = Some it /\
      particleName sa <> "opticalphoton" /\
      UpdateSc_from sa (tally_of it e) = Ok (tally_of it e') ) \/ e' = e).
Proof.
  unfold detector_volumes, UpdateSc_from. intros H.
  destruct (ScMap_find ScMap (volumeNamePreStep sa)) as [it|] eqn:Hfind.
  2:{ inversion H; subst. repeat split; auto. }
  destruct (String.eqb_spec (particleName sa) "opticalphoton") as [Hp|Hp];
    cbn [negb] in H.
  { inversion H; subst. repeat split; auto. }
  apply bind_Ok_inv in H as (sc & Hsc & H). inversion H; subst e'. clear H.
  unfold ScMap, ScMap_find in Hfind.
  destruct (String.eqb_spec "ZnS" (volumeNamePreStep sa)) as [Hz|Hz].
  - inversion Hfind; subst it. cbn [store_tally tally_of] in *.
    repeat split; try reflexivity; try congruence.
    left. exists GetZnS. repeat split; assumption.
  - destruct (String.eqb_spec "Scintillator" (volumeNamePreStep sa)) as [Hs|Hs];
      [|discriminate].
    inversion Hfind; subst it. cbn [store_tally tally_of] in *.
    repeat split; try reflexivity; try congruence.
    left. exists GetScintillator. repeat split; assumption.
Qed.

Lemma initial_beam_info_input sa e :
  Air_Index (initial_beam_info sa e) = Air_Index e /\
  (~ (parentID sa = 0 /\ stepNo sa = 1) ->
   StatsInput (initial_beam_info sa e) = StatsInput e).
Proof.
  unfold initial_beam_info.
  destruct (Z.eqb_spec (parentID sa) 0) as [Hp|Hp];
    destruct (Z.eqb_spec (stepNo sa) 1) as [Hs|Hs]; cbn [andb];
    split; try reflexivity; intros Hn; try reflexivity.
  exfalso; apply Hn; split; assumption.
Qed.

Lemma UpdateSc_consistent :
  forall tally x y z en dep en_post parent pid vol ts tr tally',
    UpdateSc tally x y z en dep en_post parent pid vol ts tr = Ok tally' ->
    tally_consistent tally -> tally_consistent tally'.
Proof.
  intros tally x y z en dep en_post parent pid vol ts tr tally' H.
  unfold UpdateSc in H. unfold tally_consistent.
  destruct tally as [xs ys zs pars pids ens acc ev tot fl].
  cbn [RunTallySc.flag RunTallySc.x_entrance RunTallySc.y_entrance
       RunTallySc.z_entrance RunTallySc.parentID RunTallySc.particleID
       RunTallySc.energy RunTallySc.total_deposited_energy
       RunTallySc.deposited_energy] in *.
  intros (H1 & H2 & H3 & H4 & H5 & H6 & H7).
  destruct fl; cbn [negb] in H.
  - cbn [bind] in H.
    destruct (String.eqb vol "Holder" || eq_zero en_post);
      inversion H; subst tally'; clear H; cbn;
      rewrite ?length_snoc; repeat split; try lia; try reflexivity;
      intros; discriminate.
  - destruct (int_of_float parent) as [p|]; [|discriminate].
    cbn [bind] in H.
    destruct (String.eqb vol "Holder" || eq_zero en_post);
      inversion H; subst tally'; clear H;
      cbn [RunTallySc.flag RunTallySc.x_entrance RunTallySc.y_entrance
       RunTallySc.z_entrance RunTallySc.parentID RunTallySc.particleID
       RunTallySc.energy RunTallySc.total_deposited_energy
       RunTallySc.deposited_energy RunTallySc.AddXEntrance
       RunTallySc.AddYEntrance RunTallySc.AddZEntrance RunTallySc.AddParentID
       RunTallySc.AddParticleID RunTallySc.AddEnergy RunTallySc.ActivateFlag
       RunTallySc.AddDepositedEnergy RunTallySc.AddDepositedEnergyEvent
       RunTallySc.AddTotalDepositedEnergy RunTallySc.ResetDepositedEnergy
       RunTallySc.ResetFlag RunTallySc.set_flag RunTallySc.set_deposited_energy
       RunTallySc.GetDepositedEnergy];
      rewrite ?length_snoc; repeat split; try lia; try reflexivity;
      intros; discriminate.
Qed.

Lemma detector_volumes_consistent sa e e' :
  detector_volumes sa e = Ok e' ->
  tally_consistent (StatsZnS e) /\ tally_consistent (StatsScintillator e) ->
  tally_consistent (StatsZnS e') /\ tally_consistent (StatsScintillator e').
Proof.
  unfold detector_volumes. intros H [Hz Hs].
  destruct (ScMap_find ScMap (volumeNamePreStep sa)) as [it|];
    [|inversion H; subst; split; assumption].
  destruct (negb (String.eqb (particleName sa) "opticalphoton"));
    [|inversion H; subst; split; assumption].
  apply bind_Ok_inv in H as (sc & Hsc & H). inversion H; subst e'. clear H.
  destruct it; cbn [store_tally tally_of] in *; split; try assumption;
    eapply UpdateSc_consistent; eassumption.
Qed.

Lemma bulk_effect bulk so :
  bulk_shape bulk ->
  (forall m, get_int m (replay (olist bulk) so) = get_int m so \/
             ((m = mBulkAbsZnS \/ m = mBulkAbsSc) /\
              get_int m (replay (olist bulk) so) = get_int m so + 1)) /\
  (forall m, get_fvec m (replay (olist bulk) so) = get_fvec m so) /\
  (forall m, get_ivec m (replay (olist bulk) so) = get_ivec m so) /\
  (forall m, get_float m (replay (olist bulk) so) = get_float m so).
Proof.
  intros Hb. destruct bulk as [ev|]; [|repeat split; auto].
  destruct (Hb ev eq_refl) as [-> | ->]; destruct so;
    (split; [intros m; destruct m; cbn; auto|]);
    repeat split; intros m; destruct m; reflexivity.
Qed.

Ltac use_nil H :=
  lazymatch goal with
  | |- exists l, get_fvec ?m _ = _ /\ _ => exact (H m)
  end.

Lemma term_effect term so :
  term_shape term ->
  (forall m, get_int m (replay (olist term) so) = get_int m so \/
             ((m = mKilled \/ m = mFailed \/ m = mAbsorbed \/ m = mEscaped \/
               m = mDetected) /\
              get_int m (replay (olist term) so) = get_int m so + 1)) /\
  (forall m, exists l, get_fvec m (replay (olist term) so) = get_fvec m so ++ l /\
     (List.length l <= 1)%nat /\
     (l <> [] -> m <> mAngle_creation /\ m <> mBirthWavelength)) /\
  (forall m, get_ivec m (replay (olist term) so) = get_ivec m so) /\
  (forall m, get_float m (replay (olist term) so) = get_float m so).
Proof.
  intros Ht. destruct term as [ev|].
  2:{ repeat split; auto. intros m. exists []. rewrite app_nil_r.
      repeat split; auto; congruence. }
  assert (Hnil : forall m, exists l : list float,
            get_fvec m so = get_fvec m so ++ l /\ (List.length l <= 1)%nat /\
            (l <> [] -> m <> mAngle_creation /\ m <> mBirthWavelength)).
  { intros m. exists []. rewrite app_nil_r. repeat split; auto; congruence. }
  destruct (Ht ev eq_refl)
    as [-> | [-> | [-> | [-> | (x & y & z & w & t & l & ->)]]]];
    destruct so;
    (split; [intros m; destruct m; cbn; auto 10|]);
    (split; [|split; intros m; destruct m; reflexivity]);
    try (intros m; destruct m; use_nil Hnil).
  intros m; destruct m; try use_nil Hnil; cbn;
    eexists [_]; (split; [reflexivity|]); (split; [simpl; lia|]);
    intros _; split; discriminate.
Qed.

Lemma birth_effect birth so :
  birth_shape birth ->
  (forall m, get_int m (replay (olist birth) so) = get_int m so \/
             ((m = mScintillationZnS \/ m = mScintillationSc \/
               m = mCerenkovZnS \/ m = mCerenkovSc) /\
              get_int m (replay (olist birth) so) = get_int m so + 1)) /\
  (forall m, exists l, get_fvec m (replay (olist birth) so) = get_fvec m so ++ l /\
     (List.length l <= 1)%nat /\
     (l <> [] -> m = mAngle_creation \/ m = mBirthWavelength)) /\
  (forall m, get_ivec m (replay (olist birth) so) = get_ivec m so) /\
  (forall m, get_float m (replay (olist birth) so) = get_float m so).
Proof.
  intros Hb. destruct birth as [ev|].
  2:{ repeat split; auto. intros m. exists []. rewrite app_nil_r.
      repeat split; auto; congruence. }
  assert (Hnil : forall m, exists l : list float,
            get_fvec m so = get_fvec m so ++ l /\ (List.length l <= 1)%nat /\
            (l <> [] -> m = mAngle_creation \/ m = mBirthWavelength)).
  { intros m. exists []. rewrite app_nil_r. repeat split; auto; congruence. }
  destruct (Hb ev eq_refl) as (a & w & c & ->).
  destruct so; destruct c as [c|]; [destruct c|];
    (split; [intros m; destruct m; cbn; auto 10|]);
    (split; [|split; intros m; destruct m; reflexivity]);
    intros m; destruct m; try use_nil Hnil; cbn;
    eexists [_]; (split; [reflexivity|]); (split; [simpl; lia|]);
    intros _; auto.
Qed.

Lemma stepped_detections_aligned tk e :
  stepped tk e -> detections_aligned (StatsOptical e).
Proof.
  apply stepped_invariant.
  - repeat split.
  - apply detections_aligned_event.
Qed.

Lemma stepped_births_aligned tk e :
  stepped tk e -> births_aligned (StatsOptical e).
Proof.
  apply stepped_invariant.
  - unfold births_aligned, created_total. cbn. repeat split; lia.
  - apply births_aligned_event.
Qed.

Lemma stepped_unwritten_reset tk e :
  stepped tk e -> unwritten_members_reset (StatsOptical e).
Proof.
  apply stepped_invariant.
  - repeat split.
  - apply unwritten_members_event.
Qed.

Lemma stepped_tallies_consistent tk e :
  stepped tk e ->
  tally_consistent (StatsZnS e) /\ tally_consistent (StatsScintillator e).
Proof.
  intros Hs. induction Hs as [e | aStep sa e sa' e' t' _ IH Hrun].
  - split; repeat split.
  - apply UserSteppingAction_inv in Hrun
      as (e1 & bulk & term & birth & Hdet & _ & _ & _ & _ & Hd).
    destruct Hd as (_ & -> & -> & _).
    apply (detector_volumes_consistent _ _ _ Hdet).
    destruct (initial_beam_info_frame (prepare_variables tk aStep sa) e)
      as (_ & -> & ->).
    exact IH.
Qed.

(** X1.  Within an event, whatever steps the stepping action has handled,
    the Detected counter is the number of elements of the detector position
    sequence x, and the sequences of the detector positions y and z, of the
    detected birth wavelengths, of the times and of the total lengths have
    that same number of elements. *)
Theorem detections_stay_aligned tk e :
  stepped tk e -> detections_aligned (StatsOptical e).
Proof. exact (stepped_detections_aligned tk e). Qed.

Lemma detections_stay_aligned_witness :
  exists sa' e' t',
    UserSteppingAction Samples.toolkit Samples.detection_step
      SteppingAction_initial Samples.fresh = Ok (sa', e', t') /\
    Detected (StatsOptical e') = 1 /\
    detections_aligned (StatsOptical e').
Proof.
  eexists. eexists. eexists.
  split; [vm_compute; reflexivity|]. split; [reflexivity|].
  apply (detections_stay_aligned Samples.toolkit).
  exact (stepped_step Samples.toolkit Samples.detection_step
           SteppingAction_initial Samples.fresh _ _ _
           (stepped_begin Samples.toolkit Samples.blank) eq_refl).
Defined.

(** X2.  Within an event the creation angle and birth wavelength sequences
    have the same number of elements, the four creation counters are never
    negative, and their sum never exceeds that number: every counted
    creation has its birth record. *)
Theorem births_stay_aligned tk e :
  stepped tk e -> births_aligned (StatsOptical e).
Proof. exact (stepped_births_aligned tk e). Qed.

Lemma births_stay_aligned_witness :
  exists sa' e' t',
    UserSteppingAction Samples.toolkit Samples.born_in_scintillator
      SteppingAction_initial Samples.fresh = Ok (sa', e', t') /\
    ScintillationSc (StatsOptical e') = 1 /\
    births_aligned (StatsOptical e').
Proof.
  eexists. eexists. eexists.
  split; [vm_compute; reflexivity|]. split; [reflexivity|].
  apply (births_stay_aligned Samples.toolkit).
  exact (stepped_step Samples.toolkit Samples.born_in_scintillator
           SteppingAction_initial Samples.fresh _ _ _
           (stepped_begin Samples.toolkit Samples.blank) eq_refl).
Defined.

(** X3.  The stepping action never writes the exit light positions, the
    detection angles, the Rayleigh, total-reflection and wrap-reflection
    counts, the final states, nor the derived members (incident energy,
    deposits, generated totals, bulk-absorbed total): within an event they
    keep the values of the reset. *)
Theorem unwritten_members_stay_reset tk e :
  stepped tk e -> unwritten_members_reset (StatsOptical e).
Proof. exact (stepped_unwritten_reset tk e). Qed.

Lemma unwritten_members_stay_reset_witness :
  exists sa' e' t',
    UserSteppingAction Samples.toolkit Samples.detection_step
      SteppingAction_initial Samples.fresh = Ok (sa', e', t') /\
    TotalLength (StatsOptical e') <> [] /\
    unwritten_members_reset (StatsOptical e').
Proof.
  eexists. eexists. eexists.
  split; [vm_compute; reflexivity|]. split; [discriminate|].
  apply (unwritten_members_stay_reset Samples.toolkit).
  exact (stepped_step Samples.toolkit Samples.detection_step
           SteppingAction_initial Samples.fresh _ _ _
           (stepped_begin Samples.toolkit Samples.blank) eq_refl).
Defined.

(** X4.  One step of the stepping action never lowers a counter of the
    optical record and raises it by at most one; it appends at most one
    element to each sequence of floats and leaves what was recorded before
    in place; the integer sequences and the float members are not
    touched. *)
Theorem step_counts_at_most_once tk aStep sa e sa' e' t' :
  UserSteppingAction tk aStep sa e = Ok (sa', e', t') ->
  let so := StatsOptical e in
  let so' := StatsOptical e' in
  (forall m, get_int m so <= get_int m so' <= get_int m so + 1) /\
  (forall m, exists l,
     get_fvec m so' = get_fvec m so ++ l /\ (List.length l <= 1)%nat) /\
  (forall m, get_ivec m so' = get_ivec m so) /\
  (forall m, get_float m so' = get_float m so).
Proof.
  intros H. cbv zeta.
  apply UserSteppingAction_trace in H
    as (bulk & term & birth & Hb & Ht & Hr & _ & ->).
  rewrite !replay_app.
  set (so := StatsOptical e).
  destruct (bulk_effect bulk so Hb) as (Bi & Bf & Bv & Bx).
  set (so1 := replay (olist bulk) so) in *.
  destruct (term_effect term so1 Ht) as (Ti & Tf & Tv & Tx).
  set (so2 := replay (olist term) so1) in *.
  destruct (birth_effect birth so2 Hr) as (Ri & Rf & Rv & Rx).
  set (so3 := replay (olist birth) so2) in *.
  split; [|split; [|split]].
  - intros m.
    destruct (Bi m) as [B | [Bm B]]; destruct (Ti m) as [T | [Tm T]];
      destruct (Ri m) as [R | [Rm R]]; rewrite R, T, B; try lia;
      exfalso; intuition congruence.
  - intros m. destruct (Tf m) as (l1 & T & Tl & Tm).
    destruct (Rf m) as (l2 & R & Rl & Rm).
    exists (l1 ++ l2). rewrite R, T, Bf, <- app_assoc. split; [reflexivity|].
    destruct l1 as [|a1 l1]; [exact Rl|].
    destruct l2 as [|a2 l2]; [rewrite app_nil_r; exact Tl|].
    exfalso.
    destruct (Tm ltac:(discriminate)) as [N1 N2].
    destruct (Rm ltac:(discriminate)) as [E | E]; contradiction.
  - intros m. rewrite Rv, Tv, Bv. reflexivity.
  - intros m. rewrite Rx, Tx, Bx. reflexivity.
Qed.

Lemma step_counts_at_most_once_witness :
  exists sa' e' t',
    UserSteppingAction Samples.toolkit Samples.bulk_and_detection_step
      SteppingAction_initial Samples.fresh = Ok (sa', e', t') /\
    BulkAbsSc (StatsOptical e') = 1 /\ Detected (StatsOptical e') = 1 /\
    forall m, get_int m (StatsOptical Samples.fresh)
              <= get_int m (StatsOptical e')
              <= get_int m (StatsOptical Samples.fresh) + 1.
Proof.
  eexists. eexists. eexists.
  split; [vm_compute; reflexivity|]. split; [reflexivity|].
  split; [reflexivity|].
  exact (proj1 (step_counts_at_most_once Samples.toolkit
                  Samples.bulk_and_detection_step SteppingAction_initial
                  Samples.fresh _ _ _ eq_refl)).
Defined.

(** X5.  A step changes only the records it is about.  The air index is
    never changed; the input record only on the first step of a primary;
    a step of an optical photon leaves both detector tallies as they are; a
    step of another particle leaves the optical record as it is; and a
    tally is left alone by every step that does not start in its volume. *)
Theorem step_touches_its_own_record tk aStep sa e sa' e' t' :
  UserSteppingAction tk aStep sa e = Ok (sa', e', t') ->
  let trk := GetTrack aStep in
  let pre := GetPhysicalVolumeName (GetPreStepPoint aStep) in
  Air_Index e' = Air_Index e /\
  (~ (GetParentID trk = 0 /\ GetCurrentStepNumber trk = 1) ->
     StatsInput e' = StatsInput e) /\
  (GetParticleName trk = "opticalphoton" ->
     StatsZnS e' = StatsZnS e /\ StatsScintillator e' = StatsScintillator e) /\
  (GetParticleName trk <> "opticalphoton" -> StatsOptical e' = StatsOptical e) /\
  (pre <> "ZnS" -> StatsZnS e' = StatsZnS e) /\
  (pre <> "Scintillator" -> StatsScintillator e' = StatsScintillator e).
Proof.
  intros H. cbv zeta.
  apply UserSteppingAction_inv in H
    as (e1 & bulk & term & birth & Hdet & _ & _ & _ & Hnp & Hd).
  destruct Hd as (Hi & Hz & Hs & Ha & Ho).
  apply detector_volumes_frame in Hdet
    as (Hi1 & Ha1 & Ho1 & Hph & Hz1 & Hs1 & _).
  set (sa1 := prepare_variables tk aStep sa) in *.
  destruct (initial_beam_info_input sa1 e) as (Ha0 & Hi0).
  destruct (initial_beam_info_frame sa1 e) as (Ho0 & Hz0 & Hs0).
  split; [congruence|]. split; [intros Hn; rewrite Hi, Hi1; exact (Hi0 Hn)|].
  split.
  { intros Hp. rewrite Hz, Hs, (Hph Hp). split; assumption. }
  split.
  { intros Hp. destruct (Hnp Hp) as (-> & -> & ->). rewrite Ho, Ho1. exact Ho0. }
  split.
  - intros Hv. rewrite Hz, (Hz1 Hv). exact Hz0.
  - intros Hv. rewrite Hs, (Hs1 Hv). exact Hs0.
Qed.

Lemma step_touches_its_own_record_witness :
  exists sa' e' t',
    UserSteppingAction Samples.toolkit Cases.alpha_in_ZnS
      SteppingAction_initial Samples.fresh = Ok (sa', e', t') /\
    RunTallySc.energy (StatsZnS e') <> [] /\
    StatsInput e' = StatsInput Samples.fresh /\
    StatsOptical e' = StatsOptical Samples.fresh /\
    StatsScintillator e' = StatsScintillator Samples.fresh.
Proof.
  eexists. eexists. eexists.
  split; [vm_compute; reflexivity|]. split; [discriminate|].
  destruct (step_touches_its_own_record Samples.toolkit Cases.alpha_in_ZnS
              SteppingAction_initial Samples.fresh _ _ _ eq_refl)
    as (_ & Hin & _ & Hopt & _ & Hsc).
  split; [apply Hin; cbn; intros [_ H]; discriminate H|].
  split; [apply Hopt; discriminate | apply Hsc; discriminate].
Defined.

(** X6.  Within an event both detector tallies stay consistent: the six
    entry sequences have one length, there is one episode total per entry
    except for the entry of an episode still open, and the episode
    accumulator is zero while no episode is open. *)
Theorem tallies_stay_consistent tk e :
  stepped tk e ->
  tally_consistent (StatsZnS e) /\ tally_consistent (StatsScintillator e).
Proof. exact (stepped_tallies_consistent tk e). Qed.

Lemma tallies_stay_consistent_witness :
  exists sa' e' t',
    UserSteppingAction Samples.toolkit Cases.alpha_in_ZnS
      SteppingAction_initial Samples.fresh = Ok (sa', e', t') /\
    List.length (RunTallySc.total_deposited_energy (StatsZnS e')) = 1%nat /\
    tally_consistent (StatsZnS e') /\ tally_consistent (StatsScintillator e').
Proof.
  eexists. eexists. eexists.
  split; [vm_compute; reflexivity|]. split; [reflexivity|].
  apply (tallies_stay_consistent Samples.toolkit).
  exact (stepped_step Samples.toolkit Cases.alpha_in_ZnS
           SteppingAction_initial Samples.fresh _ _ _
           (stepped_begin Samples.toolkit Samples.blank) eq_refl).
Defined.

(** X7.  The creation angle recorded on the first step of an optical
    photon is computed from the positions of the step the stepping action
    handled just before (whatever particle made it) and from the length of
    the photon's own step: the arc cosine of the difference of the previous
    post-step and pre-step x over the current step length, in degrees,
    narrowed to single precision. *)
Theorem creation_angle_from_previous_step tk s1 s2 sa0 e0 sa1 e1 t1 e sa2 e2 t2 :
  UserSteppingAction tk s1 sa0 e0 = Ok (sa1, e1, t1) ->
  UserSteppingAction tk s2 sa1 e = Ok (sa2, e2, t2) ->
  GetParticleName (GetTrack s2) = "opticalphoton" ->
  GetCurrentStepNumber (GetTrack s2) = 1 ->
  let previous_pre := Hep3Vector_div tk (GetPosition (GetPreStepPoint s1)) (mm tk) in
  let previous_post := Hep3Vector_div tk (GetPosition (GetPostStepPoint s1)) (mm tk) in
  Angle_creation (StatsOptical e2)
    = Angle_creation (StatsOptical e)
        ++ [float_of_double
              (ddiv (acos tk (ddiv (dsub (vx previous_post) (vx previous_pre))
                                   (GetStepLength s2)))
                    (deg tk))].
Proof.
  intros H1 H2 Hp Hn. cbv zeta.
  assert (Hsa1 : preStep sa1 = preStep (prepare_variables tk s1 sa0) /\
                 postStep sa1 = postStep (prepare_variables tk s1 sa0)).
  { unfold UserSteppingAction in H1.
    apply bind_Ok_inv in H1 as (x1 & _ & H1).
    apply bind_Ok_inv in H1 as (x2 & _ & H1).
    apply bind_Ok_inv in H1 as (x3 & _ & H1).
    inversion H1; subst. split; reflexivity. }
  destruct Hsa1 as [Hpre Hpost].
  unfold UserSteppingAction in H2.
  apply bind_Ok_inv in H2 as (x1 & Hdet & H2).
  apply bind_Ok_inv in H2 as ([x2 tr2] & Hopt & H2).
  apply bind_Ok_inv in H2 as (x3 & _ & H2).
  inversion H2; subst sa2 e2 t2. clear H2. cbn [fst snd].
  unfold optical_part in Hopt.
  replace (particleName (prepare_variables tk s2 sa1)) with "opticalphoton"
    in Hopt by (symmetry; exact Hp).
  cbn [String.eqb Ascii.eqb Bool.eqb] in Hopt.
  apply bind_Ok_inv in Hopt as ([x4 tr4] & Hterm & Hopt).
  apply bind_Ok_inv in Hopt as (x5 & Hbirth & Hopt).
  inversion Hopt; subst x2 tr2. clear Hopt. cbn [fst snd] in Hbirth.
  assert (Hx4 : Angle_creation (StatsOptical x4) = Angle_creation (StatsOptical e)).
  { assert (Hx1 : StatsOptical x1 = StatsOptical e).
    { rewrite (detector_volumes_optical _ _ _ Hdet).
      apply initial_beam_info_frame. }
    rewrite <- Hx1.
    destruct (negb (PhotonTrackStatus (prepare_variables tk s2 sa1))).
    - apply bind_Ok_inv in Hterm as (x6 & Hk & Hterm).
      inversion Hterm; subst x4 tr4.
      apply Count_inv in Hk as [-> _].
      exact (bumped_fvec mKilled mAngle_creation x1).
    - apply bind_Ok_inv in Hterm as (x6 & Hc & Hterm).
      inversion Hterm; subst x4 tr4.
      apply CheckBoundaryStatus_trace in Hc
        as (bulk & term & Hb & Ht & _ & (_ & _ & _ & _ & ->)).
      rewrite replay_app.
      destruct (bulk_effect bulk (StatsOptical x1) Hb) as (_ & Bf & _).
      destruct (term_effect term (replay (olist bulk) (StatsOptical x1)) Ht)
        as (_ & Tf & _).
      destruct (Tf mAngle_creation) as (l & Hl & _ & Hm).
      change (get_fvec mAngle_creation
                (replay (olist term) (replay (olist bulk) (StatsOptical x1)))
              = get_fvec mAngle_creation (StatsOptical x1)).
      rewrite Hl, Bf.
      destruct l as [|a l]; [apply app_nil_r|].
      destruct (Hm ltac:(discriminate)) as [N _]. contradiction. }
  apply photon_birth_effect in Hbirth
    as (_ & _ & _ & _ & _ & _ & _ & _ & Hone).
  destruct (Hone Hn) as (t & creator & _ & _ & Ha & _).
  rewrite Ha, Hx4. cbn [angle prepare_variables]. rewrite Hpre, Hpost.
  reflexivity.
Qed.

Lemma creation_angle_from_previous_step_witness :
  exists sa1 e1 t1 sa2 e2 t2,
    UserSteppingAction Samples.toolkit Cases.alpha_in_ZnS
      SteppingAction_initial Samples.fresh = Ok (sa1, e1, t1) /\
    UserSteppingAction Samples.toolkit Samples.born_in_scintillator sa1 e1
      = Ok (sa2, e2, t2) /\
    Angle_creation (StatsOptical e2) = [Samples.f 90].
Proof.
  eexists. eexists. eexists. eexists. eexists. eexists.
  match goal with
  | |- ?first /\ _ => assert (H1 : first) by (vm_compute; reflexivity)
  end.
  match goal with
  | |- _ /\ ?second /\ _ => assert (H2 : second) by (vm_compute; reflexivity)
  end.
  split; [exact H1|]. split; [exact H2|].
  exact (creation_angle_from_previous_step Samples.toolkit
           Cases.alpha_in_ZnS Samples.born_in_scintillator
           SteppingAction_initial Samples.fresh _ _ _ _ _ _ _
           H1 H2 eq_refl eq_refl).
Defined.

(** ** The session of [main] *)

Lemma append_assoc (a b c : string) :
  ((a ++ b) ++ c = a ++ (b ++ c))%string.
Proof. induction a as [|ch a IH]; simpl; [reflexivity | rewrite IH; reflexivity]. Qed.

Lemma append_nil_r (a : string) : (a ++ "")%string = a.
Proof. induction a as [|ch a IH]; simpl; [reflexivity | rewrite IH; reflexivity]. Qed.

Lemma size_t_succ_small i : (i < SIZE_MAX)%N -> size_t_succ i = (i + 1)%N.
Proof.
  intros H. unfold size_t_succ. apply N.mod_small. lia.
Qed.

Lemma concat_cons_empty (a : string) (l : list string) :
  String.concat "" (a :: l) = (a ++ String.concat "" l)%string.
Proof.
  destruct l as [|b l]; simpl; [rewrite append_nil_r; reflexivity | reflexivity].
Qed.

Lemma merge_loop_closed outputFile Ncores :
  (Ncores < SIZE_MAX)%N ->
  forall count first fuel mergeCommand,
    (first + count = S (N.to_nat Ncores))%nat ->
    (count < fuel)%nat ->
    merge_loop fuel (N.of_nat first) Ncores outputFile mergeCommand
      = Some (mergeCommand ++ merge_inputs outputFile first count)%string.
Proof.
  intros Hmax count. induction count as [|count IH];
    intros first fuel cmd Hsum Hfuel;
    (destruct fuel as [|fuel]; [lia|]); cbn [merge_loop].
  - destruct (N.leb_spec (N.of_nat first) Ncores) as [Hle|Hgt]; [lia|].
    unfold merge_inputs, indices. simpl. rewrite append_nil_r. reflexivity.
  - destruct (N.leb_spec (N.of_nat first) Ncores) as [Hle|Hgt]; [|lia].
    rewrite size_t_succ_small by lia.
    replace (N.of_nat first + 1)%N with (N.of_nat (S first)) by lia.
    rewrite (IH (S first) fuel) by lia.
    unfold merge_inputs, indices. cbn [seq map].
    rewrite concat_cons_empty. unfold thread_file.
    rewrite !append_assoc. reflexivity.
Qed.

Lemma remove_loop_closed outputFile Ncores :
  (Ncores < SIZE_MAX)%N ->
  forall count first fuel applied,
    (first + count = S (N.to_nat Ncores))%nat ->
    (count < fuel)%nat ->
    remove_loop fuel (N.of_nat first) Ncores outputFile applied
      = Some (applied ++ remove_commands outputFile first count).
Proof.
  intros Hmax count. induction count as [|count IH];
    intros first fuel applied Hsum Hfuel;
    (destruct fuel as [|fuel]; [lia|]); cbn [remove_loop].
  - destruct (N.leb_spec (N.of_nat first) Ncores) as [Hle|Hgt]; [lia|].
    unfold remove_commands, indices. simpl. rewrite app_nil_r. reflexivity.
  - destruct (N.leb_spec (N.of_nat first) Ncores) as [Hle|Hgt]; [|lia].
    rewrite size_t_succ_small by lia.
    replace (N.of_nat first + 1)%N with (N.of_nat (S first)) by lia.
    rewrite (IH (S first) fuel) by lia.
    unfold remove_commands, indices. cbn [seq map].
    rewrite <- app_assoc. reflexivity.
Qed.

Lemma session_batch_closed fuel argv s :
  5 <= Z.of_nat (List.length argv) ->
  flag_MT s = true ->
  (Ncores s < SIZE_MAX)%N ->
  (S (N.to_nat (Ncores s)) < fuel)%nat ->
  let n := N.to_nat (Ncores s) in
  session fuel argv s
    = Some ([ApplyCommand ("/control/execute " ++ nth 3 argv "")%string;
             ApplyCommand ("/run/beamOn " ++ nth 2 argv "")%string;
             ApplyCommand ("/control/shell hadd -k -f " ++ outputFile s ++ ".root"
                           ++ merge_inputs (outputFile s) 1 n)%string]
            ++ remove_commands (outputFile s) 0 (S n)
            ++ [ApplyCommand ("/control/shell mv " ++ outputFile s
                              ++ ".root ../Resultats")%string]).
Proof.
  intros Hargc Hmt Hmax Hfuel. cbv zeta. unfold session.
  destruct (Z.eqb_spec (Z.of_nat (List.length argv)) 2) as [E|_]; [lia|].
  replace (Z.of_nat (List.length argv) >=? 5) with true
    by (symmetry; rewrite Z.geb_leb; apply Z.leb_le; exact Hargc).
  rewrite Hmt.
  rewrite (merge_loop_closed (outputFile s) (Ncores s) Hmax
             (N.to_nat (Ncores s)) 1 fuel) by lia.
  rewrite (remove_loop_closed (outputFile s) (Ncores s) Hmax
             (S (N.to_nat (Ncores s))) 0 fuel) by lia.
  rewrite !append_assoc, <- !app_assoc. reflexivity.
Qed.

(** X8.  When [main] is started in batch mode with ON as its fifth
    argument and a second argument that [std::stoul] converts, the number
    of threads is the sixth argument when there are exactly six arguments
    and the number of hardware threads otherwise; for a number k below
    SIZE_MAX (and enough fuel) the set-up is reached, the run manager is
    handed k narrowed to [G4int] (k itself when k is below 2^31), the two
    loops end, and the UI manager is asked, in this order: to execute the
    macro, to run the beam, to merge into the output file the files of the
    threads 1 to k in increasing order, to remove the files of the threads
    0 to k, and to move the output file. *)
Theorem main_merges_one_file_per_thread
    fatal_aborts stoul hardware_concurrency fuel argv n k :
  5 <= Z.of_nat (List.length argv) ->
  nth 4 argv "" = "ON" ->
  stoul (nth 2 argv "") = Some n ->
  (Z.of_nat (List.length argv) = 6 -> stoul (nth 5 argv "") = Some k) ->
  (Z.of_nat (List.length argv) <> 6 -> k = hardware_concurrency) ->
  (k < SIZE_MAX)%N ->
  (S (N.to_nat k) < fuel)%nat ->
  main_setup fatal_aborts stoul hardware_concurrency argv
    = Proceeds {| outputFile := nth 1 argv ""; TotalNParticles := n;
                  flag_MT := true; Ncores := k;
                  runManager := G4MTRunManager (G4int_of_size_t k) |} /\
  ((k < 2147483648)%N -> G4int_of_size_t k = Z.of_N k) /\
  main_session fatal_aborts stoul hardware_concurrency fuel argv
    = Some ([ApplyCommand ("/control/execute " ++ nth 3 argv "")%string;
             ApplyCommand ("/run/beamOn " ++ nth 2 argv "")%string;
             ApplyCommand ("/control/shell hadd -k -f " ++ nth 1 argv "" ++ ".root"
                           ++ merge_inputs (nth 1 argv "") 1 (N.to_nat k))%string]
            ++ remove_commands (nth 1 argv "") 0 (S (N.to_nat k))
            ++ [ApplyCommand ("/control/shell mv " ++ nth 1 argv ""
                              ++ ".root ../Resultats")%string]).
Proof.
  intros Hargc Hon Hn Hsix Hother Hmax Hfuel.
  assert (Hsetup :
    main_setup fatal_aborts stoul hardware_concurrency argv
    = Proceeds {| outputFile := nth 1 argv ""; TotalNParticles := n;
                  flag_MT := true; Ncores := k;
                  runManager := G4MTRunManager (G4int_of_size_t k) |}).
  { unfold main_setup.
    replace (Z.of_nat (List.length argv) <? 2) with false
      by (symmetry; apply Z.ltb_ge; lia).
    replace (Z.of_nat (List.length argv) =? 2) with false
      by (symmetry; apply Z.eqb_neq; lia).
    replace (Z.of_nat (List.length argv) >=? 5) with true
      by (symmetry; rewrite Z.geb_leb; apply Z.leb_le; exact Hargc).
    rewrite Hn, Hon. cbn [String.eqb Ascii.eqb Bool.eqb].
    destruct (Z.eqb_spec (Z.of_nat (List.length argv)) 6) as [E|E].
    - rewrite (Hsix E). reflexivity.
    - rewrite (Hother E). reflexivity. }
  split; [exact Hsetup|].
  split.
  { intros Hk. unfold G4int_of_size_t. rewrite Z.mod_small by lia. lia. }
  unfold main_session. rewrite Hsetup.
  exact (session_batch_closed fuel argv
           {| outputFile := nth 1 argv ""; TotalNParticles := n;
              flag_MT := true; Ncores := k;
              runManager := G4MTRunManager (G4int_of_size_t k) |}
           Hargc eq_refl Hmax Hfuel).
Qed.

Lemma main_merges_one_file_per_thread_witness :
  main_setup true Samples.stoul 8 Cases.argv = Proceeds Cases.setup /\
  main_session true Samples.stoul 8 10 Cases.argv
    = Some [ApplyCommand "/control/execute run.mac";
            ApplyCommand "/run/beamOn 100";
            ApplyCommand
              "/control/shell hadd -k -f out.root out_1.root out_2.root out_3.root";
            ApplyCommand "/control/shell rm -f out_0.root";
            ApplyCommand "/control/shell rm -f out_1.root";
            ApplyCommand "/control/shell rm -f out_2.root";
            ApplyCommand "/control/shell rm -f out_3.root";
            ApplyCommand "/control/shell mv out.root ../Resultats"].
Proof.
  assert (Hargc : 5 <= Z.of_nat (List.length Cases.argv)) by (simpl; lia).
  assert (Hsix : Z.of_nat (List.length Cases.argv) = 6 ->
                 Samples.stoul (nth 5 Cases.argv "") = Some 3%N)
    by (intros _; reflexivity).
  assert (Hother : Z.of_nat (List.length Cases.argv) <> 6 -> 3%N = 8%N)
    by (simpl; intros H; exfalso; apply H; reflexivity).
  assert (Hmax : (3 < SIZE_MAX)%N) by reflexivity.
  assert (Hfuel : (S (N.to_nat 3) < 10)%nat) by (simpl; lia).
  destruct (main_merges_one_file_per_thread true Samples.stoul 8 10
              Cases.argv 100%N 3%N Hargc eq_refl eq_refl Hsix Hother Hmax Hfuel)
    as (Hsetup & _ & Hsession).
  split; [exact Hsetup | exact Hsession].
Defined.

(** ** The run action *)

Lemma run_steps_stepped tk steps :
  forall sa e sa' e',
    stepped tk e -> run_steps tk steps sa e = Ok (sa', e') -> stepped tk e'.
Proof.
  induction steps as [|aStep steps IH]; intros sa e sa' e' Hs H.
  - inversion H; subst. exact Hs.
  - cbn [run_steps] in H. apply bind_Ok_inv in H as ([[sa1 e1] t1] & Hstep & H).
    cbn [fst snd] in H.
    apply (IH _ _ _ _ (stepped_step tk _ _ _ _ _ _ Hs Hstep) H).
Qed.

Lemma EndOfEventAction_stepped tk e :
  stepped tk e ->
  exists updates,
    EndOfEventAction e = Ok (e, updates, None) /\
    toOptical updates = StatsOptical e /\
    toInput updates
      = (if gt_zero (RunTallyInput.energy (StatsInput e))
         then Some (StatsInput e) else None) /\
    toZnS updates
      = (if negb (empty (RunTallySc.energy (StatsZnS e)))
         then Some (StatsZnS e) else None) /\
    toScintillator updates
      = (if negb (empty (RunTallySc.energy (StatsScintillator e)))
         then Some (StatsScintillator e) else None).
Proof.
  intros Hs. apply stepped_births_aligned in Hs as (_ & _ & Hsc & _).
  unfold EndOfEventAction.
  replace (ScintillationSc (StatsOptical e) <? 0) with false
    by (symmetry; apply Z.ltb_ge; exact Hsc).
  eexists. split; [reflexivity|]. repeat split.
Qed.

Lemma UpdateRun_optical u ra :
  optical_tree_ready ra ->
  optical_tree_ready (fst (UpdateRun u ra)) /\
  entries_of (RunAction.Tree_Optical (fst (UpdateRun u ra)))
    = entries_of (RunAction.Tree_Optical ra) ++ [optical_entry (toOptical u)].
Proof.
  intros (tr & Htr & Hbr). unfold UpdateRun.
  destruct (toInput u), (toZnS u), (toScintillator u);
    cbn [fst snd UpdateStatisticsInput UpdateStatisticsZnS
         UpdateStatisticsScintillator UpdateStatisticsOptical
         with_Input with_ZnS with_Scintillator with_Optical
         RunAction.Tree_Optical];
    rewrite Htr; cbn [UpdateStatistics fst snd entries_of TTree_Fill tree_entries];
    (split; [exists (TTree_Fill (toOptical u) tr); split; [reflexivity | exact Hbr]
            | unfold optical_entry; rewrite Hbr; reflexivity]).
Qed.

Lemma optical_entry_of_stepped tk e :
  stepped tk e -> optical_entry_sound (optical_entry (StatsOptical e)).
Proof.
  intros Hs.
  destruct (stepped_detections_aligned tk e Hs) as (D1 & D2 & D3 & D4 & D5 & _).
  destruct (stepped_births_aligned tk e Hs) as (B1 & _).
  destruct (stepped_unwritten_reset tk e Hs)
    as (_ & _ & _ & U4 & _ & _ & _ & _ & (U9 & _ & U11 & U12 & _)).
  unfold optical_entry_sound.
  change (leaf "incident_E" (optical_entry (StatsOptical e)))
    with (Some (LeafF (IncidentE (StatsOptical e)))).
  change (leaf "deposit_ZnS" (optical_entry (StatsOptical e)))
    with (Some (LeafF (DepositZnS (StatsOptical e)))).
  change (leaf "deposit_Sc" (optical_entry (StatsOptical e)))
    with (Some (LeafF (DepositSc (StatsOptical e)))).
  change (leaf "angle_detection" (optical_entry (StatsOptical e)))
    with (Some (LeafVF (Angle_detection (StatsOptical e)))).
  rewrite U4, U9, U11, U12. do 4 (split; [reflexivity|]).
  exists (DetectorPositionX (StatsOptical e)), (DetectorPositionY (StatsOptical e)),
    (DetectorPositionZ (StatsOptical e)),
    (BirthWavelengthDetected (StatsOptical e)), (Time (StatsOptical e)),
    (BirthWavelength (StatsOptical e)), (Angle_creation (StatsOptical e)).
  change (leaf "detected" (optical_entry (StatsOptical e)))
    with (Some (LeafI (Detected (StatsOptical e)))).
  rewrite D1.
  repeat split; assumption.
Qed.

Lemma UpdateSc_energy :
  forall tally x y z en dep en_post parent pid vol ts tr tally',
    UpdateSc tally x y z en dep en_post parent pid vol ts tr = Ok tally' ->
    tally_consistent tally ->
    empty (RunTallySc.energy tally') = false.
Proof.
  intros tally x y z en dep en_post parent pid vol ts tr tally' H.
  unfold UpdateSc in H. unfold tally_consistent.
  destruct tally as [xs ys zs pars pids ens acc ev tot fl].
  cbn [RunTallySc.flag RunTallySc.x_entrance RunTallySc.y_entrance
       RunTallySc.z_entrance RunTallySc.parentID RunTallySc.particleID
       RunTallySc.energy RunTallySc.total_deposited_energy
       RunTallySc.deposited_energy] in *.
  intros (_ & _ & _ & _ & _ & H6 & _).
  destruct fl; cbn [negb] in H.
  - cbn [bind] in H.
    destruct (String.eqb vol "Holder" || eq_zero en_post);
      inversion H; subst tally'; clear H; cbn;
      destruct ens; [simpl in H6; lia | reflexivity | simpl in H6; lia | reflexivity].
  - destruct (int_of_float parent) as [p|]; [|discriminate].
    cbn [bind] in H.
    destruct (String.eqb vol "Holder" || eq_zero en_post);
      inversion H; subst tally'; clear H; cbn;
      destruct ens; reflexivity.
Qed.

Lemma detector_volumes_touched sa e e' :
  detector_volumes sa e = Ok e' ->
  tally_consistent (StatsZnS e) -> tally_consistent (StatsScintillator e) ->
  let touched v :=
    negb (String.eqb (particleName sa) "opticalphoton")
    && String.eqb (volumeNamePreStep sa) v in
  empty (RunTallySc.energy (StatsZnS e'))
    = empty (RunTallySc.energy (StatsZnS e)) && negb (touched "ZnS") /\
  empty (RunTallySc.energy (StatsScintillator e'))
    = empty (RunTallySc.energy (StatsScintillator e))
      && negb (touched "Scintillator").
Proof.
  unfold detector_volumes. intros H Hz Hs. cbv zeta.
  unfold ScMap, ScMap_find in H.
  rewrite (String.eqb_sym "ZnS"), (String.eqb_sym "Scintillator") in H.
  destruct (String.eqb_spec (volumeNamePreStep sa) "ZnS") as [Ez|Ez].
  - rewrite Ez. cbn [String.eqb Ascii.eqb Bool.eqb].
    destruct (negb (String.eqb (particleName sa) "opticalphoton"));
      cbn [andb negb].
    + apply bind_Ok_inv in H as (sc & Hsc & H). inversion H; subst e'; clear H.
      cbn [store_tally tally_of with_StatsZnS StatsZnS StatsScintillator] in *.
      rewrite (UpdateSc_energy _ _ _ _ _ _ _ _ _ _ _ _ _ Hsc Hz).
      rewrite andb_false_r, andb_true_r. split; reflexivity.
    + inversion H; subst. rewrite !andb_true_r. split; reflexivity.
  - destruct (String.eqb_spec (volumeNamePreStep sa) "Scintillator") as [Es|Es].
    + destruct (negb (String.eqb (particleName sa) "opticalphoton"));
        cbn [andb negb].
      * apply bind_Ok_inv in H as (sc & Hsc & H). inversion H; subst e'; clear H.
        cbn [store_tally tally_of with_StatsScintillator StatsZnS
             StatsScintillator] in *.
        rewrite (UpdateSc_energy _ _ _ _ _ _ _ _ _ _ _ _ _ Hsc Hs).
        rewrite andb_false_r, andb_true_r. split; reflexivity.
      * inversion H; subst. rewrite !andb_true_r. split; reflexivity.
    + inversion H; subst. rewrite !andb_false_r. cbn [negb].
      rewrite !andb_true_r. split; reflexivity.
Qed.

Lemma step_touched tk aStep sa e sa' e' t' :
  UserSteppingAction tk aStep sa e = Ok (sa', e', t') ->
  tally_consistent (StatsZnS e) -> tally_consistent (StatsScintillator e) ->
  empty (RunTallySc.energy (StatsZnS e'))
    = empty (RunTallySc.energy (StatsZnS e)) && negb (steps_in "ZnS" aStep) /\
  empty (RunTallySc.energy (StatsScintillator e'))
    = empty (RunTallySc.energy (StatsScintillator e))
      && negb (steps_in "Scintillator" aStep).
Proof.
  intros H Hz Hs.
  apply UserSteppingAction_inv in H
    as (e1 & bulk & term & birth & Hdet & _ & _ & _ & _ & Hd).
  destruct Hd as (_ & -> & -> & _).
  destruct (initial_beam_info_frame (prepare_variables tk aStep sa) e)
    as (_ & Hz0 & Hs0).
  rewrite <- Hz0 in Hz. rewrite <- Hs0 in Hs.
  destruct (detector_volumes_touched _ _ _ Hdet Hz Hs) as [Tz Ts].
  rewrite Hz0 in Tz. rewrite Hs0 in Ts. split; assumption.
Qed.

Lemma run_steps_touched tk steps :
  forall sa e sa' e',
    stepped tk e -> run_steps tk steps sa e = Ok (sa', e') ->
    empty (RunTallySc.energy (StatsZnS e'))
      = empty (RunTallySc.energy (StatsZnS e))
        && negb (existsb (steps_in "ZnS") steps) /\
    empty (RunTallySc.energy (StatsScintillator e'))
      = empty (RunTallySc.energy (StatsScintillator e))
        && negb (existsb (steps_in "Scintillator") steps).
Proof.
  induction steps as [|aStep steps IH]; intros sa e sa' e' Hs H.
  - inversion H; subst. cbn. rewrite !andb_true_r. split; reflexivity.
  - cbn [run_steps] in H. apply bind_Ok_inv in H as ([[sa1 e1] t1] & Hstep & H).
    cbn [fst snd] in H.
    destruct (stepped_tallies_consistent tk e Hs) as [Cz Cs].
    destruct (step_touched _ _ _ _ _ _ _ Hstep Cz Cs) as [Tz Ts].
    destruct (IH _ _ _ _ (stepped_step tk _ _ _ _ _ _ Hs Hstep) H) as [Iz Is].
    rewrite Iz, Is, Tz, Ts. cbn [existsb]. rewrite !negb_orb, !andb_assoc.
    split; reflexivity.
Qed.

Lemma UpdateRun_sc u ra :
  sc_trees_ready ra ->
  sc_trees_ready (fst (UpdateRun u ra)) /\
  List.length (entries_of (RunAction.Tree_ZnS (fst (UpdateRun u ra))))
    = (List.length (entries_of (RunAction.Tree_ZnS ra))
       + (match toZnS u with Some _ => 1 | None => 0 end))%nat /\
  List.length (entries_of (RunAction.Tree_Scintillator (fst (UpdateRun u ra))))
    = (List.length (entries_of (RunAction.Tree_Scintillator ra))
       + (match toScintillator u with Some _ => 1 | None => 0 end))%nat.
Proof.
  intros [Hz Hs]. unfold UpdateRun, sc_trees_ready.
  destruct (RunAction.Tree_ZnS ra) as [tz|] eqn:Ez; [|contradiction].
  destruct (RunAction.Tree_Scintillator ra) as [ts|] eqn:Es; [|contradiction].
  destruct (toInput u), (toZnS u), (toScintillator u);
    cbn [fst snd UpdateStatisticsInput UpdateStatisticsZnS
         UpdateStatisticsScintillator UpdateStatisticsOptical
         with_Input with_ZnS with_Scintillator with_Optical
         RunAction.Tree_ZnS RunAction.Tree_Scintillator];
    rewrite ?Ez, ?Es;
    cbn [UpdateStatistics fst snd entries_of TTree_Fill tree_entries];
    rewrite ?length_app; cbn [List.length];
    (split; [split; discriminate | split; lia]).
Qed.

Lemma BeginOfRunAction_ready now now' a ra :
  let ra0 := fst (fst (BeginOfRunAction now now' a ra)) in
  optical_tree_ready ra0 /\ sc_trees_ready ra0 /\
  entries_of (RunAction.Tree_Optical ra0) = [] /\
  entries_of (RunAction.Tree_ZnS ra0) = [] /\
  entries_of (RunAction.Tree_Scintillator ra0) = [] /\
  entries_of (RunAction.Tree_Input ra0) = [].
Proof.
  cbv zeta. split; [eexists; split; reflexivity|].
  split; [split; discriminate|]. repeat split.
Qed.

Lemma run_events_optical tk events :
  forall sa e ra sa' e' ra',
    optical_tree_ready ra ->
    run_events tk events sa e ra = Ok (sa', e', ra') ->
    exists new,
      entries_of (RunAction.Tree_Optical ra')
        = entries_of (RunAction.Tree_Optical ra) ++ new /\
      List.length new = List.length events /\
      Forall optical_entry_sound new.
Proof.
  induction events as [|steps events IH]; intros sa e ra sa' e' ra' Hr H.
  - inversion H; subst. exists []. rewrite app_nil_r. repeat split. constructor.
  - cbn [run_events] in H.
    apply bind_Ok_inv in H as ([[sa1 e1] ra1] & Hev & H). cbn [fst snd] in H.
    unfold run_event in Hev.
    apply bind_Ok_inv in Hev as ([sa2 e2] & Hsteps & Hev).
    apply bind_Ok_inv in Hev as ([[e3 u] summ] & Hend & Hev).
    cbn [fst snd] in *. inversion Hev; subst sa1 e1 ra1. clear Hev.
    pose proof (run_steps_stepped tk steps _ _ _ _ (stepped_begin tk e) Hsteps)
      as Hstepped.
    destruct (EndOfEventAction_stepped tk e2 Hstepped)
      as (u' & Hend' & Hopt & _).
    rewrite Hend' in Hend. inversion Hend; subst e3 u summ. clear Hend.
    destruct (UpdateRun_optical u' ra Hr) as [Hr1 Hent].
    destruct (IH _ _ _ _ _ _ Hr1 H) as (new & Hnew & Hlen & Hall).
    exists (optical_entry (StatsOptical e2) :: new).
    rewrite Hnew, Hent, Hopt, <- app_assoc. split; [reflexivity|].
    split; [simpl; lia|]. constructor; [|exact Hall].
    apply (optical_entry_of_stepped tk), Hstepped.
Qed.

Lemma run_events_sc tk events :
  forall sa e ra sa' e' ra',
    sc_trees_ready ra ->
    run_events tk events sa e ra = Ok (sa', e', ra') ->
    List.length (entries_of (RunAction.Tree_ZnS ra'))
      = (List.length (entries_of (RunAction.Tree_ZnS ra))
         + List.length (filter (existsb (steps_in "ZnS")) events))%nat /\
    List.length (entries_of (RunAction.Tree_Scintillator ra'))
      = (List.length (entries_of (RunAction.Tree_Scintillator ra))
         + List.length (filter (existsb (steps_in "Scintillator")) events))%nat.
Proof.
  induction events as [|steps events IH]; intros sa e ra sa' e' ra' Hr H.
  - inversion H; subst. cbn. split; lia.
  - cbn [run_events] in H.
    apply bind_Ok_inv in H as ([[sa1 e1] ra1] & Hev & H). cbn [fst snd] in H.
    unfold run_event in Hev.
    apply bind_Ok_inv in Hev as ([sa2 e2] & Hsteps & Hev).
    apply bind_Ok_inv in Hev as ([[e3 u] summ] & Hend & Hev).
    cbn [fst snd] in *. inversion Hev; subst sa1 e1 ra1. clear Hev.
    pose proof (run_steps_stepped tk steps _ _ _ _ (stepped_begin tk e) Hsteps)
      as Hstepped.
    destruct (run_steps_touched tk steps _ _ _ _ (stepped_begin tk e) Hsteps)
      as [Tz Ts].
    cbn [BeginOfEventAction StatsZnS StatsScintillator RunTallySc.default
         RunTallySc.energy empty andb] in Tz, Ts.
    destruct (EndOfEventAction_stepped tk e2 Hstepped)
      as (u' & Hend' & _ & _ & Hz & Hs).
    rewrite Hend' in Hend. inversion Hend; subst e3 u summ. clear Hend.
    destruct (UpdateRun_sc u' ra Hr) as (Hr1 & Lz & Ls).
    destruct (IH _ _ _ _ _ _ Hr1 H) as [Iz Is].
    rewrite Iz, Is, Lz, Ls, Hz, Hs, Tz, Ts. cbn [filter].
    destruct (existsb (steps_in "ZnS") steps),
      (existsb (steps_in "Scintillator") steps); cbn; split; lia.
Qed.

(** X9.  After [BeginOfRunAction], every event the toolkit drives through
    the event action adds exactly one entry to the optical tree, and in
    every such entry the branches incident_E, deposit_ZnS and deposit_Sc
    hold zero, the branch angle_detection is empty, the branch detected
    holds the number of elements of detector_position_x, the branches
    detector_position_y, detector_position_z, birth_wavelength_detected and
    time have that many elements, and angle_creation has as many elements
    as birth_wavelength. *)
Theorem every_event_writes_one_optical_entry
    tk now now' a ra events sa e sa' e' ra' :
  run_events tk events sa e (fst (fst (BeginOfRunAction now now' a ra)))
    = Ok (sa', e', ra') ->
  List.length (entries_of (RunAction.Tree_Optical ra')) = List.length events /\
  Forall optical_entry_sound (entries_of (RunAction.Tree_Optical ra')).
Proof.
  intros H.
  destruct (BeginOfRunAction_ready now now' a ra) as (Hr & _ & Hnil & _).
  destruct (run_events_optical tk events _ _ _ _ _ _ Hr H)
    as (new & Hnew & Hlen & Hall).
  rewrite Hnew, Hnil. split; assumption.
Qed.

Lemma every_event_writes_one_optical_entry_witness :
  exists sa' e' ra',
    run_events Samples.toolkit Cases.events SteppingAction_initial
      Samples.blank (fst (fst (BeginOfRunAction 0 0 0 Cases.run_action)))
      = Ok (sa', e', ra') /\
    List.length (entries_of (RunAction.Tree_Optical ra')) = 2%nat /\
    Forall optical_entry_sound (entries_of (RunAction.Tree_Optical ra')).
Proof.
  eexists. eexists. eexists.
  match goal with
  | |- ?run /\ _ => assert (Hrun : run) by (vm_compute; reflexivity)
  end.
  split; [exact Hrun|].
  exact (every_event_writes_one_optical_entry Samples.toolkit 0 0 0
           Cases.run_action Cases.events SteppingAction_initial Samples.blank
           _ _ _ Hrun).
Defined.

(** X10.  After [BeginOfRunAction], the tree of a detector volume has one
    entry for each event in which a particle other than an optical photon
    made a step that starts in that volume, and none for the other
    events. *)
Theorem detector_trees_count_events_with_steps
    tk now now' a ra events sa e sa' e' ra' :
  run_events tk events sa e (fst (fst (BeginOfRunAction now now' a ra)))
    = Ok (sa', e', ra') ->
  List.length (entries_of (RunAction.Tree_ZnS ra'))
    = List.length (filter (existsb (steps_in "ZnS")) events) /\
  List.length (entries_of (RunAction.Tree_Scintillator ra'))
    = List.length (filter (existsb (steps_in "Scintillator")) events).
Proof.
  intros H.
  destruct (BeginOfRunAction_ready now now' a ra) as (_ & Hr & _ & Hz & Hs & _).
  destruct (run_events_sc tk events _ _ _ _ _ _ Hr H) as [Lz Ls].
  rewrite Lz, Ls, Hz, Hs. split; reflexivity.
Qed.

Lemma detector_trees_count_events_with_steps_witness :
  exists sa' e' ra',
    run_events Samples.toolkit Cases.events SteppingAction_initial
      Samples.blank (fst (fst (BeginOfRunAction 0 0 0 Cases.run_action)))
      = Ok (sa', e', ra') /\
    List.length (entries_of (RunAction.Tree_ZnS ra')) = 1%nat /\
    List.length (entries_of (RunAction.Tree_Scintillator ra')) = 0%nat.
Proof.
  eexists. eexists. eexists.
  match goal with
  | |- ?run /\ _ => assert (Hrun : run) by (vm_compute; reflexivity)
  end.
  split; [exact Hrun|].
  exact (detector_trees_count_events_with_steps Samples.toolkit 0 0 0
           Cases.run_action Cases.events SteppingAction_initial Samples.blank
           _ _ _ Hrun).
Defined.

Lemma to_string_int_of_N i : to_string_int (Z.of_N i) = to_string i.
Proof. destruct i; reflexivity. Qed.

Lemma atomic_int_succ_small k :
  0 <= k < 2147483647 -> atomic_int_succ k = k + 1.
Proof.
  intros H. unfold atomic_int_succ.
  rewrite Z.mod_small by lia. lia.
Qed.

Lemma BeginOfRunAction_each_names out :
  forall calls first,
    Forall (fun c => RunAction.suffixe (snd c) = out /\
                     RunAction.flag_MT (snd c) = true) calls ->
    Z.of_nat (first + List.length calls) <= 2147483647 ->
    map RunAction.fileName
        (fst (BeginOfRunAction_each calls (Z.of_nat first)))
      = map (thread_file out) (indices first (List.length calls)) /\
    snd (BeginOfRunAction_each calls (Z.of_nat first))
      = Z.of_nat (first + List.length calls).
Proof.
  induction calls as [|[[now now'] ra] calls IH]; intros first Hall Hmax.
  - cbn. split; [reflexivity | f_equal; lia].
  - inversion Hall as [|c cs [Hout Hmt] Hrest]; subst c cs.
    cbn [snd] in Hout, Hmt. cbn [List.length] in *.
    cbn [BeginOfRunAction_each]. cbv zeta.
    cbn [BeginOfRunAction fst snd map RunAction.fileName].
    rewrite atomic_int_succ_small by lia.
    replace (Z.of_nat first + 1) with (Z.of_nat (S first)) by lia.
    destruct (IH (S first) Hrest ltac:(lia)) as [IHn IHa].
    rewrite IHn, IHa, Hout, Hmt. unfold indices. cbn [seq map].
    split; [|f_equal; lia].
    f_equal. unfold thread_file.
    replace (Z.of_nat first) with (Z.of_N (N.of_nat first)) by lia.
    rewrite to_string_int_of_N. reflexivity.
Qed.

Lemma append_cancel_l (a b c : string) :
  (a ++ b)%string = (a ++ c)%string -> b = c.
Proof.
  induction a as [|ch a IH]; simpl; intros H; [exact H|].
  inversion H. auto.
Qed.

Lemma length_append (a b : string) :
  String.length (a ++ b) = (String.length a + String.length b)%nat.
Proof. induction a as [|ch a IH]; simpl; [reflexivity | rewrite IH; reflexivity]. Qed.

Lemma append_cancel_r (c : string) :
  forall a b : string, (a ++ c)%string = (b ++ c)%string -> a = b.
Proof.
  induction a as [|ch a IH]; intros [|ch' b] H; simpl in H.
  - reflexivity.
  - apply (f_equal String.length) in H. simpl in H.
    rewrite length_append in H. lia.
  - apply (f_equal String.length) in H. simpl in H.
    rewrite length_append in H. lia.
  - inversion H. f_equal. auto.
Qed.

Lemma to_string_inj i j : to_string i = to_string j -> i = j.
Proof.
  unfold to_string. intros H.
  apply DecimalN.Unsigned.to_uint_inj.
  apply (f_equal NilEmpty.uint_of_string) in H.
  rewrite !NilEmpty.usu in H. inversion H. reflexivity.
Qed.

Lemma thread_file_inj out i j : thread_file out i = thread_file out j -> i = j.
Proof.
  unfold thread_file. intros H.
  apply append_cancel_l in H. apply (append_cancel_l "_") in H.
  apply append_cancel_r in H. apply to_string_inj, H.
Qed.

Lemma thread_file_not_output out i : thread_file out i <> (out ++ ".root")%string.
Proof.
  unfold thread_file. intros H. apply append_cancel_l in H. discriminate H.
Qed.

Lemma NoDup_map_injective {A B} (g : A -> B) (l : list A) :
  (forall a b, g a = g b -> a = b) -> NoDup l -> NoDup (map g l).
Proof.
  intros Hinj Hl. induction Hl as [|a l Hnotin Hl IH]; cbn; constructor.
  - intros Hin. apply in_map_iff in Hin as (b & Hb & Hin).
    apply Hinj in Hb. subst b. contradiction.
  - exact IH.
Qed.

Lemma indices_NoDup first count : NoDup (indices first count).
Proof.
  unfold indices. apply NoDup_map_injective.
  - intros a b H. lia.
  - apply seq_NoDup.
Qed.

(** X11.  In multithreaded batch mode with fewer than 2^31 - 1 threads,
    when the master and the Ncores workers begin their runs one after the
    other with the thread counter at zero, the files they open have
    pairwise different names, none is the merged output file, the files
    [main] removes are exactly the files opened, in the order of opening,
    and the files it merges are those of all the run actions but the
    first. *)
Theorem thread_files_are_what_main_merges_and_removes fuel argv s calls :
  5 <= Z.of_nat (List.length argv) ->
  flag_MT s = true ->
  (Ncores s < 2147483647)%N ->
  (S (N.to_nat (Ncores s)) < fuel)%nat ->
  Forall (fun c => RunAction.suffixe (snd c) = outputFile s /\
                   RunAction.flag_MT (snd c) = true) calls ->
  List.length calls = S (N.to_nat (Ncores s)) ->
  let runs := fst (BeginOfRunAction_each calls 0) in
  NoDup (map RunAction.fileName runs) /\
  (~ In (outputFile s ++ ".root")%string (map RunAction.fileName runs)) /\
  session fuel argv s
    = Some ([ApplyCommand ("/control/execute " ++ nth 3 argv "")%string;
             ApplyCommand ("/run/beamOn " ++ nth 2 argv "")%string;
             ApplyCommand
               ("/control/shell hadd -k -f " ++ outputFile s ++ ".root"
                ++ String.concat ""
                     (map (fun r => (" " ++ RunAction.fileName r)%string)
                          (tl runs)))%string]
            ++ map (fun r =>
                      ApplyCommand
                        ("/control/shell rm -f " ++ RunAction.fileName r)%string)
                   runs
            ++ [ApplyCommand ("/control/shell mv " ++ outputFile s
                              ++ ".root ../Resultats")%string]).
Proof.
  intros Hargc Hmt Hcores Hfuel Hall Hlen. cbv zeta.
  destruct (BeginOfRunAction_each_names (outputFile s) calls 0 Hall)
    as [Hnames _]; [rewrite Hlen; lia|].
  change (Z.of_nat 0) with 0 in Hnames. rewrite Hlen in Hnames.
  set (runs := fst (BeginOfRunAction_each calls 0)) in *.
  split; [|split].
  - rewrite Hnames. apply NoDup_map_injective;
      [apply thread_file_inj | apply indices_NoDup].
  - rewrite Hnames. intros Hin. apply in_map_iff in Hin as (i & Hi & _).
    exact (thread_file_not_output _ _ Hi).
  - rewrite (session_batch_closed fuel argv s Hargc Hmt)
      by (unfold SIZE_MAX; lia || assumption).
    cbv zeta. unfold merge_inputs, remove_commands.
    assert (Hmap : forall (g : string -> UIAction),
              map (fun r => g (RunAction.fileName r)) runs
              = map (fun i => g (thread_file (outputFile s) i))
                    (indices 0 (S (N.to_nat (Ncores s))))).
    { intros g.
      rewrite <- (map_map RunAction.fileName g), Hnames, map_map. reflexivity. }
    rewrite (Hmap (fun n => ApplyCommand ("/control/shell rm -f " ++ n)%string)).
    assert (Htl : map (fun r => (" " ++ RunAction.fileName r)%string) (tl runs)
                  = map (fun i => (" " ++ thread_file (outputFile s) i)%string)
                        (indices 1 (N.to_nat (Ncores s)))).
    { rewrite <- (map_map RunAction.fileName (fun n => (" " ++ n)%string)).
      rewrite <- (map_map (thread_file (outputFile s))
                          (fun n => (" " ++ n)%string)).
      f_equal.
      replace (map RunAction.fileName (tl runs))
        with (tl (map RunAction.fileName runs))
        by (destruct runs; reflexivity).
      rewrite Hnames. unfold indices. reflexivity. }
    rewrite Htl. reflexivity.
Qed.

Lemma thread_files_are_what_main_merges_and_removes_witness :
  map RunAction.fileName (fst (BeginOfRunAction_each Cases.calls 0))
    = ["out_0.root"; "out_1.root"; "out_2.root"; "out_3.root"] /\
  NoDup (map RunAction.fileName (fst (BeginOfRunAction_each Cases.calls 0))) /\
  session 10 Cases.argv Cases.setup
    = Some [ApplyCommand "/control/execute run.mac";
            ApplyCommand "/run/beamOn 100";
            ApplyCommand
              "/control/shell hadd -k -f out.root out_1.root out_2.root out_3.root";
            ApplyCommand "/control/shell rm -f out_0.root";
            ApplyCommand "/control/shell rm -f out_1.root";
            ApplyCommand "/control/shell rm -f out_2.root";
            ApplyCommand "/control/shell rm -f out_3.root";
            ApplyCommand "/control/shell mv out.root ../Resultats"].
Proof.
  split; [reflexivity|].
  assert (Hargc : 5 <= Z.of_nat (List.length Cases.argv)) by (simpl; lia).
  assert (Hcores : (Ncores Cases.setup < 2147483647)%N) by reflexivity.
  assert (Hfuel : (S (N.to_nat (Ncores Cases.setup)) < 10)%nat)
    by (simpl; lia).
  assert (Hall : Forall (fun c => RunAction.suffixe (snd c) = outputFile Cases.setup /\
                                  RunAction.flag_MT (snd c) = true) Cases.calls)
    by (repeat constructor).
  destruct (thread_files_are_what_main_merges_and_removes 10 Cases.argv
              Cases.setup Cases.calls Hargc eq_refl Hcores Hfuel Hall eq_refl)
    as (Hnodup & _ & Hsession).
  split; [exact Hnodup | exact Hsession].
Defined.

(** ** Steps the code leaves undefined, and the tally over many steps *)

Lemma digits2_pos_iter_xO k m :
  digits2_pos (Pos.iter xO m k) = (digits2_pos m + k)%positive.
Proof.
  induction k as [|k IH] using Pos.peano_ind.
  - cbn. lia.
  - rewrite Pos.iter_succ. cbn [digits2_pos]. rewrite IH. lia.
Qed.

Lemma Zpos_iter_xO k m :
  Zpos (Pos.iter xO m k) = Zpos m * 2 ^ Zpos k.
Proof.
  induction k as [|k IH] using Pos.peano_ind.
  - cbn [Pos.iter]. rewrite Z.pow_1_r. lia.
  - rewrite Pos.iter_succ, Pos2Z.inj_succ, Z.pow_succ_r by lia.
    rewrite Pos2Z.inj_xO, IH. lia.
Qed.

Lemma digits2_pos_lower p : 2 ^ (Zpos (digits2_pos p) - 1) <= Zpos p.
Proof.
  induction p as [p IH | p IH |]; cbn [digits2_pos].
  - rewrite Pos2Z.inj_succ.
    replace (Z.succ (Zpos (digits2_pos p)) - 1)
      with (Z.succ (Zpos (digits2_pos p) - 1)) by lia.
    rewrite Z.pow_succ_r by lia. lia.
  - rewrite Pos2Z.inj_succ.
    replace (Z.succ (Zpos (digits2_pos p)) - 1)
      with (Z.succ (Zpos (digits2_pos p) - 1)) by lia.
    rewrite Z.pow_succ_r by lia. lia.
  - cbn. lia.
Qed.

Lemma binary_round_aux_exact s mz ez :
  digits2_pos mz = 24%positive -> -149 <= ez <= 104 ->
  binary_round_aux fprec femax s (Zpos mz) ez loc_Exact = S754_finite s mz ez.
Proof.
  intros Hd He. unfold binary_round_aux, shr_fexp.
  cbn [shr_record_of_loc Zdigits2]. rewrite Hd.
  replace (fexp fprec femax (24 + ez) - ez) with 0
    by (unfold fexp, emin, fprec, femax; lia).
  cbn [shr shr_m loc_of_shr_record round_nearest_even shr_record_of_loc Zdigits2].
  rewrite Hd.
  replace (fexp fprec femax (24 + ez) - ez) with 0
    by (unfold fexp, emin, fprec, femax; lia).
  cbn [shr shr_m].
  replace (ez <=? femax - fprec) with true
    by (symmetry; apply Z.leb_le; unfold femax, fprec; lia).
  reflexivity.
Qed.

Lemma binary_round_small s mx :
  Zpos mx < 2 ^ 24 ->
  exists mz ez,
    binary_round fprec femax s mx 0 = S754_finite s mz ez /\
    truncate (S754_finite s mz ez) = Some (cond_Zopp s (Zpos mx)).
Proof.
  intros Hlt.
  pose proof (digits2_pos_lower mx) as Hlow.
  assert (Hd : Zpos (digits2_pos mx) <= 24).
  { destruct (Z.le_gt_cases (Zpos (digits2_pos mx)) 24) as [H|H]; [exact H|].
    exfalso.
    assert (2 ^ 24 <= 2 ^ (Zpos (digits2_pos mx) - 1))
      by (apply Z.pow_le_mono_r; lia).
    lia. }
  unfold binary_round, shl_align.
  replace (fexp fprec femax (Zpos (digits2_pos mx) + 0) - 0)
    with (Zpos (digits2_pos mx) - 24)
    by (unfold fexp, emin, fprec, femax; lia).
  replace (fexp fprec femax (Zpos (digits2_pos mx) + 0))
    with (Zpos (digits2_pos mx) - 24)
    by (unfold fexp, emin, fprec, femax; lia).
  destruct (Zpos (digits2_pos mx) - 24) as [|k|k] eqn:Hk; [|lia|].
  - exists mx, 0. split.
    + apply binary_round_aux_exact; [lia | lia].
    + cbn [truncate]. rewrite Z.shiftl_0_r. reflexivity.
  - exists (Pos.iter xO mx k), (Zneg k). split.
    + apply binary_round_aux_exact; [rewrite digits2_pos_iter_xO; lia | lia].
    + cbn [truncate]. rewrite Z.shiftr_div_pow2 by lia.
      rewrite Zpos_iter_xO, Z.div_mul by (apply Z.pow_nonzero; lia).
      reflexivity.
Qed.

Lemma float_of_int_round_trip n :
  -16777216 <= n <= 16777216 -> int_of_float (float_of_int n) = Ok n.
Proof.
  intros Hn.
  destruct (Z.eq_dec n 16777216) as [->|Hhi]; [reflexivity|].
  destruct (Z.eq_dec n (-16777216)) as [->|Hlo]; [reflexivity|].
  unfold int_of_float, float_of_int, binary_normalize.
  destruct n as [|p|p].
  - reflexivity.
  - destruct (binary_round_small false p) as (mz & ez & -> & ->);
      [change (2 ^ 24) with 16777216; lia|].
    cbn [cond_Zopp]. rewrite in_range_true; [reflexivity|].
    unfold CxxInt.INT_MIN, CxxInt.INT_MAX. lia.
  - destruct (binary_round_small true p) as (mz & ez & -> & ->);
      [change (2 ^ 24) with 16777216; lia|].
    cbn [cond_Zopp]. rewrite in_range_true; [reflexivity|].
    unfold CxxInt.INT_MIN, CxxInt.INT_MAX. lia.
Qed.

Lemma UpdateSc_inv :
  forall tally x y z en dep en_post parent pid vol ts tr tally',
    UpdateSc tally x y z en dep en_post parent pid vol ts tr = Ok tally' ->
    RunTallySc.deposited_energy_event tally'
      = fadd (RunTallySc.deposited_energy_event tally) dep /\
    RunTallySc.total_deposited_energy tally'
      = RunTallySc.total_deposited_energy tally
        ++ (if String.eqb vol "Holder" || eq_zero en_post
            then [fadd (RunTallySc.deposited_energy tally) dep] else []) /\
    RunTallySc.energy tally'
      = RunTallySc.energy tally
        ++ (if RunTallySc.flag tally then [] else [en]) /\
    RunTallySc.flag tally' = negb (String.eqb vol "Holder" || eq_zero en_post).
Proof.
  intros tally x y z en dep en_post parent pid vol ts tr tally' H.
  unfold UpdateSc in H.
  destruct tally as [xs ys zs pars pids ens acc ev tot fl].
  cbn [RunTallySc.flag RunTallySc.energy RunTallySc.total_deposited_energy
       RunTallySc.deposited_energy RunTallySc.deposited_energy_event] in *.
  destruct fl; cbn [negb] in H.
  - cbn [bind] in H.
    destruct (String.eqb vol "Holder" || eq_zero en_post);
      inversion H; subst tally'; clear H;
      cbn [RunTallySc.flag RunTallySc.energy RunTallySc.total_deposited_energy
           RunTallySc.deposited_energy RunTallySc.deposited_energy_event
           RunTallySc.AddDepositedEnergy RunTallySc.AddDepositedEnergyEvent
           RunTallySc.AddTotalDepositedEnergy RunTallySc.ResetDepositedEnergy
           RunTallySc.ResetFlag RunTallySc.set_flag
           RunTallySc.set_deposited_energy RunTallySc.GetDepositedEnergy negb];
      rewrite ?app_nil_r; repeat split; reflexivity.
  - destruct (int_of_float parent) as [p|]; [|discriminate].
    cbn [bind] in H.
    destruct (String.eqb vol "Holder" || eq_zero en_post);
      inversion H; subst tally'; clear H;
      cbn [RunTallySc.flag RunTallySc.energy RunTallySc.total_deposited_energy
           RunTallySc.deposited_energy RunTallySc.deposited_energy_event
           RunTallySc.AddXEntrance RunTallySc.AddYEntrance
           RunTallySc.AddZEntrance RunTallySc.AddParentID
           RunTallySc.AddParticleID RunTallySc.AddEnergy RunTallySc.ActivateFlag
           RunTallySc.AddDepositedEnergy RunTallySc.AddDepositedEnergyEvent
           RunTallySc.AddTotalDepositedEnergy RunTallySc.ResetDepositedEnergy
           RunTallySc.ResetFlag RunTallySc.set_flag
           RunTallySc.set_deposited_energy RunTallySc.GetDepositedEnergy negb];
      rewrite ?app_nil_r; repeat split; reflexivity.
Qed.

(** X12.  A step of an optical photon is undefined (a null pointer is
    dereferenced) in two cases: the photon-tracking switch is on and the
    process list of the photon has no process named OpBoundary; or the
    step is the first of a photon without creator process, that is, of a
    primary optical photon. *)
Theorem photon_step_without_process_is_undefined tk aStep sa e :
  GetParticleName (GetTrack aStep) = "opticalphoton" ->
  (PhotonTrackStatus sa = true /\
   find_OpBoundary (GetProcessList (GetTrack aStep)) = None) \/
  (GetCurrentStepNumber (GetTrack aStep) = 1 /\
   GetCreatorProcessName (GetTrack aStep) = None) ->
  exists f, UserSteppingAction tk aStep sa e = Fault f.
Proof.
  intros Hp Hcase.
  destruct (UserSteppingAction tk aStep sa e) as [[[sa' e'] t']|f] eqn:Hrun;
    [exfalso | exists f; reflexivity].
  unfold UserSteppingAction in Hrun.
  apply bind_Ok_inv in Hrun as (e1 & _ & Hrun).
  apply bind_Ok_inv in Hrun as ([e2 t2] & Hopt & _).
  unfold optical_part in Hopt.
  replace (particleName (prepare_variables tk aStep sa)) with "opticalphoton"
    in Hopt by (symmetry; exact Hp).
  cbn [String.eqb Ascii.eqb Bool.eqb] in Hopt.
  apply bind_Ok_inv in Hopt as ([e3 t3] & Hterm & Hopt).
  apply bind_Ok_inv in Hopt as (e4 & Hbirth & _).
  destruct Hcase as [[Htrack Hnone] | [Hone Hnone]].
  - change (PhotonTrackStatus (prepare_variables tk aStep sa))
      with (PhotonTrackStatus sa) in Hterm.
    rewrite Htrack in Hterm. cbn [negb] in Hterm.
    apply bind_Ok_inv in Hterm as (e5 & Hcbs & _).
    unfold CheckBoundaryStatus in Hcbs. rewrite Hnone in Hcbs. discriminate.
  - unfold photon_birth in Hbirth.
    change (stepNo (prepare_variables tk aStep sa))
      with (GetCurrentStepNumber (GetTrack aStep)) in Hbirth.
    rewrite Hone in Hbirth. cbn [Z.eqb Pos.eqb] in Hbirth.
    apply bind_Ok_inv in Hbirth as (e5 & _ & Hbirth).
    rewrite Hnone in Hbirth. discriminate.
Qed.

Lemma photon_step_without_process_is_undefined_witness :
  exists f,
    UserSteppingAction Samples.toolkit Cases.primary_photon
      SteppingAction_initial Samples.fresh = Fault f.
Proof.
  exact (photon_step_without_process_is_undefined Samples.toolkit
           Cases.primary_photon SteppingAction_initial Samples.fresh
           eq_refl (or_intror (conj eq_refl eq_refl))).
Defined.

(** X13.  For a parent identifier between -2^24 and 2^24, which passes
    through [G4float] unchanged, [UpdateSc] returns on every tally, and when
    the call opens an episode the identifier appended to the tally is that
    very identifier. *)
Theorem UpdateSc_stores_parent_exactly :
  forall tally x y z en dep en_post parent pid vol ts tr,
    -16777216 <= parent <= 16777216 ->
    exists tally',
      UpdateSc tally x y z en dep en_post (float_of_int parent) pid vol ts tr
        = Ok tally' /\
      RunTallySc.parentID tally'
        = (if RunTallySc.flag tally then RunTallySc.parentID tally
           else RunTallySc.parentID tally ++ [parent]).
Proof.
  intros tally x y z en dep en_post parent pid vol ts tr Hp.
  destruct (UpdateSc_effect tally x y z en dep en_post (float_of_int parent)
              pid vol ts tr parent
              (fun _ => float_of_int_round_trip parent Hp))
    as (tally' & Hrun & Hentry & _).
  exists tally'. split; [exact Hrun|].
  destruct (RunTallySc.flag tally).
  - apply Hentry.
  - apply Hentry.
Qed.

Lemma UpdateSc_stores_parent_exactly_witness :
  exists tally',
    UpdateSc RunTallySc.default (Samples.f 1) (Samples.f 2) (Samples.f 3)
      (Samples.f 5) (Samples.f 2) (Samples.f 3) (float_of_int 12345)
      1000020040 "ZnS" true None = Ok tally' /\
    RunTallySc.parentID tally' = [12345].
Proof.
  assert (Hp : -16777216 <= 12345 <= 16777216) by lia.
  exact (UpdateSc_stores_parent_exactly RunTallySc.default
           (Samples.f 1) (Samples.f 2) (Samples.f 3) (Samples.f 5)
           (Samples.f 2) (Samples.f 3) 12345 1000020040 "ZnS" true None Hp).
Defined.

(** X14.  Over any run of calls of [UpdateSc] on one tally that returns,
    the deposit of the event is the deposits of the calls added from left
    to right in single precision to what the tally held, the number of
    episode totals grows by the number of calls that meet the closing
    condition, and an episode is open afterwards exactly when the last call
    did not meet it. *)
Theorem UpdateSc_steps_accumulate :
  forall ss tally tally',
    UpdateSc_steps ss tally = Ok tally' ->
    RunTallySc.deposited_energy_event tally'
      = fold_left fadd (map sc_energyDeposited ss)
          (RunTallySc.deposited_energy_event tally) /\
    List.length (RunTallySc.total_deposited_energy tally')
      = (List.length (RunTallySc.total_deposited_energy tally)
         + List.length (filter closes ss))%nat /\
    RunTallySc.flag tally'
      = match rev ss with
        | [] => RunTallySc.flag tally
        | s :: _ => negb (closes s)
        end.
Proof.
  induction ss as [|s ss IH]; intros tally tally' H.
  - inversion H; subst. cbn. repeat split. lia.
  - cbn [UpdateSc_steps] in H. apply bind_Ok_inv in H as (t1 & Hs & H).
    unfold UpdateSc_step in Hs.
    apply UpdateSc_inv in Hs as (He & Ht & _ & Hf).
    destruct (IH _ _ H) as (IHe & IHt & IHf).
    rewrite IHe, IHt, IHf, He, Ht, Hf. cbn [map fold_left filter].
    fold (closes s). split; [reflexivity|]. split.
    + rewrite length_app. destruct (closes s); cbn [List.length]; lia.
    + cbn [rev]. destruct (rev ss) as [|s' l] eqn:Hrev; reflexivity.
Qed.

Lemma UpdateSc_steps_accumulate_witness :
  exists tally',
    UpdateSc_steps
      [Samples.sc_step 2 "ZnS" 5; Samples.sc_step 3 "Holder" 5;
       Samples.sc_step 1 "ZnS" 4]
      RunTallySc.default = Ok tally' /\
    RunTallySc.deposited_energy_event tally' = Samples.f 6 /\
    List.length (RunTallySc.total_deposited_energy tally') = 1%nat /\
    RunTallySc.flag tally' = true.
Proof.
  eexists. split; [vm_compute; reflexivity|].
  exact (UpdateSc_steps_accumulate
           [Samples.sc_step 2 "ZnS" 5; Samples.sc_step 3 "Holder" 5;
            Samples.sc_step 1 "ZnS" 4]
           RunTallySc.default _ eq_refl).
Defined.

(** ** The accessors of the tallies *)

Lemma at_snoc {A : Type} (v : list A) (a : A) :
  RunTallyScAccess.at_ (v ++ [a]) (RunTallyScAccess.size v) = Some a.
Proof.
  unfold RunTallyScAccess.at_, RunTallyScAccess.size.
  rewrite Nnat.Nat2N.id, nth_error_app2 by lia.
  rewrite Nat.sub_diag. reflexivity.
Qed.

Lemma at_end {A : Type} (v : list A) (i : N) :
  (RunTallyScAccess.size v <= i)%N -> RunTallyScAccess.at_ v i = None.
Proof.
  unfold RunTallyScAccess.at_, RunTallyScAccess.size. intros H.
  apply nth_error_None. lia.
Qed.

Lemma size_of_length {A B : Type} (v : list A) (w : list B) :
  List.length v = List.length w ->
  RunTallyScAccess.size w = RunTallyScAccess.size v.
Proof. unfold RunTallyScAccess.size. intros ->. reflexivity. Qed.

Lemma UpdateSc_Ok_post :
  forall tally x y z en dep en_post parent pid vol ts tr tally',
    UpdateSc tally x y z en dep en_post parent pid vol ts tr = Ok tally' ->
    exists p,
      (RunTallySc.flag tally = false -> int_of_float parent = Ok p) /\
      UpdateSc_post tally tally' x y z en dep en_post p pid vol.
Proof.
  intros tally x y z en dep en_post parent pid vol ts tr tally' H.
  assert (Hp : exists p,
             RunTallySc.flag tally = false -> int_of_float parent = Ok p).
  { destruct (RunTallySc.flag tally) eqn:Hf; [exists 0; discriminate|].
    unfold UpdateSc in H. rewrite Hf in H. cbn [negb] in H.
    destruct (int_of_float parent) as [p|]; [|discriminate].
    exists p. reflexivity. }
  destruct Hp as [p Hp]. exists p. split; [exact Hp|].
  destruct (UpdateSc_effect tally x y z en dep en_post parent pid vol ts tr p Hp)
    as (t'' & Hrun & Hpost).
  rewrite H in Hrun. inversion Hrun; subst t''. exact Hpost.
Qed.

(** X15.  When a call of [UpdateSc] that returns opens an episode on a
    consistent tally with n entries, the tally has n + 1 entries afterwards
    and the index accessors return at index n what the call was given (the
    position, the energy, the particle identifier and the parent identifier
    converted to [int]); the accessor of the episode totals returns the
    deposit of the call at index n when the call also closes the episode,
    and throws (index out of range) as long as the episode is open. *)
Theorem opened_entry_is_readable_before_its_total :
  forall tally x y z en dep en_post parent pid vol ts tr tally',
    tally_consistent tally ->
    RunTallySc.flag tally = false ->
    UpdateSc tally x y z en dep en_post parent pid vol ts tr = Ok tally' ->
    let n := RunTallyScAccess.EnergySize tally in
    RunTallyScAccess.EnergySize tally' = (n + 1)%N /\
    RunTallyScAccess.GetXEntrance n tally' = Some x /\
    RunTallyScAccess.GetYEntrance n tally' = Some y /\
    RunTallyScAccess.GetZEntrance n tally' = Some z /\
    RunTallyScAccess.GetEnergy n tally' = Some en /\
    RunTallyScAccess.GetParticleID n tally' = Some pid /\
    (exists p, int_of_float parent = Ok p /\
               RunTallyScAccess.GetParentID n tally' = Some p) /\
    RunTallyScAccess.GetTotalDepositedEnergy n tally'
      = (if String.eqb vol "Holder" || eq_zero en_post
         then Some (fadd fzero dep) else None).
Proof.
  intros tally x y z en dep en_post parent pid vol ts tr tally' Hc Hf H.
  cbv zeta.
  apply UpdateSc_Ok_post in H as (p & Hp & Hentry & _ & Hclose).
  rewrite Hf in Hentry.
  destruct Hentry as (Ex & Ey & Ez & Epar & Epid & Een).
  destruct Hc as (C1 & C2 & C3 & C4 & C5 & C6 & C7).
  rewrite Hf in C6. rewrite Nat.add_0_r in C6.
  unfold RunTallyScAccess.EnergySize, RunTallyScAccess.GetXEntrance,
    RunTallyScAccess.GetYEntrance, RunTallyScAccess.GetZEntrance,
    RunTallyScAccess.GetEnergy, RunTallyScAccess.GetParticleID,
    RunTallyScAccess.GetParentID, RunTallyScAccess.GetTotalDepositedEnergy.
  rewrite Ex, Ey, Ez, Epar, Epid, Een.
  split.
  { unfold RunTallyScAccess.size. rewrite length_app. cbn [List.length]. lia. }
  split; [rewrite (size_of_length _ _ C1); apply at_snoc|].
  split; [rewrite (size_of_length _ _ C2); apply at_snoc|].
  split; [rewrite (size_of_length _ _ C3); apply at_snoc|].
  split; [apply at_snoc|].
  split; [rewrite (size_of_length _ _ C5); apply at_snoc|].
  split.
  { exists p. split; [exact (Hp Hf)|].
    rewrite (size_of_length _ _ C4). apply at_snoc. }
  destruct (String.eqb vol "Holder" || eq_zero en_post).
  - destruct Hclose as (Et & _ & _). rewrite Et, (C7 Hf).
    rewrite (size_of_length _ _ (eq_sym C6)). apply at_snoc.
  - destruct Hclose as (Et & _ & _). rewrite Et.
    apply at_end. unfold RunTallyScAccess.size. rewrite C6. lia.
Qed.

Lemma opened_entry_is_readable_before_its_total_witness :
  exists tally',
    UpdateSc RunTallySc.default (Samples.f 1) (Samples.f 2) (Samples.f 3)
      (Samples.f 5) (Samples.f 2) (Samples.f 3) (Samples.f 0)
      1000020040 "ZnS" true None = Ok tally' /\
    RunTallyScAccess.GetEnergy 0 tally' = Some (Samples.f 5) /\
    RunTallyScAccess.GetTotalDepositedEnergy 0 tally' = None.
Proof.
  eexists.
  match goal with
  | |- ?run /\ _ => assert (Hrun : run) by (vm_compute; reflexivity)
  end.
  split; [exact Hrun|].
  assert (Hc : tally_consistent RunTallySc.default) by (repeat split).
  destruct (opened_entry_is_readable_before_its_total RunTallySc.default
              (Samples.f 1) (Samples.f 2) (Samples.f 3) (Samples.f 5)
              (Samples.f 2) (Samples.f 3) (Samples.f 0) 1000020040 "ZnS"
              true None _ Hc eq_refl Hrun)
    as (_ & _ & _ & _ & Hen & _ & _ & Htot).
  split; [exact Hen | exact Htot].
Defined.
